(** * odmantic.model: the schema deriver and the instance codec

    A shallow embedding of [odmantic/model.py]: the helpers
    [is_valid_odm_field], [to_snake_case] and [find_duplicate_key], the
    class-definition hook [ModelMetaclass.__new__], and the two codec
    operations [Model.parse_doc] and [Model.doc].

    Python dictionaries keep insertion order, and the order decides which
    error is raised first and which duplicate is reported, so they are
    association lists here; Python sets are [gset string]. *)

From Stdlib Require Import Ascii String List Bool Arith Lia ZArith.
From stdpp Require Import base decidable option list strings gmap.
Import ListNotations.

Set Warnings "-register-all,-clear-no-such-hyp".

Local Open Scope string_scope.
Local Open Scope list_scope.

(** ** Strings *)

Module Str.

Definition code (c : ascii) : nat := nat_of_ascii c.

(** The character classes of the two patterns: [[A-Z]], [[a-z]],
    [[a-z0-9]], and [.] (anything but a newline). *)
Definition is_upper (c : ascii) : bool := ((65 <=? code c) && (code c <=? 90))%nat.
Definition is_lower (c : ascii) : bool := ((97 <=? code c) && (code c <=? 122))%nat.
Definition is_digit (c : ascii) : bool := ((48 <=? code c) && (code c <=? 57))%nat.
Definition is_dot (c : ascii) : bool := negb (code c =? 10)%nat.

(** [s.isascii()] *)
Definition is_ascii_char (c : ascii) : bool := (code c <? 128)%nat.

Fixpoint is_ascii (s : string) : bool :=
  match s with
  | EmptyString => true
  | String c s' => is_ascii_char c && is_ascii s'
  end.

(** A string of ASCII letters and digits. *)
Definition is_alnum_char (c : ascii) : bool :=
  is_upper c || is_lower c || is_digit c.

Fixpoint is_alnum (s : string) : bool :=
  match s with
  | EmptyString => true
  | String c s' => is_alnum_char c && is_alnum s'
  end.

(** [s.lower()] for a string of ASCII characters ([is_ascii]).  Python
    lower-cases the letters outside ASCII as well, which needs the tables of
    Unicode; here the other bytes are left as they are, so this is Python's
    [lower] on ASCII strings only, and what is stated of a lower-cased
    string is stated of an ASCII string. *)
Definition lower_char (c : ascii) : ascii :=
  if is_upper c then ascii_of_nat (code c + 32)%nat else c.

Fixpoint lower (s : string) : string :=
  match s with
  | EmptyString => EmptyString
  | String c s' => String (lower_char c) (lower s')
  end.

(** [s.startswith(p)] *)
Fixpoint startswith (p s : string) : bool :=
  match p, s with
  | EmptyString, _ => true
  | String a p', String b s' => Ascii.eqb a b && startswith p' s'
  | String _ _, EmptyString => false
  end.

(** [s.endswith(p)] *)
Definition endswith (p s : string) : bool :=
  startswith (String.rev p) (String.rev s).

(** [s[:-n]] for [n > 0] *)
Definition drop_last (n : nat) (s : string) : string :=
  String.substring 0 (String.length s - n)%nat s.

End Str.

(** ** Dictionaries *)

Abbreviation dict V := (list (string * V)).

Section Dict.
Context {V : Type}.

(** [d.get(k)] *)
Fixpoint dict_get (k : string) (d : dict V) : option V :=
  match d with
  | [] => None
  | (k', v) :: d' => if String.eqb k k' then Some v else dict_get k d'
  end.

(** [k in d] *)
Definition dict_mem (k : string) (d : dict V) : bool :=
  match dict_get k d with Some _ => true | None => false end.

(** [d[k] = v]: an existing key keeps its position, a new key goes last. *)
Fixpoint dict_set (k : string) (v : V) (d : dict V) : dict V :=
  match d with
  | [] => [(k, v)]
  | (k', v') :: d' =>
      if String.eqb k k' then (k, v) :: d' else (k', v') :: dict_set k v d'
  end.

Definition dict_keys (d : dict V) : list string := map fst d.
Definition dict_values (d : dict V) : list V := map snd d.

End Dict.

(** ** [is_valid_odm_field] *)

Definition is_valid_odm_field (name : string) : bool :=
  negb (Str.startswith "__" name) && negb (Str.endswith "__" name).

(** ** [to_snake_case]

    [re.sub] replaces the leftmost matches, left to right, without overlap,
    and resumes scanning where the previous match ended. *)

(** [re.sub("(.)([A-Z][a-z]+)", r"\1_\2", s)].  A match needs three
    characters [c0 c1 c2] with [c0] not a newline, [c1] upper case and [c2]
    lower case; the greedy [[a-z]+] then swallows the lower-case letters that
    follow.  [in_match] is true while the scan is inside that run. *)
Fixpoint re_sub_word (in_match : bool) (s : string) : string :=
  match s with
  | EmptyString => EmptyString
  | String c0 s1 =>
      if in_match && Str.is_lower c0 then String c0 (re_sub_word true s1)
      else
        match s1 with
        | String c1 (String c2 s3) =>
            if Str.is_dot c0 && Str.is_upper c1 && Str.is_lower c2
            then String c0 (String "_" (String c1 (String c2 (re_sub_word true s3))))
            else String c0 (re_sub_word false s1)
        | _ => String c0 (re_sub_word false s1)
        end
  end.

(** [re.sub("([a-z0-9])([A-Z])", r"\1_\2", s)] *)
Fixpoint re_sub_hump (s : string) : string :=
  match s with
  | EmptyString => EmptyString
  | String c0 s1 =>
      match s1 with
      | String c1 s2 =>
          if (Str.is_lower c0 || Str.is_digit c0) && Str.is_upper c1
          then String c0 (String "_" (String c1 (re_sub_hump s2)))
          else String c0 (re_sub_hump s1)
      | EmptyString => String c0 EmptyString
      end
  end.

Definition to_snake_case (s : string) : string :=
  let tmp := re_sub_word false s in
  Str.lower (re_sub_hump tmp).

(** ** Values, types and classes *)

(** Run-time values: what a raw document holds and what an instance holds.
    [VModel n d] is an instance of the schema-class named [n] whose field
    values are [d]; [VObject r] is an object of any other kind, told by its
    [repr]. *)
Inductive value : Type :=
  | VNone
  | VInt (z : Z)
  | VStr (s : string)
  | VObjectId (n : N)
  | VList (l : list value)
  | VDict (d : dict value)
  | VModel (cls_name : string) (d : dict value)
  | VObject (repr : string).        (* any other object *)

(** The validation engine (pydantic) is outside the repository; what is
    taken from it follows the spec's account of its interface.

    What the validation layer does for a key that the input lacks: the field
    is required, or the field has a default ([default], or the product of
    [default_factory]). *)
Inductive FieldDefault : Type :=
  | Required
  | Default (v : value).

(** An entry of pydantic's [__fields__]. *)
Record ModelField (T : Type) : Type := mkModelField {
  type_ : T;
  field_default : FieldDefault
}.
Arguments mkModelField {T}.
Arguments type_ {T}.
Arguments field_default {T}.

(** Modelled from the spec: the field descriptors of [odmantic.fields] and
    [odmantic.reference], which the sources do not include.  A descriptor
    ([ODMBaseField]) is a tagged variant: a plain field holds its document
    key and whether it is primary, a reference holds its document key and the
    class it points at.

    With them come the class objects that the metaclass builds ([Class], with
    the attributes that the codec reads: [__name__], [__odm_fields__],
    [__bson_serialized_fields__], [__primary_key__] and the validation
    engine's [__fields__]) and the objects that occur as annotations
    ([pytype]).  [TClass n b m] is a class: [b] tells whether
    [BSONSerializedField] is among its [__bases__], [m] is [Some c] when it
    is a subclass of [Model].  [TPyObject] is [pydantic.types.PyObject].
    [TUntouched] is an instance of one of [UNTOUCHED_TYPES]; [TGeneric] is
    any other annotation object that can be hashed (it is not a class and
    has no [__bases__]), [TUnhashable] one that cannot, such as the list
    [[int]]. *)
Inductive ODMBaseField : Type :=
  | ODMField (primary_field : bool) (key_name : string)
  | ODMReference (model : Class) (key_name : string)
with Class : Type :=
  | MkClass (name : string)
            (odm_fields : dict ODMBaseField)
            (bson_serialized_fields : gset string)
            (primary_key : string)
            (fields : dict (ModelField pytype))
with pytype : Type :=
  | TClass (name : string) (bson_base : bool) (model : option Class)
  | TPyObject
  | TUntouched
  | TGeneric (name : string)
  | TUnhashable.

Definition cls_name (c : Class) : string :=
  match c with MkClass n _ _ _ _ => n end.
Definition cls_odm_fields (c : Class) : dict ODMBaseField :=
  match c with MkClass _ f _ _ _ => f end.
Definition cls_bson_serialized_fields (c : Class) : gset string :=
  match c with MkClass _ _ b _ _ => b end.
Definition cls_primary_key (c : Class) : string :=
  match c with MkClass _ _ _ p _ => p end.
Definition cls_fields (c : Class) : dict (ModelField pytype) :=
  match c with MkClass _ _ _ _ f => f end.

(** [field.key_name] *)
Definition key_name (f : ODMBaseField) : string :=
  match f with
  | ODMField _ k => k
  | ODMReference _ k => k
  end.

(** [isinstance(field, ODMReference)] *)
Definition is_reference (f : ODMBaseField) : bool :=
  match f with
  | ODMField _ _ => false
  | ODMReference _ _ => true
  end.

(** [field.primary_field]; a reference is never primary. *)
Definition is_primary (f : ODMBaseField) : bool :=
  match f with
  | ODMField p _ => p
  | ODMReference _ _ => false
  end.

(** A callable given as [default_factory]. *)
Inductive Callable : Type :=
  | CType (t : pytype)
  | CFunction (id : nat).

(** pydantic's [FieldInfo], as [pydantic.Field(...)] returns it. *)
Record FieldInfo : Type := mkFieldInfo {
  fi_default : option value;
  fi_default_factory : option Callable
}.

(** Modelled from the spec: the field-configuration object of
    [odmantic.fields] ([NODMFieldInfo]: the validation-engine specification
    that it wraps, [primary_field] and [key_name]) and the
    reference-configuration object of [odmantic.reference]
    ([NODMReferenceInfo]: [key_name]), which the sources do not include.
    With them, the other things that a class body binds to a name. *)
Inductive nsvalue : Type :=
  | NODMFieldInfo (pydantic_field_info : FieldInfo)
                  (primary_field : bool) (key_name : option string)
  | NODMReferenceInfo (key_name : option string)
  | NUndefined
  | NPDFieldInfoClass               (* the class [pydantic.fields.FieldInfo] itself *)
  | NPDFieldInfo (fi : FieldInfo)   (* one of its instances *)
  | NUntouched                      (* function, property, classmethod, staticmethod *)
  | NValue (v : value)
  | NAnnotations (a : dict pytype)
  | NOdmFields (f : dict ODMBaseField)
  | NReferences (r : list string)
  | NBsonFields (b : gset string).

(** [isinstance(value, UNTOUCHED_TYPES)] on a bound value *)
Definition is_untouched_value (v : nsvalue) : bool :=
  match v with NUntouched => true | _ => false end.

(** [isinstance(field_type, UNTOUCHED_TYPES)] on an annotation *)
Definition is_untouched_type (t : pytype) : bool :=
  match t with TUntouched => true | _ => false end.

(** [field_type != PyObject] *)
Definition is_not_PyObject (t : pytype) : bool :=
  match t with TPyObject => false | _ => true end.

(** [BSONSerializedField in getattr(field_type, "__bases__", ())] *)
Definition has_bson_base (t : pytype) : bool :=
  match t with TClass _ b _ => b | _ => false end.

(** [hash(v)] returns: a dictionary can be looked up at [v]. *)
Definition is_hashable (t : pytype) : bool :=
  match t with TUnhashable => false | _ => true end.

(** ** Errors *)

Inductive error : Type :=
  | MultiplePrimaryKeys (name : string)
  | ReferenceOnNonModel (field_name name : string)
  | IssubclassArgNotClass
  | UnhashableType
  | UseOdmanticField
  | UnhandledFieldDefinition (name : string) (value : nsvalue)
  | DuplicateKeyName (key name : string)
  | KeyError (key : string)
  | NotSubscriptable
  | AttributeError
  | ValidationError.

Inductive result (A : Type) : Type :=
  | Ok (a : A)
  | Raise (e : error).
Arguments Ok {A}.
Arguments Raise {A}.

Definition bind {A B : Type} (m : result A) (k : A -> result B) : result B :=
  match m with
  | Ok a => k a
  | Raise e => Raise e
  end.

Notation "'do' x <- m ; k" := (bind m (fun x => k))
  (at level 10, x name, m at level 100, k at level 200).

(** A loop whose body may raise: the first error ends it. *)
Section ForEach.
Context {S A : Type}.
Variable body : S -> A -> result S.

Fixpoint for_each (l : list A) (st : S) : result S :=
  match l with
  | [] => Ok st
  | a :: l' => do st' <- body st a; for_each l' st'
  end.

End ForEach.

(** ** [find_duplicate_key] *)

Fixpoint find_duplicate_key_from (seen : gset string) (fields : list ODMBaseField)
  : option string :=
  match fields with
  | [] => None
  | f :: fields' =>
      if decide (key_name f ∈ seen) then Some (key_name f)
      else find_duplicate_key_from ({[ key_name f ]} ∪ seen) fields'
  end.

Definition find_duplicate_key (fields : list ODMBaseField) : option string :=
  find_duplicate_key_from ∅ fields.

(** ** [ModelMetaclass.__new__] *)

(** The local variables of the metaclass while it walks the class body. *)
Record scan : Type := mkScan {
  s_primary_field : option string;
  s_odm_fields : dict ODMBaseField;
  s_references : list string;
  s_bson_serialized_fields : gset string;
  s_namespace : dict nsvalue
}.

(** [(namespace.get("__module__"), namespace.get("__qualname__")) ==
    ("odmantic.model", "Model")]: the engine's own root class. *)
Definition is_root_model (namespace : dict nsvalue) : bool :=
  match dict_get "__module__" namespace, dict_get "__qualname__" namespace with
  | Some (NValue (VStr m)), Some (NValue (VStr q)) =>
      String.eqb m "odmantic.model" && String.eqb q "Model"
  | _, _ => false
  end.

(** [namespace.get("__annotations__", {})]; the annotations are taken as
    already resolved to type objects. *)
Definition get_annotations (namespace : dict nsvalue) : dict pytype :=
  match dict_get "__annotations__" namespace with
  | Some (NAnnotations a) => a
  | _ => []
  end.

(** [issubclass(field_type, Model)]: the class data when it holds, [None]
    when it does not; not a class at all is a [TypeError] of Python's own. *)
Definition issubclass_Model (t : pytype) : result (option Class) :=
  match t with
  | TClass _ _ m => Ok m
  | TPyObject => Ok None
  | TUntouched | TGeneric _ | TUnhashable => Raise IssubclassArgNotClass
  end.

(** [value.key_name if value.key_name is not None else field_name] *)
Definition key_name_or (key_name : option string) (field_name : string) : string :=
  match key_name with
  | Some k => k
  | None => field_name
  end.

Section Metaclass.

(** From [odmantic.types], which the sources do not include: the
    substitution table and the identifier type. *)
Variable _SUBSTITUTION_TYPES : pytype -> option pytype.
Variable _objectId : pytype.

(** Lines 76-78: substitute the storage types, key by key, in place. *)
Definition substitute (annotations : dict pytype) : dict pytype :=
  map (fun '(k, v) =>
         match _SUBSTITUTION_TYPES v with
         | Some subst_type => (k, subst_type)
         | None => (k, v)
         end) annotations.

(** Lines 74-78: the loop of the substitution.  [_SUBSTITUTION_TYPES.get(v)]
    hashes [v], so an annotation that cannot be hashed makes the loop raise
    [TypeError]. *)
Definition substitute_types (annotations : dict pytype) : result (dict pytype) :=
  if forallb is_hashable (dict_values annotations)
  then Ok (substitute annotations)
  else Raise UnhashableType.

(** Lines 81-83: the annotations that the loop passes over. *)
Definition is_skipped (field_name : string) (field_type : pytype) : bool :=
  negb (is_valid_odm_field field_name)
  || (is_untouched_type field_type && is_not_PyObject field_type).

(** Lines 80-129: the body of the loop over the annotations. *)
Definition scan_annotation (name : string) (st : scan) (item : string * pytype)
  : result scan :=
  let '(field_name, field_type) := item in
  if is_skipped field_name field_type
  then Ok st
  else
    let bson :=
      if has_bson_base field_type
      then {[ field_name ]} ∪ s_bson_serialized_fields st
      else s_bson_serialized_fields st in
    match default NUndefined (dict_get field_name (s_namespace st)) with
    | NODMFieldInfo pydantic_field_info primary_field key_name =>
        do primary <-
          (if primary_field then
             match s_primary_field st with
             | Some _ => Raise (MultiplePrimaryKeys name)
             | None => Ok (Some field_name)
             end
           else Ok (s_primary_field st));
        Ok {| s_primary_field := primary;
              s_odm_fields :=
                dict_set field_name
                  (ODMField primary_field (key_name_or key_name field_name))
                  (s_odm_fields st);
              s_references := s_references st;
              s_bson_serialized_fields := bson;
              s_namespace :=
                dict_set field_name (NPDFieldInfo pydantic_field_info)
                  (s_namespace st) |}
    | NODMReferenceInfo key_name =>
        do target <- issubclass_Model field_type;
        match target with
        | None => Raise (ReferenceOnNonModel field_name name)
        | Some model =>
            Ok {| s_primary_field := s_primary_field st;
                  s_odm_fields :=
                    dict_set field_name
                      (ODMReference model (key_name_or key_name field_name))
                      (s_odm_fields st);
                  s_references := s_references st ++ [field_name];
                  s_bson_serialized_fields := bson;
                  s_namespace := s_namespace st |}
        end
    | NUndefined =>
        Ok {| s_primary_field := s_primary_field st;
              s_odm_fields :=
                dict_set field_name (ODMField false field_name) (s_odm_fields st);
              s_references := s_references st;
              s_bson_serialized_fields := bson;
              s_namespace := s_namespace st |}
    | NPDFieldInfoClass => Raise UseOdmanticField
    | value => Raise (UnhandledFieldDefinition name value)
    end.

(** Lines 131-142: the body of the loop over the class body's names. *)
Definition scan_name (annotations : dict pytype) (odm_fields : dict ODMBaseField)
    (item : string * nsvalue) : dict ODMBaseField :=
  let '(field_name, value) := item in
  if dict_mem field_name annotations
     || negb (is_valid_odm_field field_name)
     || is_untouched_value value
  then odm_fields
  else dict_set field_name (ODMField false field_name) odm_fields.

(** Lines 64-142: the two loops over the class body. *)
Definition scan_fields (name : string) (namespace : dict nsvalue) : result scan :=
  do annotations <- substitute_types (get_annotations namespace);
  let namespace := dict_set "__annotations__" (NAnnotations annotations) namespace in
  do st <- for_each (scan_annotation name) annotations
             {| s_primary_field := None;
                s_odm_fields := [];
                s_references := [];
                s_bson_serialized_fields := ∅;
                s_namespace := namespace |};
  Ok {| s_primary_field := s_primary_field st;
        s_odm_fields :=
          fold_left (scan_name annotations) (s_namespace st) (s_odm_fields st);
        s_references := s_references st;
        s_bson_serialized_fields := s_bson_serialized_fields st;
        s_namespace := s_namespace st |}.

(** Lines 143-147: the primary key made up when none was declared. *)
Definition synthesize_primary (st : scan) : scan :=
  match s_primary_field st with
  | Some _ => st
  | None =>
      let namespace :=
        dict_set "id" (NPDFieldInfo (mkFieldInfo None (Some (CType _objectId))))
          (s_namespace st) in
      {| s_primary_field := Some "id";
         s_odm_fields := dict_set "id" (ODMField true "_id") (s_odm_fields st);
         s_references := s_references st;
         s_bson_serialized_fields := s_bson_serialized_fields st;
         s_namespace :=
           dict_set "__annotations__"
             (NAnnotations (dict_set "id" _objectId (get_annotations namespace)))
             namespace |}
  end.

(** Lines 64-147: everything before the duplicate check. *)
Definition collect_fields (name : string) (namespace : dict nsvalue) : result scan :=
  do st <- scan_fields name namespace;
  Ok (synthesize_primary st).

(** Lines 157-162: the container name. *)
Definition collection_name (name : string) : string :=
  let cls_name :=
    if Str.endswith "Model" name then Str.drop_last 5 name else name in
  to_snake_case cls_name.

(** Lines 153-162: the schema is stored in the class body. *)
Definition attach (name : string) (st : scan) : dict nsvalue :=
  let namespace := s_namespace st in
  let namespace := dict_set "__odm_fields__" (NOdmFields (s_odm_fields st)) namespace in
  let namespace := dict_set "__references__" (NReferences (s_references st)) namespace in
  let namespace :=
    dict_set "__primary_key__"
      (NValue (match s_primary_field st with Some p => VStr p | None => VNone end))
      namespace in
  let namespace :=
    dict_set "__bson_serialized_fields__"
      (NBsonFields (s_bson_serialized_fields st)) namespace in
  if dict_mem "__collection__" namespace then namespace
  else dict_set "__collection__" (NValue (VStr (collection_name name))) namespace.

(** The class body that [ModelMetaclass.__new__] hands on to
    [super().__new__] at line 164.  [Ok] says that the metaclass has raised
    none of its own errors on the way there; the metaclass of the validation
    engine, which is called with that class body, is outside the repository
    and may still refuse it. *)
Definition ModelMetaclass_new (name : string) (namespace : dict nsvalue)
  : result (dict nsvalue) :=
  if is_root_model namespace then Ok namespace
  else
    do st <- collect_fields name namespace;
    match find_duplicate_key (dict_values (s_odm_fields st)) with
    | Some duplicate_key => Raise (DuplicateKeyName duplicate_key name)
    | None => Ok (attach name st)
    end.

End Metaclass.

(** ** The class object *)

(** The class that comes out of a class body: the schema attributes are read
    back from the body, [__fields__] is what the validation engine built
    from it.  A body without a schema (the root class) has no such view. *)
Definition class_of (name : string) (namespace : dict nsvalue)
    (fields : dict (ModelField pytype)) : option Class :=
  match dict_get "__odm_fields__" namespace,
        dict_get "__bson_serialized_fields__" namespace,
        dict_get "__primary_key__" namespace with
  | Some (NOdmFields odm_fields), Some (NBsonFields bson), Some (NValue (VStr primary)) =>
      Some (MkClass name odm_fields bson primary fields)
  | _, _, _ => None
  end.

(** ** The instance codec *)

(** [obj[key]]: only a mapping can be indexed by a string. *)
Definition getitem (obj : value) (key : string) : result value :=
  match obj with
  | VDict d =>
      match dict_get key d with
      | Some v => Ok v
      | None => Raise (KeyError key)
      end
  | _ => Raise NotSubscriptable
  end.

(** Modelled from the spec: the validation engine's dump of a value
    ("materialize the instance to a plain name-to-value mapping"); nested
    instances become plain mappings, recursively. *)
Fixpoint dump (v : value) : value :=
  match v with
  | VList l => VList (map dump l)
  | VDict d => VDict (map (fun kv => (fst kv, dump (snd kv))) d)
  | VModel _ d => VDict (map (fun kv => (fst kv, dump (snd kv))) d)
  | _ => v
  end.

(** [self.dict()] for an instance whose field values are [self]. *)
Definition model_dict (self : dict value) : value :=
  dump (VModel "" self).

Section Codec.

(** The validation engine: how a value is validated and coerced to a type. *)
Variable validate : pytype -> value -> option value.
(** [type_.to_bson], when the type has it. *)
Variable to_bson : pytype -> option (value -> value).

(** Modelled from the spec: the engine's "construct and validate from field
    values", field by field: the input's value is validated and coerced to
    the field's type; a missing one is replaced by the field's default, and
    is an error for a required field. *)
Definition validate_value (obj : dict value) (field_name : string)
    (field : ModelField pytype) : result value :=
  match dict_get field_name obj with
  | Some v =>
      match validate (type_ field) v with
      | Some v' => Ok v'
      | None => Raise ValidationError
      end
  | None =>
      match field_default field with
      | Default v => Ok v
      | Required => Raise ValidationError
      end
  end.

Definition validate_field (obj : dict value) (values : dict value)
    (item : string * ModelField pytype) : result (dict value) :=
  do v <- validate_value obj (fst item) (snd item);
  Ok (dict_set (fst item) v values).

(** [cls.parse_obj(obj)] *)
Definition parse_obj (name : string) (fields : dict (ModelField pytype))
    (obj : dict value) : result value :=
  do values <- for_each (validate_field obj) fields [];
  Ok (VModel name values).

(** Lines 189-192: the value that [parse_doc] takes for a field;
    [parse_doc] is the method itself, for the call on the class that a
    reference points at. *)
Definition parse_doc_value (parse_doc : Class -> value -> result value)
    (raw_doc : value) (field : ODMBaseField) : result value :=
  match field with
  | ODMReference model key_name =>
      do raw <- getitem raw_doc key_name;
      parse_doc model raw
  | ODMField _ key_name => getitem raw_doc key_name
  end.

(** [doc[field_name] = ...] *)
Definition parse_doc_field (parse_doc : Class -> value -> result value)
    (raw_doc : value) (doc : dict value) (item : string * ODMBaseField)
  : result (dict value) :=
  do v <- parse_doc_value parse_doc raw_doc (snd item);
  Ok (dict_set (fst item) v doc).

(** [Model.parse_doc] *)
Fixpoint parse_doc (cls : Class) (raw_doc : value) : result value :=
  match cls with
  | MkClass name odm_fields _ _ fields =>
      do doc <- for_each (parse_doc_field parse_doc raw_doc) odm_fields [];
      parse_obj name fields doc
  end.

(** Lines 205-211: the value that [doc] stores for a plain field. *)
Definition doc_plain_value (cls : Class) (raw_doc : value) (field_name : string)
  : result value :=
  if decide (field_name ∈ cls_bson_serialized_fields cls) then
    match dict_get field_name (cls_fields cls) with
    | None => Raise (KeyError field_name)
    | Some f =>
        match to_bson (type_ f) with
        | None => Raise AttributeError
        | Some conv =>
            do v <- getitem raw_doc field_name;
            Ok (conv v)
        end
    end
  else getitem raw_doc field_name.

(** Lines 202-211: the value that [doc] stores for a field. *)
Definition doc_value (cls : Class) (raw_doc : value) (field_name : string)
    (field : ODMBaseField) : result value :=
  match field with
  | ODMReference _ _ =>
      do nested <- getitem raw_doc field_name;
      getitem nested "id"
  | ODMField _ _ => doc_plain_value cls raw_doc field_name
  end.

(** [doc[field.key_name] = ...] *)
Definition doc_field (cls : Class) (raw_doc : value) (doc : dict value)
    (item : string * ODMBaseField) : result (dict value) :=
  do v <- doc_value cls raw_doc (fst item) (snd item);
  Ok (dict_set (key_name (snd item)) v doc).

(** [Model.doc], on an instance of [cls] whose field values are [self]. *)
Definition doc (cls : Class) (self : dict value) : result (dict value) :=
  let raw_doc := model_dict self in
  for_each (doc_field cls raw_doc) (cls_odm_fields cls) [].

End Codec.

(** ** Vocabulary of the statements *)

(** The entries of a descriptor table that are marked primary. *)
Definition primary_entries (fs : dict ODMBaseField) : dict ODMBaseField :=
  List.filter (fun e => is_primary (snd e)) fs.

(** The document keys of a descriptor table, in order. *)
Definition key_names (fs : dict ODMBaseField) : list string :=
  map key_name (dict_values fs).

(** The primary field that the scan has recorded is the one primary entry
    of the table. *)
Definition primary_recorded (st : scan) : Prop :=
  match s_primary_field st with
  | None => primary_entries (s_odm_fields st) = []
  | Some p => exists kn, primary_entries (s_odm_fields st) = [(p, ODMField true kn)]
  end.

(** What holds of the scan all along the first loop: the primary field is
    recorded, it is an annotated name, and the class body binds it to the
    plain field specification that replaced its declaration. *)
Definition scan_inv (annotations : dict pytype) (st : scan) : Prop :=
  primary_recorded st /\
  (forall n f, dict_get n (s_odm_fields st) = Some f -> is_primary f = true ->
     dict_mem n annotations = true /\
     exists fi, dict_get n (s_namespace st) = Some (NPDFieldInfo fi)).

(** A primary declaration that is still to be processed. *)
Definition pending (st : scan) (x : string) : Prop :=
  exists fi kn, dict_get x (s_namespace st) = Some (NODMFieldInfo fi true kn).

(** The state in which the first loop starts (lines 67-79). *)
Definition scan_start (subst : pytype -> option pytype) (ns : dict nsvalue) : scan :=
  {| s_primary_field := None;
     s_odm_fields := [];
     s_references := [];
     s_bson_serialized_fields := ∅;
     s_namespace :=
       dict_set "__annotations__"
         (NAnnotations (substitute subst (get_annotations ns))) ns |}.

(** The descriptor that lines 87-121 make for an annotated field, from what
    the class body binds to its name and from its type. *)
Definition declared_descriptor (binding : option nsvalue) (field_name : string)
    (field_type : pytype) : option ODMBaseField :=
  match binding with
  | Some (NODMFieldInfo _ primary_field key_name) =>
      Some (ODMField primary_field (key_name_or key_name field_name))
  | Some (NODMReferenceInfo key_name) =>
      match field_type with
      | TClass _ _ (Some model) =>
          Some (ODMReference model (key_name_or key_name field_name))
      | _ => None
      end
  | Some NUndefined | None => Some (ODMField false field_name)
  | Some _ => None
  end.

(** What the class body binds to the name of an annotated field once the
    metaclass is done with it (line 103): a field configuration has given
    way to the validation-engine specification that it wraps. *)
Definition rebound (binding : option nsvalue) : option nsvalue :=
  match binding with
  | Some (NODMFieldInfo pydantic_field_info _ _) => Some (NPDFieldInfo pydantic_field_info)
  | _ => binding
  end.

(** The names of the annotations that the first loop retains, in order. *)
Definition retained_names (annotations : dict pytype) : list string :=
  map fst (List.filter (fun item => negb (is_skipped (fst item) (snd item)))
             annotations).

(** A string without its underscores. *)
Fixpoint without_underscores (s : string) : string :=
  match s with
  | EmptyString => EmptyString
  | String c s' =>
      if Ascii.eqb c "_" then without_underscores s'
      else String c (without_underscores s')
  end.

(** What holds of the references all along the first loop: a reference
    descriptor is listed, and a listed name has a reference descriptor, is
    bound to a reference configuration and is an annotated name. *)
Definition references_inv (annotations : dict pytype) (st : scan) : Prop :=
  (forall n m k, dict_get n (s_odm_fields st) = Some (ODMReference m k) ->
     n ∈ s_references st) /\
  (forall n, n ∈ s_references st ->
     (exists m k, dict_get n (s_odm_fields st) = Some (ODMReference m k)) /\
     (exists kn, dict_get n (s_namespace st) = Some (NODMReferenceInfo kn)) /\
     dict_mem n annotations = true).

(** A table of plain descriptors, each under its own name as the document
    key, none of them named ["_id"]. *)
Definition plain_table (fs : dict ODMBaseField) : Prop :=
  NoDup (dict_keys fs) /\ ("_id" ∉ dict_keys fs) /\
  forall n f, dict_get n fs = Some f -> f = ODMField false n.

(** The conversion to snake case in the words of the specification: "a
    boundary is inserted before an uppercase letter that follows a lowercase
    letter or digit, and before an uppercase letter that follows a run of
    uppercase letters ending a new capitalized word", and the result is
    lower case.  [prev] is the character before [c], [rest] what comes after
    it. *)
Definition starts_lower (s : string) : bool :=
  match s with
  | String c _ => Str.is_lower c
  | EmptyString => false
  end.

Definition word_boundary (prev c : ascii) (rest : string) : bool :=
  Str.is_upper c &&
  (Str.is_lower prev || Str.is_digit prev || (Str.is_upper prev && starts_lower rest)).

Fixpoint spec_boundaries (prev : ascii) (s : string) : string :=
  match s with
  | EmptyString => EmptyString
  | String c rest =>
      if word_boundary prev c rest
      then String "_" (String c (spec_boundaries c rest))
      else String c (spec_boundaries c rest)
  end.

Definition spec_snake_case (s : string) : string :=
  Str.lower
    match s with
    | EmptyString => EmptyString
    | String c rest => String c (spec_boundaries c rest)
    end.

(** The names that the second loop of the metaclass registers, in the order
    of the class body: those that are not annotated, are valid field names
    and are bound to no function, property, class method or static
    method. *)
Definition unannotated_names (annotations : dict pytype) (namespace : dict nsvalue)
  : list string :=
  map fst
    (List.filter
       (fun item =>
          negb (dict_mem (fst item) annotations
                || negb (is_valid_odm_field (fst item))
                || is_untouched_value (snd item)))
       namespace).

(** The names that the class body declares as fields: the retained
    annotations, then the names without annotation. *)
Definition declared_names (annotations : dict pytype) (namespace : dict nsvalue)
  : list string :=
  retained_names annotations ++ unannotated_names annotations namespace.

(** ** Sample classes *)

Module Samples.

Definition str : pytype := TClass "str" false None.
Definition int : pytype := TClass "int" false None.
Definition objectId : pytype := TClass "_objectId" false None.
(** A type with [BSONSerializedField] among its bases. *)
Definition datetime : pytype := TClass "_datetime" true None.

Definition no_substitution : pytype -> option pytype := fun _ => None.

Definition plain_field : FieldInfo := mkFieldInfo None None.

(** What [Reference()] returns: it stays bound to the name of a reference,
    and the validation engine takes it for the default of the field. *)
Definition reference_info : value := VObject "ODMReferenceInfo".

(** [class UserModel(Model): name: str; email: str = Field(key_name="email_address")] *)
Definition user_body : dict nsvalue :=
  [("__module__", NValue (VStr "app"));
   ("__qualname__", NValue (VStr "UserModel"));
   ("__annotations__", NAnnotations [("name", str); ("email", str)]);
   ("email", NODMFieldInfo plain_field false (Some "email_address"))].

(** [class Account(Model): id: int; owner: str] *)
Definition account_body : dict nsvalue :=
  [("__module__", NValue (VStr "app"));
   ("__qualname__", NValue (VStr "Account"));
   ("__annotations__", NAnnotations [("id", int); ("owner", str)])].

(** The validation layer's fields of [UserModel]; the identifier has a
    default. *)
Definition user_fields : dict (ModelField pytype) :=
  [("name", mkModelField str Required);
   ("email", mkModelField str Required);
   ("id", mkModelField objectId (Default (VObjectId 7)))].

Definition user_class : Class :=
  MkClass "UserModel"
    [("name", ODMField false "name");
     ("email", ODMField false "email_address");
     ("id", ODMField true "_id")]
    ∅ "id" user_fields.

(** A validation layer that takes every value as it is. *)
Definition accept_all : pytype -> value -> option value := fun _ v => Some v.

Definition no_to_bson : pytype -> option (value -> value) := fun _ => None.

(** [class Item(Model): x: int = pydantic.Field(3)] *)
Definition item_body : dict nsvalue :=
  [("__module__", NValue (VStr "app"));
   ("__qualname__", NValue (VStr "Item"));
   ("__annotations__", NAnnotations [("x", int)]);
   ("x", NPDFieldInfo (mkFieldInfo (Some (VInt 3)) None))].

(** [class Author(Model): pk: str = Field(primary_field=True)] *)
Definition author_body : dict nsvalue :=
  [("__module__", NValue (VStr "app"));
   ("__qualname__", NValue (VStr "Author"));
   ("__annotations__", NAnnotations [("pk", str)]);
   ("pk", NODMFieldInfo plain_field true None)].

Definition author_fields : dict (ModelField pytype) :=
  [("pk", mkModelField str Required)].

Definition author_class : Class :=
  MkClass "Author" [("pk", ODMField true "pk")] ∅ "pk" author_fields.

Definition author : pytype := TClass "Author" false (Some author_class).

(** [class Post(Model): title: str; author: Author = Reference()] *)
Definition post_body : dict nsvalue :=
  [("__module__", NValue (VStr "app"));
   ("__qualname__", NValue (VStr "Post"));
   ("__annotations__", NAnnotations [("title", str); ("author", author)]);
   ("author", NODMReferenceInfo None)].

Definition post_fields : dict (ModelField pytype) :=
  [("title", mkModelField str Required);
   ("author", mkModelField author (Default reference_info));
   ("id", mkModelField objectId (Default (VObjectId 7)))].

Definition post_class : Class :=
  MkClass "Post"
    [("title", ODMField false "title");
     ("author", ODMReference author_class "author");
     ("id", ODMField true "_id")]
    ∅ "id" post_fields.

(** [Post(title="On engines", author=Author(pk="ada"), id=ObjectId(1))] *)
Definition post_self : dict value :=
  [("title", VStr "On engines");
   ("author", VModel "Author" [("pk", VStr "ada")]);
   ("id", VObjectId 1)].

(** [class Writer(Model): pk: str = Field(primary_field=True); id: int] *)
Definition writer_body : dict nsvalue :=
  [("__module__", NValue (VStr "app"));
   ("__qualname__", NValue (VStr "Writer"));
   ("__annotations__", NAnnotations [("pk", str); ("id", int)]);
   ("pk", NODMFieldInfo plain_field true None)].

Definition writer_fields : dict (ModelField pytype) :=
  [("pk", mkModelField str Required); ("id", mkModelField int Required)].

Definition writer_class : Class :=
  MkClass "Writer" [("pk", ODMField true "pk"); ("id", ODMField false "id")]
    ∅ "pk" writer_fields.

Definition writer : pytype := TClass "Writer" false (Some writer_class).

(** [class Note(Model): by: Writer = Reference()] *)
Definition note_body : dict nsvalue :=
  [("__module__", NValue (VStr "app"));
   ("__qualname__", NValue (VStr "Note"));
   ("__annotations__", NAnnotations [("by", writer)]);
   ("by", NODMReferenceInfo None)].

Definition note_fields : dict (ModelField pytype) :=
  [("by", mkModelField writer (Default reference_info));
   ("id", mkModelField objectId (Default (VObjectId 7)))].

Definition note_class : Class :=
  MkClass "Note"
    [("by", ODMReference writer_class "by"); ("id", ODMField true "_id")]
    ∅ "id" note_fields.

(** [Note(by=Writer(pk="ada", id=42), id=ObjectId(2))] *)
Definition note_self : dict value :=
  [("by", VModel "Writer" [("pk", VStr "ada"); ("id", VInt 42)]);
   ("id", VObjectId 2)].

(** A schema-class that also has [BSONSerializedField] among its bases:
    [class Stamp(Model, BSONSerializedField)]. *)
Definition stamp_fields : dict (ModelField pytype) :=
  [("id", mkModelField objectId (Default (VObjectId 7)))].

Definition stamp_class : Class :=
  MkClass "Stamp" [("id", ODMField true "_id")] ∅ "id" stamp_fields.

Definition stamp : pytype := TClass "Stamp" true (Some stamp_class).

(** [class Event(Model): at: Stamp = Reference()] *)
Definition event_body : dict nsvalue :=
  [("__module__", NValue (VStr "app"));
   ("__qualname__", NValue (VStr "Event"));
   ("__annotations__", NAnnotations [("at", stamp)]);
   ("at", NODMReferenceInfo None)].

Definition event_fields : dict (ModelField pytype) :=
  [("at", mkModelField stamp (Default reference_info));
   ("id", mkModelField objectId (Default (VObjectId 7)))].

Definition event_class : Class :=
  MkClass "Event"
    [("at", ODMReference stamp_class "at"); ("id", ODMField true "_id")]
    {[ "at" ]} "id" event_fields.

(** [Event(at=Stamp(id=ObjectId(9)), id=ObjectId(3))] *)
Definition event_self : dict value :=
  [("at", VModel "Stamp" [("id", VObjectId 9)]); ("id", VObjectId 3)].

(** [class Log(Model): at: datetime], [datetime] being custom-serialized. *)
Definition log_body : dict nsvalue :=
  [("__module__", NValue (VStr "app"));
   ("__qualname__", NValue (VStr "Log"));
   ("__annotations__", NAnnotations [("at", datetime)])].

Definition log_fields : dict (ModelField pytype) :=
  [("at", mkModelField datetime Required);
   ("id", mkModelField objectId (Default (VObjectId 7)))].

Definition log_class : Class :=
  MkClass "Log"
    [("at", ODMField false "at"); ("id", ODMField true "_id")]
    {[ "at" ]} "id" log_fields.

(** [Log(at=5, id=ObjectId(4))] *)
Definition log_self : dict value :=
  [("at", VInt 5); ("id", VObjectId 4)].

(** A conversion that wraps the value, for the types that have
    [BSONSerializedField] among their bases, and a validation that unwraps. *)
Definition wrap_to_bson : pytype -> option (value -> value) :=
  fun t => if has_bson_base t then Some (fun v => VList [v]) else None.

Definition unwrap_validate : pytype -> value -> option value :=
  fun t v =>
    if has_bson_base t then
      match v with
      | VList [x] => Some x
      | _ => None
      end
    else Some v.

(** [class Clash(Model): a: str = Field(primary_field=True);
    b: str = Field(primary_field=True)] *)
Definition two_primaries_body : dict nsvalue :=
  [("__module__", NValue (VStr "app"));
   ("__qualname__", NValue (VStr "Clash"));
   ("__annotations__", NAnnotations [("a", str); ("b", str)]);
   ("a", NODMFieldInfo plain_field true None);
   ("b", NODMFieldInfo plain_field true None)].

(** [class Clash(Model): name: str; email: str = Field(key_name="name")] *)
Definition duplicate_key_body : dict nsvalue :=
  [("__module__", NValue (VStr "app"));
   ("__qualname__", NValue (VStr "Clash"));
   ("__annotations__", NAnnotations [("name", str); ("email", str)]);
   ("email", NODMFieldInfo plain_field false (Some "name"))].

(** [class Clash(Model): x: int = Field(key_name="_id")] *)
Definition identity_key_body : dict nsvalue :=
  [("__module__", NValue (VStr "app"));
   ("__qualname__", NValue (VStr "Clash"));
   ("__annotations__", NAnnotations [("x", int)]);
   ("x", NODMFieldInfo plain_field false (Some "_id"))].

(** [class Item(Model): x: int = FieldInfo], the class itself *)
Definition foreign_class_body : dict nsvalue :=
  [("__module__", NValue (VStr "app"));
   ("__qualname__", NValue (VStr "Item"));
   ("__annotations__", NAnnotations [("x", int)]);
   ("x", NPDFieldInfoClass)].

(** The class body of [odmantic.model.Model] itself. *)
Definition root_body : dict nsvalue :=
  [("__module__", NValue (VStr "odmantic.model"));
   ("__qualname__", NValue (VStr "Model"));
   ("__slots__", NValue (VList []))].

(** A stored user without the identity key. *)
Definition user_doc_without_id : dict value :=
  [("name", VStr "Ada"); ("email_address", VStr "ada@example.org")].

(** [class Post(Model): title: str; author: str = Reference()] *)
Definition bad_reference_body : dict nsvalue :=
  [("__module__", NValue (VStr "app"));
   ("__qualname__", NValue (VStr "Post"));
   ("__annotations__", NAnnotations [("title", str); ("author", str)]);
   ("author", NODMReferenceInfo None)].

(** [class Item(Model): x: int = 3] *)
Definition plain_default_body : dict nsvalue :=
  [("__module__", NValue (VStr "app"));
   ("__qualname__", NValue (VStr "Item"));
   ("__annotations__", NAnnotations [("x", int)]);
   ("x", NValue (VInt 3))].

(** A plain date-time type, and a table that puts the custom-serialized
    type in its place. *)
Definition plain_datetime : pytype := TClass "datetime" false None.

Definition bson_substitution : pytype -> option pytype :=
  fun t =>
    match t with
    | TClass "datetime" false None => Some datetime
    | _ => None
    end.

(** [class Log(Model): at: datetime.datetime] *)
Definition substituted_body : dict nsvalue :=
  [("__module__", NValue (VStr "app"));
   ("__qualname__", NValue (VStr "Log"));
   ("__annotations__", NAnnotations [("at", plain_datetime)])].

(** [class Tag(Model): label = Field(primary_field=True, key_name="l")],
    a field configuration on a name without annotation. *)
Definition unannotated_body : dict nsvalue :=
  [("__module__", NValue (VStr "app"));
   ("__qualname__", NValue (VStr "Tag"));
   ("label", NODMFieldInfo plain_field true (Some "l"))].

(** [UserModel(name="Ada", email="ada@example.org", id=ObjectId(1))] *)
Definition user_self : dict value :=
  [("name", VStr "Ada"); ("email", VStr "ada@example.org"); ("id", VObjectId 1)].

(** A stored post with the document of its author nested in it. *)
Definition post_doc : dict value :=
  [("title", VStr "On engines");
   ("author", VDict [("pk", VStr "ada")]);
   ("_id", VObjectId 1)].

(** [class Greeter(Model): name: str; def greet(self): ...] *)
Definition method_body : dict nsvalue :=
  [("__module__", NValue (VStr "app"));
   ("__qualname__", NValue (VStr "Greeter"));
   ("__annotations__", NAnnotations [("name", str)]);
   ("greet", NUntouched)].

(** [class K(Model): x: int; _secret = 3] *)
Definition private_body : dict nsvalue :=
  [("__module__", NValue (VStr "app"));
   ("__qualname__", NValue (VStr "K"));
   ("__annotations__", NAnnotations [("x", int)]);
   ("_secret", NValue (VInt 3))].

(** The validation engine takes no name that starts with an underscore for
    a field: its fields are [x] and the synthesized [id]. *)
Definition private_fields : dict (ModelField pytype) :=
  [("x", mkModelField int Required);
   ("id", mkModelField objectId (Default (VObjectId 7)))].

(** [K(x=1, id=ObjectId(1))] *)
Definition private_self : dict value :=
  [("x", VInt 1); ("id", VObjectId 1)].

(** [class My_Class(Model): x: int] *)
Definition my_class_body : dict nsvalue :=
  [("__module__", NValue (VStr "app"));
   ("__qualname__", NValue (VStr "My_Class"));
   ("__annotations__", NAnnotations [("x", int)])].

(** [class UserProfile(Model): bio: str] *)
Definition profile_body : dict nsvalue :=
  [("__module__", NValue (VStr "app"));
   ("__qualname__", NValue (VStr "UserProfile"));
   ("__annotations__", NAnnotations [("bio", str)])].

(** [class K(Model): x: [int]], a list where a type is expected. *)
Definition unhashable_body : dict nsvalue :=
  [("__module__", NValue (VStr "app"));
   ("__qualname__", NValue (VStr "K"));
   ("__annotations__", NAnnotations [("x", TUnhashable)])].

(** A stored user. *)
Definition user_doc : dict value :=
  [("name", VStr "Ada"); ("email_address", VStr "ada@example.org");
   ("_id", VObjectId 1)].

End Samples.

(** * Properties *)

(** ** [to_snake_case] *)

Example to_snake_case_examples :
  map to_snake_case
    ["User"; "UserProfile"; "HTTPResponseCode2XX"; "AaBb"; "ABb";
     "getHTTPResponse"; "a1B2c"; ""] =
    ["user"; "user_profile"; "http_response_code2_xx"; "aa_bb"; "a_bb";
     "get_http_response"; "a1_b2c"; ""].
Proof. reflexivity. Qed.

(** Inside a match, the run of lower-case letters is copied, and the scan
    starts afresh where the run ends. *)
Lemma re_sub_word_run run rest :
  Forall (fun c => Str.is_lower c = true) (list_ascii_of_string run) ->
  match rest with
  | EmptyString => True
  | String c _ => Str.is_lower c = false
  end ->
  re_sub_word true (run ++ rest)%string = (run ++ re_sub_word false rest)%string.
Proof.
  intros Hrun Hrest. induction run as [|c run IH]; simpl in *.
  - destruct rest as [|c rest]; [reflexivity|].
    simpl. now rewrite Hrest.
  - apply Forall_cons in Hrun as [Hc Hrun]. rewrite Hc. simpl.
    now rewrite IH.
Qed.

(** A match of [(.)([A-Z][a-z]+)] at the head: the underscore goes in after
    the first character, the whole run of lower-case letters is consumed,
    and the scan resumes after it. *)
Lemma re_sub_word_match c0 c1 c2 run rest :
  Str.is_dot c0 = true -> Str.is_upper c1 = true -> Str.is_lower c2 = true ->
  Forall (fun c => Str.is_lower c = true) (list_ascii_of_string run) ->
  match rest with
  | EmptyString => True
  | String c _ => Str.is_lower c = false
  end ->
  re_sub_word false (String c0 (String c1 (String c2 (run ++ rest)%string))) =
  String c0 (String "_"
    (String c1 (String c2 (run ++ re_sub_word false rest)%string))).
Proof.
  intros H0 H1 H2 Hrun Hrest. simpl. rewrite H0, H1, H2. simpl.
  now rewrite re_sub_word_run.
Qed.

(** No match at the head: the character is copied and the scan moves on by
    one. *)
Lemma re_sub_word_no_match c0 s :
  match s with
  | String c1 (String c2 _) =>
      Str.is_dot c0 && Str.is_upper c1 && Str.is_lower c2 = false
  | _ => True
  end ->
  re_sub_word false (String c0 s) = String c0 (re_sub_word false s).
Proof.
  intros H. simpl. destruct s as [|c1 [|c2 s]]; try reflexivity.
  now rewrite H.
Qed.

Lemma re_sub_word_cons b c0 s1 :
  re_sub_word b (String c0 s1) =
  if b && Str.is_lower c0 then String c0 (re_sub_word true s1)
  else
    match s1 with
    | String c1 (String c2 s3) =>
        if Str.is_dot c0 && Str.is_upper c1 && Str.is_lower c2
        then String c0 (String "_" (String c1 (String c2 (re_sub_word true s3))))
        else String c0 (re_sub_word false s1)
    | _ => String c0 (re_sub_word false s1)
    end.
Proof. reflexivity. Qed.

Lemma re_sub_hump_cons c0 c1 s2 :
  re_sub_hump (String c0 (String c1 s2)) =
  if (Str.is_lower c0 || Str.is_digit c0) && Str.is_upper c1
  then String c0 (String "_" (String c1 (re_sub_hump s2)))
  else String c0 (re_sub_hump (String c1 s2)).
Proof. reflexivity. Qed.

(** ** Prefixes and suffixes *)

Lemma string_append_cons x (a b : string) :
  (String x a ++ b)%string = String x (a ++ b)%string.
Proof. reflexivity. Qed.

Lemma string_append_assoc (a b c : string) :
  ((a ++ b) ++ c = a ++ (b ++ c))%string.
Proof.
  induction a as [|x a IH]; [reflexivity|].
  rewrite !string_append_cons. f_equal. exact IH.
Qed.

Lemma rev_app_append s p acc :
  String.rev_app (s ++ p)%string acc = String.rev_app p (String.rev_app s acc).
Proof.
  revert acc. induction s as [|c s IH]; intros acc; [reflexivity|].
  rewrite string_append_cons. simpl. apply IH.
Qed.

Lemma rev_app_acc p acc :
  String.rev_app p acc = (String.rev_app p "" ++ acc)%string.
Proof.
  revert acc. induction p as [|c p IH]; intros acc; simpl; [reflexivity|].
  rewrite (IH (String c acc)), (IH (String c "")), string_append_assoc.
  reflexivity.
Qed.

Lemma startswith_append q x : Str.startswith q (q ++ x)%string = true.
Proof.
  induction q as [|c q IH]; [reflexivity|].
  rewrite string_append_cons. simpl. rewrite Ascii.eqb_refl. exact IH.
Qed.

Lemma endswith_append p s : Str.endswith p (s ++ p)%string = true.
Proof.
  unfold Str.endswith, String.rev.
  rewrite rev_app_append, (rev_app_acc p (String.rev_app s "")).
  apply startswith_append.
Qed.

Lemma string_length_append s p :
  String.length (s ++ p)%string = (String.length s + String.length p)%nat.
Proof.
  induction s as [|c s IH]; [reflexivity|].
  rewrite string_append_cons. simpl. f_equal. exact IH.
Qed.

Lemma substring_append s p : substring 0 (String.length s) (s ++ p)%string = s.
Proof.
  induction s as [|c s IH]; [now destruct p|].
  rewrite string_append_cons. simpl. f_equal. exact IH.
Qed.

Lemma drop_last_append s p : Str.drop_last (String.length p) (s ++ p)%string = s.
Proof.
  unfold Str.drop_last. rewrite string_length_append, Nat.add_sub.
  apply substring_append.
Qed.

(** ** The two passes and the word boundaries *)

Lemma is_upper_classes c :
  Str.is_upper c = true ->
  Str.is_lower c = false /\ Str.is_digit c = false /\ Str.is_dot c = true.
Proof. destruct c as [[] [] [] [] [] [] [] []]; intros H; try discriminate; auto. Qed.

Lemma is_lower_not_upper c : Str.is_lower c = true -> Str.is_upper c = false.
Proof. destruct c as [[] [] [] [] [] [] [] []]; intros H; try discriminate; auto. Qed.

(** The first pass leaves the first character where it is. *)
Lemma re_sub_word_head b c s : exists r, re_sub_word b (String c s) = String c r.
Proof.
  rewrite re_sub_word_cons. destruct (b && Str.is_lower c); [eauto|].
  destruct s as [|c1 [|c2 s3]]; eauto.
  destruct (_ && _ && _); eauto.
Qed.

(** The second pass steps over an upper-case letter. *)
Lemma re_sub_hump_upper c r :
  Str.is_upper c = true -> re_sub_hump (String c r) = String c (re_sub_hump r).
Proof.
  intros Hc. destruct r as [|c1 r]; [reflexivity|].
  rewrite re_sub_hump_cons.
  destruct (is_upper_classes c Hc) as (-> & -> & _). reflexivity.
Qed.

(** The second pass on a character that the first pass has copied, when
    what the first pass has made of the rest starts with [c1]. *)
Lemma re_sub_hump_step c0 c1 r t :
  re_sub_hump (String c1 r) = String c1 t ->
  re_sub_hump (String c0 (String c1 r)) =
  if (Str.is_lower c0 || Str.is_digit c0) && Str.is_upper c1
  then String c0 (String "_" (String c1 t))
  else String c0 (String c1 t).
Proof.
  intros Ht. rewrite re_sub_hump_cons.
  destruct ((Str.is_lower c0 || Str.is_digit c0) && Str.is_upper c1) eqn:E.
  - apply andb_prop in E as [_ Hc1]. rewrite (re_sub_hump_upper c1 r Hc1) in Ht.
    now injection Ht as ->.
  - now rewrite Ht.
Qed.

(** On letters and digits, the two passes put the underscores exactly at the
    word boundaries, whether or not the scan of the first pass is inside a
    match. *)
Lemma snake_passes_boundaries n :
  forall b c0 s1,
    String.length s1 < n ->
    Str.is_alnum (String c0 s1) = true ->
    re_sub_hump (re_sub_word b (String c0 s1)) = String c0 (spec_boundaries c0 s1).
Proof.
  induction n as [|n IH]; intros b c0 s1 Hlen Hal; [lia|].
  simpl in Hal. apply andb_prop in Hal as [Hc0 Hs1].
  assert (Hcopy : forall b',
             (Str.is_lower c0 = true \/
              match s1 with
              | String c1 (String c2 _) =>
                  Str.is_dot c0 && Str.is_upper c1 && Str.is_lower c2 = false
              | _ => True
              end) ->
             re_sub_hump (String c0 (re_sub_word b' s1)) =
             String c0 (spec_boundaries c0 s1)).
  { intros b' Hno. destruct s1 as [|c1 s2]; [reflexivity|].
    destruct (re_sub_word_head b' c1 s2) as [r Hr].
    pose proof (IH b' c1 s2 ltac:(simpl in Hlen; lia) Hs1) as Hrec.
    rewrite Hr in Hrec |- *.
    rewrite (re_sub_hump_step c0 c1 r _ Hrec).
    cbn [spec_boundaries]. unfold word_boundary.
    destruct (Str.is_upper c1) eqn:Hc1;
      [|now rewrite andb_false_r].
    rewrite andb_true_r. cbn [andb].
    destruct (Str.is_lower c0 || Str.is_digit c0) eqn:Hld; [reflexivity|].
    cbn [orb].
    destruct (Str.is_upper c0) eqn:Hup; [|reflexivity].
    destruct Hno as [Hlow|Hno].
    { apply orb_false_elim in Hld as [Hl _]. congruence. }
    destruct s2 as [|c2 s3]; [reflexivity|].
    cbn [starts_lower andb].
    destruct (is_upper_classes c0 Hup) as (_ & _ & Hdot).
    rewrite Hdot in Hno. cbn [andb] in Hno. now rewrite Hno. }
  rewrite re_sub_word_cons.
  destruct (b && Str.is_lower c0) eqn:Hb.
  { apply andb_prop in Hb as [_ Hlow]. apply Hcopy. now left. }
  destruct s1 as [|c1 [|c2 s3]]; try (apply Hcopy; now right).
  destruct (Str.is_dot c0 && Str.is_upper c1 && Str.is_lower c2) eqn:Hm;
    [|apply Hcopy; now right].
  apply andb_prop in Hm as [Hm Hc2]. apply andb_prop in Hm as [_ Hc1].
  rewrite re_sub_hump_cons. change (Str.is_upper "_") with false.
  rewrite andb_false_r.
  rewrite re_sub_hump_cons. change (Str.is_lower "_" || Str.is_digit "_") with false.
  cbn [andb].
  rewrite (re_sub_hump_upper c1 _ Hc1).
  assert (Hrun : String c2 (re_sub_word true s3) = re_sub_word true (String c2 s3)).
  { rewrite re_sub_word_cons, Hc2. reflexivity. }
  rewrite Hrun.
  simpl in Hs1. apply andb_prop in Hs1 as [_ Hs2].
  rewrite (IH true c2 s3 ltac:(simpl in Hlen; lia) Hs2).
  cbn [spec_boundaries]. unfold word_boundary. cbn [starts_lower].
  rewrite Hc1, Hc2, (is_lower_not_upper c2 Hc2). cbn [andb].
  rewrite andb_true_r.
  unfold Str.is_alnum_char in Hc0.
  replace (Str.is_lower c0 || Str.is_digit c0 || Str.is_upper c0) with true;
    [reflexivity|].
  symmetry. rewrite <- Hc0.
  destruct (Str.is_upper c0), (Str.is_lower c0), (Str.is_digit c0); reflexivity.
Qed.

(** On a name of letters and digits, [to_snake_case] is the conversion that
    the specification words. *)
Lemma to_snake_case_spec s :
  Str.is_alnum s = true -> to_snake_case s = spec_snake_case s.
Proof.
  intros Hs. unfold to_snake_case, spec_snake_case.
  destruct s as [|c0 s1]; [reflexivity|].
  now rewrite (snake_passes_boundaries (S (String.length s1)) false c0 s1 ltac:(lia) Hs).
Qed.

Lemma is_alnum_append a b :
  Str.is_alnum (a ++ b)%string = Str.is_alnum a && Str.is_alnum b.
Proof.
  induction a as [|c a IH]; [reflexivity|].
  rewrite string_append_cons. simpl. now rewrite IH, andb_assoc.
Qed.

(** What starts with [q] is [q] followed by something, and what ends with
    [p] is something followed by [p]. *)
Lemma startswith_inv q r :
  Str.startswith q r = true -> exists x, r = (q ++ x)%string.
Proof.
  revert r. induction q as [|c q IH]; intros r H; [now exists r|].
  destruct r as [|d r]; [discriminate|].
  simpl in H. apply andb_prop in H as [Hc Hq].
  apply Ascii.eqb_eq in Hc as ->. destruct (IH r Hq) as [x ->].
  now exists x.
Qed.

Lemma rev_app_rev_app s a b :
  String.rev_app (String.rev_app s a) b = String.rev_app a (s ++ b)%string.
Proof.
  revert a. induction s as [|c s IH]; intros a; [reflexivity|].
  simpl. now rewrite IH.
Qed.

Lemma string_append_nil_r (s : string) : (s ++ "")%string = s.
Proof.
  induction s as [|c s IH]; [reflexivity|].
  rewrite string_append_cons. now rewrite IH.
Qed.

Lemma endswith_inv p s :
  Str.endswith p s = true -> exists x, s = (x ++ p)%string.
Proof.
  unfold Str.endswith, String.rev. intros H.
  apply startswith_inv in H as [x Hx].
  exists (String.rev_app x "").
  assert (Hs : s = String.rev_app (String.rev_app s "") "").
  { now rewrite rev_app_rev_app, string_append_nil_r. }
  rewrite Hs, Hx, rev_app_append, rev_app_rev_app, string_append_nil_r.
  simpl. apply rev_app_acc.
Qed.

(** ** Class definition on the sample classes *)

Example define_two_primaries :
  ModelMetaclass_new Samples.no_substitution Samples.objectId "Clash"
    Samples.two_primaries_body = Raise (MultiplePrimaryKeys "Clash").
Proof. vm_compute. reflexivity. Qed.

Example define_duplicate_key :
  ModelMetaclass_new Samples.no_substitution Samples.objectId "Clash"
    Samples.duplicate_key_body = Raise (DuplicateKeyName "name" "Clash").
Proof. vm_compute. reflexivity. Qed.

Example define_identity_key_taken :
  ModelMetaclass_new Samples.no_substitution Samples.objectId "Clash"
    Samples.identity_key_body = Raise (DuplicateKeyName "_id" "Clash").
Proof. vm_compute. reflexivity. Qed.

Example define_foreign_class :
  ModelMetaclass_new Samples.no_substitution Samples.objectId "Item"
    Samples.foreign_class_body = Raise UseOdmanticField.
Proof. vm_compute. reflexivity. Qed.

Example define_unhashable :
  ModelMetaclass_new Samples.no_substitution Samples.objectId "K"
    Samples.unhashable_body = Raise UnhashableType.
Proof. vm_compute. reflexivity. Qed.

Example define_root :
  ModelMetaclass_new Samples.no_substitution Samples.objectId "Model"
    Samples.root_body = Ok Samples.root_body.
Proof. vm_compute. reflexivity. Qed.

(** ** Dictionaries *)

Section DictFacts.
Context {V : Type}.
Implicit Types (k : string) (v : V) (d : dict V).

Lemma dict_get_set_eq k v d : dict_get k (dict_set k v d) = Some v.
Proof.
  induction d as [|[k' v'] d IH]; simpl.
  - now rewrite String.eqb_refl.
  - destruct (String.eqb_spec k k') as [->|Hne]; simpl.
    + now rewrite String.eqb_refl.
    + destruct (String.eqb_spec k k'); [contradiction|exact IH].
Qed.

Lemma dict_get_set_ne k k' v d :
  k <> k' -> dict_get k (dict_set k' v d) = dict_get k d.
Proof.
  intros Hne. induction d as [|[k2 v2] d IH]; simpl.
  - destruct (String.eqb_spec k k'); [contradiction|reflexivity].
  - destruct (String.eqb_spec k' k2) as [->|Hne2]; simpl.
    + destruct (String.eqb_spec k k2); [contradiction|reflexivity].
    + destruct (String.eqb_spec k k2); [reflexivity|exact IH].
Qed.

Lemma dict_get_elem_of k v d : dict_get k d = Some v -> (k, v) ∈ d.
Proof.
  induction d as [|[k' v'] d IH]; simpl; [discriminate|].
  destruct (String.eqb_spec k k') as [->|Hne].
  - intros [= ->]. left.
  - intros H. right. auto.
Qed.

Lemma dict_get_None k d : dict_get k d = None <-> k ∉ dict_keys d.
Proof.
  induction d as [|[k' v'] d IH]; simpl.
  - split; [intros _; apply not_elem_of_nil|reflexivity].
  - rewrite not_elem_of_cons.
    destruct (String.eqb_spec k k') as [->|Hne]; split.
    + discriminate.
    + intros [H _]. now contradiction H.
    + intros H. split; [exact Hne|now apply IH].
    + intros [_ H]. now apply IH.
Qed.

Lemma dict_get_NoDup k v d :
  NoDup (dict_keys d) -> (k, v) ∈ d -> dict_get k d = Some v.
Proof.
  induction d as [|[k' v'] d IH]; simpl.
  - intros _ H. now apply elem_of_nil in H.
  - intros Hnd Hin. apply NoDup_cons in Hnd as [Hnotin Hnd].
    apply elem_of_cons in Hin as [[= <- <-]|Hin].
    + now rewrite String.eqb_refl.
    + destruct (String.eqb_spec k k') as [->|Hne]; [|auto].
      exfalso. apply Hnotin. unfold dict_keys.
      apply list_elem_of_fmap. now exists (k', v).
Qed.

Lemma dict_keys_set k v d :
  dict_keys (dict_set k v d) =
  if dict_mem k d then dict_keys d else dict_keys d ++ [k].
Proof.
  unfold dict_mem. induction d as [|[k' v'] d IH]; simpl; [reflexivity|].
  destruct (String.eqb_spec k k') as [->|Hne]; simpl; [reflexivity|].
  rewrite IH. now destruct (dict_get k d).
Qed.

Lemma dict_set_NoDup k v d : NoDup (dict_keys d) -> NoDup (dict_keys (dict_set k v d)).
Proof.
  intros Hnd. rewrite dict_keys_set. unfold dict_mem.
  destruct (dict_get k d) eqn:E; [exact Hnd|].
  apply NoDup_app. split; [exact Hnd|]. split.
  - intros x Hx Hx'. apply list_elem_of_singleton in Hx' as ->.
    now apply dict_get_None in E.
  - apply NoDup_singleton.
Qed.

End DictFacts.

(** ** Loops *)

Lemma bind_Ok {A B : Type} (m : result A) (k : A -> result B) b :
  bind m k = Ok b -> exists a, m = Ok a /\ k a = Ok b.
Proof. destruct m as [a|e]; simpl; [eauto|discriminate]. Qed.

Lemma for_each_cons {S A : Type} (body : S -> A -> result S) a l st :
  for_each body (a :: l) st = bind (body st a) (for_each body l).
Proof. reflexivity. Qed.

Lemma for_each_inv {S A : Type} (P : S -> Prop) (body : S -> A -> result S) l :
  (forall st a st', a ∈ l -> P st -> body st a = Ok st' -> P st') ->
  forall st st', P st -> for_each body l st = Ok st' -> P st'.
Proof.
  induction l as [|a l IH]; simpl; intros Hstep st st' HP Hrun.
  - now injection Hrun as <-.
  - destruct (body st a) as [st1|e] eqn:E; simpl in Hrun; [|discriminate].
    apply (IH (fun st a st' Ha => Hstep st a st' (list_elem_of_further _ _ _ Ha)) st1);
      [|exact Hrun].
    apply (Hstep st a); [left|exact HP|exact E].
Qed.

(** ** The scan of the class body *)

(** What a successful pass of the first loop's body did. *)
Lemma scan_annotation_Ok name st k t st' :
  scan_annotation name st (k, t) = Ok st' ->
  (is_skipped k t = true /\ st' = st) \/
  (is_skipped k t = false /\
   s_bson_serialized_fields st' =
     (if has_bson_base t then {[ k ]} ∪ s_bson_serialized_fields st
      else s_bson_serialized_fields st) /\
   ((exists fi p kn,
        dict_get k (s_namespace st) = Some (NODMFieldInfo fi p kn) /\
        (p = true -> s_primary_field st = None) /\
        s_primary_field st' = (if p then Some k else s_primary_field st) /\
        s_odm_fields st' =
          dict_set k (ODMField p (key_name_or kn k)) (s_odm_fields st) /\
        s_references st' = s_references st /\
        s_namespace st' = dict_set k (NPDFieldInfo fi) (s_namespace st)) \/
    (exists kn b n model,
        dict_get k (s_namespace st) = Some (NODMReferenceInfo kn) /\
        t = TClass n b (Some model) /\
        s_primary_field st' = s_primary_field st /\
        s_odm_fields st' =
          dict_set k (ODMReference model (key_name_or kn k)) (s_odm_fields st) /\
        s_references st' = s_references st ++ [k] /\
        s_namespace st' = s_namespace st) \/
    ((dict_get k (s_namespace st) = None \/
      dict_get k (s_namespace st) = Some NUndefined) /\
     s_primary_field st' = s_primary_field st /\
     s_odm_fields st' = dict_set k (ODMField false k) (s_odm_fields st) /\
     s_references st' = s_references st /\
     s_namespace st' = s_namespace st))).
Proof.
  unfold scan_annotation.
  destruct (is_skipped k t) eqn:Hskip.
  { intros [= <-]. now left. }
  intros H. right. split; [reflexivity|].
  destruct (dict_get k (s_namespace st)) as [v|] eqn:Hget; simpl in H.
  - destruct v; try discriminate.
    + destruct primary_field; simpl in H.
      * destruct (s_primary_field st) eqn:Hp; simpl in H; [discriminate|].
        injection H as <-. simpl. split; [reflexivity|].
        left. exists pydantic_field_info, true, key_name0. tauto.
      * injection H as <-. simpl. split; [reflexivity|].
        left. exists pydantic_field_info, false, key_name0.
        repeat split; try reflexivity. discriminate.
    + destruct t as [n b [model|]| | | |]; simpl in H; try discriminate.
      injection H as <-. simpl. split; [reflexivity|].
      right. left. exists key_name0, b, n, model. tauto.
    + injection H as <-. simpl. split; [reflexivity|].
      right. right. tauto.
  - injection H as <-. simpl. split; [reflexivity|].
    right. right. tauto.
Qed.

(** The first loop writes the class body only at the name it is at, and
    what it writes is a plain field specification. *)
Lemma scan_annotation_namespace name st k t st' n :
  scan_annotation name st (k, t) = Ok st' ->
  dict_get n (s_namespace st') = dict_get n (s_namespace st) \/
  (n = k /\ is_skipped k t = false /\
   exists fi p kn,
     dict_get n (s_namespace st) = Some (NODMFieldInfo fi p kn) /\
     dict_get n (s_namespace st') = Some (NPDFieldInfo fi)).
Proof.
  intros H. apply scan_annotation_Ok in H as [[_ ->]|(Hs & _ & H)]; [now left|].
  destruct H as [(fi & p & kn & Hget & _ & _ & _ & _ & Hns)
                |[(kn & b & m & model & _ & _ & _ & _ & _ & Hns)
                 |(_ & _ & _ & _ & Hns)]];
    rewrite Hns; try now left.
  destruct (String.eqb_spec n k) as [->|Hne].
  - right. split; [reflexivity|]. split; [exact Hs|].
    exists fi, p, kn. now rewrite dict_get_set_eq.
  - left. now apply dict_get_set_ne.
Qed.


(** ** Primary keys *)

Lemma primary_entries_set_plain k f fs :
  is_primary f = false ->
  (forall f', dict_get k fs = Some f' -> is_primary f' = false) ->
  primary_entries (dict_set k f fs) = primary_entries fs.
Proof.
  intros Hf. induction fs as [|[k' f'] fs IH]; simpl; intros Hold.
  - now rewrite Hf.
  - destruct (String.eqb_spec k k') as [->|Hne]; simpl.
    + rewrite Hf, (Hold f' eq_refl). reflexivity.
    + rewrite IH; [reflexivity|exact Hold].
Qed.

Lemma primary_entries_set_primary k kn fs :
  primary_entries fs = [] ->
  primary_entries (dict_set k (ODMField true kn) fs) = [(k, ODMField true kn)].
Proof.
  induction fs as [|[k' f'] fs IH]; simpl; [reflexivity|].
  destruct (is_primary f') eqn:Hf'; [discriminate|]. intros Hnil.
  destruct (String.eqb_spec k k') as [->|Hne]; simpl.
  - now rewrite Hnil.
  - rewrite Hf'. auto.
Qed.

Lemma primary_recorded_None st f n :
  primary_recorded st -> s_primary_field st = None ->
  dict_get n (s_odm_fields st) = Some f -> is_primary f = false.
Proof.
  unfold primary_recorded. intros H Hp Hget. rewrite Hp in H.
  destruct (is_primary f) eqn:Hf; [|reflexivity].
  assert (Hin : (n, f) ∈ primary_entries (s_odm_fields st)).
  { unfold primary_entries. apply list_elem_of_In, filter_In. split.
    - now apply list_elem_of_In, dict_get_elem_of.
    - exact Hf. }
  rewrite H in Hin. now apply elem_of_nil in Hin.
Qed.

Section ScanInvariant.

Variable name : string.
Variable annotations : dict pytype.

Lemma scan_annotation_inv st k t st' :
  (k, t) ∈ annotations -> scan_inv annotations st ->
  scan_annotation name st (k, t) = Ok st' -> scan_inv annotations st'.
Proof.
  intros Hin [HA HB] H.
  assert (Hmem : dict_mem k annotations = true).
  { unfold dict_mem. destruct (dict_get k annotations) eqn:E; [reflexivity|].
    apply dict_get_None in E. exfalso. apply E.
    unfold dict_keys. apply list_elem_of_fmap. now exists (k, t). }
  apply scan_annotation_Ok in H as [[_ ->]|(_ & _ & H)]; [now split|].
  assert (Hplain : forall v, dict_get k (s_namespace st) = v ->
            (forall fi, v <> Some (NPDFieldInfo fi)) ->
            forall f', dict_get k (s_odm_fields st) = Some f' -> is_primary f' = false).
  { intros v Hv Hno f' Hf'. destruct (is_primary f') eqn:E; [|reflexivity].
    destruct (HB k f' Hf' E) as [_ [fi Hfi]]. rewrite Hv in Hfi.
    now contradiction (Hno fi). }
  destruct H as [(fi & p & kn & Hget & Hp & Hprim & Hodm & _ & Hns)
                |[(kn & b & m & model & Hget & _ & Hprim & Hodm & _ & Hns)
                 |(Hget & Hprim & Hodm & _ & Hns)]].
  - split.
    + unfold primary_recorded. rewrite Hprim, Hodm. destruct p.
      * exists (key_name_or kn k). apply primary_entries_set_primary.
        unfold primary_recorded in HA. now rewrite (Hp eq_refl) in HA.
      * rewrite primary_entries_set_plain; [exact HA|reflexivity|].
        apply (Hplain _ Hget). congruence.
    + intros n f. rewrite Hodm, Hns.
      destruct (String.eqb_spec n k) as [->|Hne].
      * rewrite !dict_get_set_eq. intros _ _. split; [exact Hmem|now exists fi].
      * rewrite !dict_get_set_ne by exact Hne. apply HB.
  - split.
    + unfold primary_recorded. rewrite Hprim, Hodm.
      rewrite primary_entries_set_plain; [exact HA|reflexivity|].
      apply (Hplain _ Hget). congruence.
    + intros n f. rewrite Hodm, Hns.
      destruct (String.eqb_spec n k) as [->|Hne].
      * rewrite dict_get_set_eq. intros [= <-]. discriminate.
      * rewrite dict_get_set_ne by exact Hne. apply HB.
  - split.
    + unfold primary_recorded. rewrite Hprim, Hodm.
      rewrite primary_entries_set_plain; [exact HA|reflexivity|].
      destruct Hget as [Hget|Hget]; apply (Hplain _ Hget); congruence.
    + intros n f. rewrite Hodm, Hns.
      destruct (String.eqb_spec n k) as [->|Hne].
      * rewrite dict_get_set_eq. intros [= <-]. discriminate.
      * rewrite dict_get_set_ne by exact Hne. apply HB.
Qed.

(** The second loop adds plain entries under names without annotation. *)
Lemma scan_name_primary l fs :
  (forall n f, dict_get n fs = Some f -> is_primary f = true ->
     dict_mem n annotations = true) ->
  primary_entries (fold_left (scan_name annotations) l fs) = primary_entries fs.
Proof.
  revert fs. induction l as [|[k v] l IH]; simpl; intros fs Hfs; [reflexivity|].
  destruct (dict_mem k annotations) eqn:Hmem; simpl; [now apply IH|].
  destruct (negb (is_valid_odm_field k) || is_untouched_value v); [now apply IH|].
  assert (Hk : forall f', dict_get k fs = Some f' -> is_primary f' = false).
  { intros f' Hf'. destruct (is_primary f') eqn:E; [|reflexivity].
    rewrite (Hfs k f' Hf' E) in Hmem. discriminate. }
  rewrite IH.
  - now apply primary_entries_set_plain.
  - intros n f. destruct (String.eqb_spec n k) as [->|Hne].
    + rewrite dict_get_set_eq. intros [= <-]. discriminate.
    + rewrite dict_get_set_ne by exact Hne. apply Hfs.
Qed.

End ScanInvariant.

(** ** [find_duplicate_key] *)

Lemma find_duplicate_key_from_None seen l :
  find_duplicate_key_from seen l = None <->
  NoDup (map key_name l) /\ (forall k, k ∈ map key_name l -> k ∉ seen).
Proof.
  revert seen. induction l as [|f l IH]; simpl; intros seen.
  - split; [|reflexivity]. intros _. split; [constructor|].
    intros k Hk. now apply elem_of_nil in Hk.
  - destruct (decide (key_name f ∈ seen)) as [Hin|Hnotin].
    + split; [discriminate|]. intros [_ H]. exfalso.
      apply (H (key_name f)); [left|exact Hin].
    + rewrite IH. split.
      * intros [Hnd Hseen]. split.
        -- apply NoDup_cons. split; [|exact Hnd].
           intros Hk. apply (Hseen _ Hk). set_solver.
        -- intros k Hk. apply elem_of_cons in Hk as [->|Hk]; [exact Hnotin|].
           specialize (Hseen k Hk). set_solver.
      * intros [Hnd Hseen]. apply NoDup_cons in Hnd as [Hhd Hnd].
        split; [exact Hnd|]. intros k Hk.
        assert (k <> key_name f) by (intros ->; contradiction).
        specialize (Hseen k (list_elem_of_further _ _ _ Hk)). set_solver.
Qed.

Lemma find_duplicate_key_None l :
  find_duplicate_key l = None <-> NoDup (map key_name l).
Proof.
  unfold find_duplicate_key. rewrite find_duplicate_key_from_None.
  split; [tauto|]. intros H. split; [exact H|]. set_solver.
Qed.

(** The key that is reported is the key of two entries of the table. *)
Lemma find_duplicate_key_from_Some seen l k :
  find_duplicate_key_from seen l = Some k ->
  exists l1 f l2,
    l = l1 ++ f :: l2 /\ key_name f = k /\ (k ∈ seen \/ k ∈ map key_name l1).
Proof.
  revert seen. induction l as [|f l IH]; simpl; intros seen; [discriminate|].
  destruct (decide (key_name f ∈ seen)) as [Hin|Hnotin].
  - intros [= <-]. exists [], f, l. simpl. repeat split. now left.
  - intros H. apply IH in H as (l1 & g & l2 & -> & Hg & Hk).
    exists (f :: l1), g, l2. simpl. repeat split; [exact Hg|].
    destruct Hk as [Hk|Hk].
    + apply elem_of_union in Hk as [Hk|Hk].
      * apply elem_of_singleton in Hk as ->. right. left.
      * now left.
    + right. now right.
Qed.

Lemma find_duplicate_key_Some l k :
  find_duplicate_key l = Some k ->
  exists l1 f l2 g l3,
    l = l1 ++ f :: l2 ++ g :: l3 /\ key_name f = k /\ key_name g = k.
Proof.
  intros H. apply find_duplicate_key_from_Some in H as (l1 & g & l3 & -> & Hg & Hk).
  destruct Hk as [Hk|Hk]; [now apply elem_of_empty in Hk|].
  apply list_elem_of_fmap in Hk as (f & Hf & Hin).
  apply list_elem_of_split in Hin as (l1' & l2 & ->).
  exists l1', f, l2, g, l3. rewrite <- app_assoc. simpl. auto.
Qed.

(** ** The metaclass, stage by stage *)

Section MetaclassFacts.

Variable subst : pytype -> option pytype.
Variable oid : pytype.

Lemma scan_fields_primary name ns st :
  scan_fields subst name ns = Ok st -> primary_recorded st.
Proof.
  unfold scan_fields, substitute_types.
  destruct (forallb is_hashable (dict_values (get_annotations ns)));
    [cbn [bind]|discriminate].
  set (annotations := substitute subst (get_annotations ns)).
  set (st0 := mkScan _ _ _ _ _).
  destruct (for_each (scan_annotation name) annotations st0) as [st1|e] eqn:E;
    simpl; [|discriminate].
  intros [= <-].
  assert (Hinv : scan_inv annotations st1).
  { apply (for_each_inv (scan_inv annotations) (scan_annotation name) annotations)
      with (st := st0); [| |exact E].
    - intros st [k t] st' Hin. now apply scan_annotation_inv.
    - split; [reflexivity|]. intros n f Hget. discriminate. }
  destruct Hinv as [HA HB]. unfold primary_recorded in *. simpl.
  rewrite scan_name_primary; [exact HA|].
  intros n f Hget Hf. now apply (HB n f).
Qed.

Lemma synthesize_primary_recorded st :
  primary_recorded st ->
  exists p kn,
    s_primary_field (synthesize_primary oid st) = Some p /\
    primary_entries (s_odm_fields (synthesize_primary oid st)) = [(p, ODMField true kn)].
Proof.
  unfold primary_recorded, synthesize_primary.
  destruct (s_primary_field st) as [p|] eqn:Hp.
  - intros [kn Hkn]. exists p, kn. now rewrite Hp.
  - intros Hnil. exists "id", "_id". simpl. split; [reflexivity|].
    now apply primary_entries_set_primary.
Qed.

Lemma collect_fields_primary name ns st :
  collect_fields subst oid name ns = Ok st ->
  exists p kn,
    s_primary_field st = Some p /\
    primary_entries (s_odm_fields st) = [(p, ODMField true kn)].
Proof.
  unfold collect_fields.
  destruct (scan_fields subst name ns) as [st1|e] eqn:E; simpl; [|discriminate].
  intros [= <-]. apply synthesize_primary_recorded.
  now apply (scan_fields_primary name ns).
Qed.

(** A class body that is processed ends up as [attach] leaves it. *)
Lemma ModelMetaclass_new_Ok name ns ns' :
  is_root_model ns = false ->
  ModelMetaclass_new subst oid name ns = Ok ns' ->
  exists st,
    collect_fields subst oid name ns = Ok st /\
    find_duplicate_key (dict_values (s_odm_fields st)) = None /\
    ns' = attach name st.
Proof.
  unfold ModelMetaclass_new. intros ->.
  destruct (collect_fields subst oid name ns) as [st|e]; simpl; [|discriminate].
  destruct (find_duplicate_key _) eqn:E; [discriminate|].
  intros [= <-]. now exists st.
Qed.

End MetaclassFacts.

(** What [attach] stores, and what it leaves alone. *)
Lemma attach_odm_fields name st :
  dict_get "__odm_fields__" (attach name st) = Some (NOdmFields (s_odm_fields st)).
Proof.
  unfold attach. destruct (dict_mem _ _);
    rewrite ?dict_get_set_ne by discriminate; apply dict_get_set_eq.
Qed.

Lemma attach_references name st :
  dict_get "__references__" (attach name st) = Some (NReferences (s_references st)).
Proof.
  unfold attach. destruct (dict_mem _ _);
    rewrite ?dict_get_set_ne by discriminate; apply dict_get_set_eq.
Qed.

Lemma attach_primary_key name st p :
  s_primary_field st = Some p ->
  dict_get "__primary_key__" (attach name st) = Some (NValue (VStr p)).
Proof.
  intros Hp. unfold attach. rewrite Hp. destruct (dict_mem _ _);
    rewrite ?dict_get_set_ne by discriminate; apply dict_get_set_eq.
Qed.

Lemma attach_bson_serialized_fields name st :
  dict_get "__bson_serialized_fields__" (attach name st) =
  Some (NBsonFields (s_bson_serialized_fields st)).
Proof.
  unfold attach. destruct (dict_mem _ _);
    rewrite ?dict_get_set_ne by discriminate; apply dict_get_set_eq.
Qed.

Lemma attach_other name st n :
  n ∉ ["__odm_fields__"; "__references__"; "__primary_key__";
       "__bson_serialized_fields__"; "__collection__"] ->
  dict_get n (attach name st) = dict_get n (s_namespace st).
Proof.
  intros Hn. rewrite !not_elem_of_cons in Hn.
  destruct Hn as (H1 & H2 & H3 & H4 & H5 & _).
  unfold attach. destruct (dict_mem _ _);
    rewrite ?dict_get_set_ne by assumption; reflexivity.
Qed.

Lemma attach_collection name st :
  dict_get "__collection__" (attach name st) =
  match dict_get "__collection__" (s_namespace st) with
  | Some v => Some v
  | None => Some (NValue (VStr (collection_name name)))
  end.
Proof.
  unfold attach, dict_mem.
  rewrite !(dict_get_set_ne "__collection__") by discriminate.
  destruct (dict_get "__collection__" (s_namespace st)) eqn:E.
  - rewrite !(dict_get_set_ne "__collection__") by discriminate. exact E.
  - apply dict_get_set_eq.
Qed.

(** ** What the first loop does to the class body *)

Section ScanNamespace.

Variable name : string.

(** A name that the loop passes over keeps its binding. *)
Lemma for_each_scan_namespace_skipped l st st' n :
  is_valid_odm_field n = false ->
  for_each (scan_annotation name) l st = Ok st' ->
  dict_get n (s_namespace st') = dict_get n (s_namespace st).
Proof.
  intros Hn Hrun.
  apply (for_each_inv
           (fun s => dict_get n (s_namespace s) = dict_get n (s_namespace st))
           (scan_annotation name) l) with (st := st); [|reflexivity|exact Hrun].
  intros s [k t] s' _ Hs Hstep.
  destruct (scan_annotation_namespace name s k t s' n Hstep)
    as [Heq|(-> & Hskip & _)]; [congruence|].
  unfold is_skipped in Hskip. rewrite Hn in Hskip. discriminate.
Qed.

(** Once a retained annotation has been processed, its name is no longer
    bound to a field-configuration object. *)
Lemma for_each_scan_processed l st st' x t :
  (x, t) ∈ l -> is_skipped x t = false ->
  for_each (scan_annotation name) l st = Ok st' ->
  forall fi p kn, dict_get x (s_namespace st') <> Some (NODMFieldInfo fi p kn).
Proof.
  revert st. induction l as [|[k t'] l IH]; intros st Hin Hskip Hrun.
  - now apply elem_of_nil in Hin.
  - rewrite for_each_cons in Hrun. apply bind_Ok in Hrun as (st1 & E & Hrun).
    apply elem_of_cons in Hin as [[= <- <-]|Hin]; [|now apply (IH st1)].
    assert (H1 : forall fi p kn,
               dict_get x (s_namespace st1) <> Some (NODMFieldInfo fi p kn)).
    { apply scan_annotation_Ok in E as [[E _]|(_ & _ & E)]; [congruence|].
      destruct E as [(fi & p & kn & _ & _ & _ & _ & _ & Hns)
                    |[(kn & b & m & model & Hget & _ & _ & _ & _ & Hns)
                     |(Hget & _ & _ & _ & Hns)]]; rewrite Hns.
      - rewrite dict_get_set_eq. congruence.
      - congruence.
      - destruct Hget; congruence. }
    apply (for_each_inv
             (fun s => forall fi p kn,
                  dict_get x (s_namespace s) <> Some (NODMFieldInfo fi p kn))
             (scan_annotation name) l) with (st := st1); [|exact H1|exact Hrun].
    intros s [k' t''] s' _ Hs Hstep.
    destruct (scan_annotation_namespace name s k' t'' s' x Hstep)
      as [Heq|(_ & _ & fi' & p' & kn' & Hold & _)].
    + rewrite Heq. exact Hs.
    + now contradiction (Hs fi' p' kn').
Qed.

Lemma scan_annotation_primary_kept st k t st' :
  scan_annotation name st (k, t) = Ok st' ->
  s_primary_field st <> None -> s_primary_field st' <> None.
Proof.
  intros H. apply scan_annotation_Ok in H as [[_ ->]|(_ & _ & H)]; [auto|].
  destruct H as [(fi & p & kn & _ & Hp & Hprim & _)
                |[(kn & b & m & model & _ & _ & Hprim & _)
                 |(_ & Hprim & _)]]; rewrite Hprim; auto.
  destruct p; [congruence|auto].
Qed.

Lemma scan_annotation_pending st k t st' x :
  scan_annotation name st (k, t) = Ok st' ->
  pending st x ->
  pending st' x \/ (s_primary_field st = None /\ s_primary_field st' <> None /\ x = k).
Proof.
  intros H (fi0 & kn0 & Hx).
  apply scan_annotation_Ok in H as [[_ ->]|(_ & _ & H)];
    [left; now exists fi0, kn0|].
  destruct H as [(fi & p & kn & Hget & Hp & Hprim & _ & _ & Hns)
                |[(kn & b & m & model & _ & _ & _ & _ & _ & Hns)
                 |(_ & _ & _ & _ & Hns)]];
    try (left; exists fi0, kn0; now rewrite Hns).
  destruct (String.eqb_spec x k) as [->|Hne].
  - right. rewrite Hx in Hget. injection Hget as <- <- <-.
    rewrite Hprim. repeat split; [auto|congruence].
  - left. exists fi0, kn0. rewrite Hns. now rewrite dict_get_set_ne.
Qed.

(** Two primary declarations cannot both get through the loop. *)
Lemma for_each_scan_two_primaries l st a b ta tb :
  a <> b -> (a, ta) ∈ l -> (b, tb) ∈ l ->
  is_skipped a ta = false -> is_skipped b tb = false ->
  pending st a -> pending st b ->
  exists e, for_each (scan_annotation name) l st = Raise e.
Proof.
  intros Hab Ha Hb Hsa Hsb Hpa Hpb.
  destruct (for_each (scan_annotation name) l st) as [st'|e] eqn:Hrun;
    [exfalso|now exists e].
  pose (J := fun s : scan =>
               (pending s a /\ pending s b) \/
               (s_primary_field s <> None /\ (pending s a \/ pending s b))).
  assert (HJ : J st').
  { apply (for_each_inv J (scan_annotation name) l) with (st := st);
      [|now left|exact Hrun].
    intros s [k t] s' _ HJs Hstep.
    pose proof (scan_annotation_primary_kept s k t s' Hstep) as Hkept.
    pose proof (scan_annotation_pending s k t s' a Hstep) as Hna.
    pose proof (scan_annotation_pending s k t s' b Hstep) as Hnb.
    destruct HJs as [[Hsa' Hsb']|[Hprim [Hs|Hs]]].
    - destruct (Hna Hsa') as [Ha'|(_ & Hp' & ->)];
        destruct (Hnb Hsb') as [Hb'|(_ & Hp'' & ->)].
      + now left.
      + right. auto.
      + right. auto.
      + contradiction.
    - right. split; [auto|]. left.
      destruct (Hna Hs) as [Ha'|(Hnone & _)]; [exact Ha'|contradiction].
    - right. split; [auto|]. right.
      destruct (Hnb Hs) as [Hb'|(Hnone & _)]; [exact Hb'|contradiction]. }
  pose proof (for_each_scan_processed l st st' a ta Ha Hsa Hrun) as Hdone_a.
  pose proof (for_each_scan_processed l st st' b tb Hb Hsb Hrun) as Hdone_b.
  assert (Hno : forall x, (forall fi p kn,
                   dict_get x (s_namespace st') <> Some (NODMFieldInfo fi p kn)) ->
                 ~ pending st' x).
  { intros x Hx (fi & kn & Hget). now apply (Hx fi true kn). }
  destruct HJ as [[H _]|[_ [H|H]]].
  - now apply (Hno a).
  - now apply (Hno a).
  - now apply (Hno b).
Qed.

(** With no primary declaration in the class body, the loop records none. *)
Lemma for_each_scan_no_primary l st st' :
  s_primary_field st = None ->
  (forall n fi kn, dict_get n (s_namespace st) <> Some (NODMFieldInfo fi true kn)) ->
  for_each (scan_annotation name) l st = Ok st' ->
  s_primary_field st' = None.
Proof.
  intros Hp Hns Hrun.
  apply (for_each_inv
           (fun s => s_primary_field s = None /\
              forall n fi kn,
                dict_get n (s_namespace s) <> Some (NODMFieldInfo fi true kn))
           (scan_annotation name) l) with (st := st); [|now split|exact Hrun].
  intros s [k t] s' _ [Hs1 Hs2] Hstep.
  apply scan_annotation_Ok in Hstep as [[_ ->]|(_ & _ & H)]; [now split|].
  destruct H as [(fi & p & kn & Hget & _ & Hprim & _ & _ & Hns')
                |[(kn & b & m & model & _ & _ & Hprim & _ & _ & Hns')
                 |(_ & Hprim & _ & _ & Hns')]]; rewrite Hprim, Hns'.
  - destruct p; [now contradiction (Hs2 k fi kn)|]. split; [exact Hs1|].
    intros n fi' kn'. destruct (String.eqb_spec n k) as [->|Hne].
    + rewrite dict_get_set_eq. congruence.
    + rewrite dict_get_set_ne by exact Hne. apply Hs2.
  - now split.
  - now split.
Qed.

End ScanNamespace.

(** ** From the class body to the schema *)

Lemma NoDup_map_inj {A B : Type} (g : A -> B) (l : list A) x y :
  NoDup (map g l) -> x ∈ l -> y ∈ l -> g x = g y -> x = y.
Proof.
  induction l as [|a l IH]; simpl; intros Hnd Hx Hy Hg.
  - now apply elem_of_nil in Hx.
  - apply NoDup_cons in Hnd as [Ha Hnd].
    apply elem_of_cons in Hx as [->|Hx]; apply elem_of_cons in Hy as [->|Hy].
    + reflexivity.
    + exfalso. apply Ha. rewrite Hg. apply list_elem_of_fmap. now exists y.
    + exfalso. apply Ha. rewrite <- Hg. apply list_elem_of_fmap. now exists x.
    + now apply IH.
Qed.

Section Derivation.

Variable subst : pytype -> option pytype.
Variable oid : pytype.

Lemma scan_fields_Ok name ns st :
  scan_fields subst name ns = Ok st ->
  exists st1,
    for_each (scan_annotation name) (substitute subst (get_annotations ns))
      (scan_start subst ns) = Ok st1 /\
    s_primary_field st = s_primary_field st1 /\
    s_odm_fields st =
      fold_left (scan_name (substitute subst (get_annotations ns)))
        (s_namespace st1) (s_odm_fields st1) /\
    s_references st = s_references st1 /\
    s_bson_serialized_fields st = s_bson_serialized_fields st1 /\
    s_namespace st = s_namespace st1.
Proof.
  unfold scan_fields, substitute_types.
  destruct (forallb is_hashable (dict_values (get_annotations ns)));
    [cbn [bind]|discriminate].
  intros H. apply bind_Ok in H as (st1 & Hrun & [= <-]).
  exists st1. simpl. tauto.
Qed.

Lemma scan_start_get ns n :
  n <> "__annotations__" ->
  dict_get n (s_namespace (scan_start subst ns)) = dict_get n ns.
Proof. intros Hn. simpl. now apply dict_get_set_ne. Qed.

Lemma synthesize_primary_namespace st n :
  n <> "id" -> n <> "__annotations__" ->
  dict_get n (s_namespace (synthesize_primary oid st)) = dict_get n (s_namespace st).
Proof.
  intros H1 H2. unfold synthesize_primary.
  destruct (s_primary_field st); [reflexivity|]. simpl.
  now rewrite !dict_get_set_ne.
Qed.

(** What the synthesis writes when no primary field was recorded. *)
Lemma synthesize_primary_None st :
  s_primary_field st = None ->
  s_primary_field (synthesize_primary oid st) = Some "id" /\
  dict_get "id" (s_odm_fields (synthesize_primary oid st)) = Some (ODMField true "_id") /\
  dict_get "id" (s_namespace (synthesize_primary oid st)) =
    Some (NPDFieldInfo (mkFieldInfo None (Some (CType oid)))) /\
  dict_get "id" (get_annotations (s_namespace (synthesize_primary oid st))) = Some oid.
Proof.
  intros Hp. unfold synthesize_primary. rewrite Hp. simpl.
  split; [reflexivity|]. split; [apply dict_get_set_eq|]. split.
  - rewrite dict_get_set_ne by discriminate. apply dict_get_set_eq.
  - unfold get_annotations at 1. rewrite dict_get_set_eq. apply dict_get_set_eq.
Qed.

Lemma collect_fields_dunder name ns st n :
  collect_fields subst oid name ns = Ok st ->
  is_valid_odm_field n = false -> n <> "__annotations__" ->
  dict_get n (s_namespace st) = dict_get n ns.
Proof.
  unfold collect_fields. intros H Hn Hann.
  apply bind_Ok in H as (st2 & Hscan & [= <-]).
  apply scan_fields_Ok in Hscan as (st1 & Hrun & _ & _ & _ & _ & Hns).
  rewrite synthesize_primary_namespace; [|intros ->; discriminate|exact Hann].
  rewrite Hns, (for_each_scan_namespace_skipped name _ _ _ n Hn Hrun).
  now apply scan_start_get.
Qed.

Lemma attach_annotations name st :
  get_annotations (attach name st) = get_annotations (s_namespace st).
Proof.
  unfold get_annotations. rewrite attach_other; [reflexivity|].
  rewrite !not_elem_of_cons. repeat split; try discriminate. apply not_elem_of_nil.
Qed.

Lemma attach_id name st :
  dict_get "id" (attach name st) = dict_get "id" (s_namespace st).
Proof.
  apply attach_other.
  rewrite !not_elem_of_cons. repeat split; try discriminate. apply not_elem_of_nil.
Qed.

End Derivation.

(** When the first loop of the metaclass raises, the class definition
    raises: that error, or the one of the substitution before it. *)
Lemma ModelMetaclass_new_raises subst oid name ns e :
  is_root_model ns = false ->
  for_each (scan_annotation name) (substitute subst (get_annotations ns))
    (scan_start subst ns) = Raise e ->
  exists e', ModelMetaclass_new subst oid name ns = Raise e'.
Proof.
  intros Hroot He.
  unfold ModelMetaclass_new, collect_fields, scan_fields, substitute_types.
  rewrite Hroot.
  destruct (forallb is_hashable (dict_values (get_annotations ns)));
    [cbn [bind]|now exists UnhashableType].
  fold (scan_start subst ns). rewrite He. now exists e.
Qed.

(** * The claims about class definition *)

(** C3. Whenever a class definition completes, its descriptor table has
    exactly one primary entry, the one that [__primary_key__] names; two
    annotated fields that are both declared with [primary_field=True] make
    the definition raise; and when the class body declares no primary field,
    the primary entry is the synthesized one: it is named ["id"], its
    document key is ["_id"], and the name is bound to a field specification
    whose default factory is set (to the identifier type). *)
Theorem exactly_one_primary_key
    (subst : pytype -> option pytype) (oid : pytype) (name : string)
    (ns : dict nsvalue) :
  is_root_model ns = false ->
  (forall ns', ModelMetaclass_new subst oid name ns = Ok ns' ->
     exists fs p kn,
       dict_get "__odm_fields__" ns' = Some (NOdmFields fs) /\
       dict_get "__primary_key__" ns' = Some (NValue (VStr p)) /\
       primary_entries fs = [(p, ODMField true kn)]) /\
  (forall a b ta tb fia kna fib knb,
     a <> b ->
     (a, ta) ∈ substitute subst (get_annotations ns) ->
     (b, tb) ∈ substitute subst (get_annotations ns) ->
     is_skipped a ta = false -> is_skipped b tb = false ->
     dict_get a ns = Some (NODMFieldInfo fia true kna) ->
     dict_get b ns = Some (NODMFieldInfo fib true knb) ->
     exists e, ModelMetaclass_new subst oid name ns = Raise e) /\
  (forall ns',
     (forall n fi kn, dict_get n ns <> Some (NODMFieldInfo fi true kn)) ->
     ModelMetaclass_new subst oid name ns = Ok ns' ->
     exists fs,
       dict_get "__odm_fields__" ns' = Some (NOdmFields fs) /\
       primary_entries fs = [("id", ODMField true "_id")] /\
       dict_get "__primary_key__" ns' = Some (NValue (VStr "id")) /\
       dict_get "id" ns' = Some (NPDFieldInfo (mkFieldInfo None (Some (CType oid))))).
Proof.
  intros Hroot. split; [|split].
  - intros ns' H.
    apply ModelMetaclass_new_Ok in H as (st & Hc & _ & ->); [|exact Hroot].
    apply collect_fields_primary in Hc as (p & kn & Hp & Hprim).
    exists (s_odm_fields st), p, kn.
    split; [apply attach_odm_fields|]. split; [now apply attach_primary_key|exact Hprim].
  - intros a b ta tb fia kna fib knb Hab Ha Hb Hsa Hsb Hga Hgb.
    assert (Hvalid : forall x t, is_skipped x t = false -> x <> "__annotations__").
    { intros x t Hs ->. discriminate. }
    destruct (for_each_scan_two_primaries name
                (substitute subst (get_annotations ns)) (scan_start subst ns)
                a b ta tb Hab Ha Hb Hsa Hsb) as [e He].
    + exists fia, kna. rewrite scan_start_get; [exact Hga|now apply (Hvalid a ta)].
    + exists fib, knb. rewrite scan_start_get; [exact Hgb|now apply (Hvalid b tb)].
    + now apply (ModelMetaclass_new_raises subst oid name ns e).
  - intros ns' Hnone H.
    apply ModelMetaclass_new_Ok in H as (st & Hc & _ & ->); [|exact Hroot].
    pose proof (collect_fields_primary _ _ _ _ _ Hc) as (p & kn & Hp & Hprim).
    unfold collect_fields in Hc. apply bind_Ok in Hc as (st2 & Hscan & [= <-]).
    pose proof (scan_fields_Ok _ _ _ _ Hscan) as (st1 & Hrun & Hp1 & _).
    assert (Hp2 : s_primary_field st2 = None).
    { rewrite Hp1.
      apply (for_each_scan_no_primary name
               (substitute subst (get_annotations ns)) (scan_start subst ns) st1);
        [reflexivity| |exact Hrun].
      intros n fi kn'. simpl. destruct (String.eqb_spec n "__annotations__") as [->|Hne].
      - rewrite dict_get_set_eq. discriminate.
      - rewrite dict_get_set_ne by exact Hne. apply Hnone. }
    destruct (synthesize_primary_None oid st2 Hp2) as (Hs1 & Hs2 & Hs3 & _).
    exists (s_odm_fields (synthesize_primary oid st2)).
    split; [apply attach_odm_fields|].
    rewrite Hs1 in Hp. injection Hp as <-.
    assert (Hkn : kn = "_id").
    { assert (Hin : ("id", ODMField true "_id") ∈
                    primary_entries (s_odm_fields (synthesize_primary oid st2))).
      { unfold primary_entries. apply list_elem_of_In, filter_In.
        split; [|reflexivity]. now apply list_elem_of_In, dict_get_elem_of. }
      rewrite Hprim in Hin. apply list_elem_of_singleton in Hin. congruence. }
    subst kn. split; [exact Hprim|]. split; [now apply attach_primary_key|].
    now rewrite attach_id.
Qed.

Lemma exactly_one_primary_key_witness :
  is_root_model Samples.user_body = false /\
  exists ns' fs,
    ModelMetaclass_new Samples.no_substitution Samples.objectId "UserModel"
      Samples.user_body = Ok ns' /\
    dict_get "__odm_fields__" ns' = Some (NOdmFields fs) /\
    primary_entries fs = [("id", ODMField true "_id")].
Proof.
  split; [reflexivity|].
  destruct (exactly_one_primary_key Samples.no_substitution Samples.objectId
              "UserModel" Samples.user_body eq_refl) as (_ & _ & H).
  destruct (ModelMetaclass_new Samples.no_substitution Samples.objectId "UserModel"
              Samples.user_body) as [ns'|e] eqn:E; [|vm_compute in E; discriminate].
  destruct (H ns') as (fs & H1 & H2 & _).
  - intros n fi kn Hget. vm_compute in Hget.
    repeat (destruct n as [|[[] [] [] [] [] [] [] []] n]; try discriminate).
  - reflexivity.
  - exists ns', fs. auto.
Defined.

(** C4. Whenever a class definition completes, the document keys of its
    descriptors (the synthesized primary key among them) are pairwise
    distinct; and when the descriptors that the class body gives rise to
    have a key in common, the definition raises the duplicate-key error,
    naming a key that two descriptors share. *)
Theorem key_names_distinct
    (subst : pytype -> option pytype) (oid : pytype) (name : string)
    (ns : dict nsvalue) :
  is_root_model ns = false ->
  (forall ns', ModelMetaclass_new subst oid name ns = Ok ns' ->
     exists fs,
       dict_get "__odm_fields__" ns' = Some (NOdmFields fs) /\
       NoDup (key_names fs)) /\
  (forall st n1 f1 n2 f2,
     collect_fields subst oid name ns = Ok st ->
     (n1, f1) ∈ s_odm_fields st -> (n2, f2) ∈ s_odm_fields st ->
     n1 <> n2 -> key_name f1 = key_name f2 ->
     exists k l1 f l2 g l3,
       ModelMetaclass_new subst oid name ns = Raise (DuplicateKeyName k name) /\
       dict_values (s_odm_fields st) = l1 ++ f :: l2 ++ g :: l3 /\
       key_name f = k /\ key_name g = k).
Proof.
  intros Hroot. split.
  - intros ns' H.
    apply ModelMetaclass_new_Ok in H as (st & _ & Hdup & ->); [|exact Hroot].
    exists (s_odm_fields st). split; [apply attach_odm_fields|].
    now apply find_duplicate_key_None.
  - intros st n1 f1 n2 f2 Hc H1 H2 Hne Hkey.
    unfold ModelMetaclass_new. rewrite Hroot, Hc. simpl.
    destruct (find_duplicate_key (dict_values (s_odm_fields st))) as [k|] eqn:E.
    + apply find_duplicate_key_Some in E as (l1 & f & l2 & g & l3 & Hl & Hf & Hg).
      exists k, l1, f, l2, g, l3. auto.
    + exfalso. apply find_duplicate_key_None in E.
      unfold dict_values in E. rewrite map_map in E.
      apply Hne.
      assert (Heq : (n1, f1) = (n2, f2)); [|congruence].
      apply (NoDup_map_inj (fun x => key_name (snd x)) (s_odm_fields st));
        [exact E|exact H1|exact H2|exact Hkey].
Qed.

Lemma key_names_distinct_witness :
  is_root_model Samples.user_body = false /\
  exists ns' fs,
    ModelMetaclass_new Samples.no_substitution Samples.objectId "UserModel"
      Samples.user_body = Ok ns' /\
    dict_get "__odm_fields__" ns' = Some (NOdmFields fs) /\
    NoDup (key_names fs).
Proof.
  split; [reflexivity|].
  destruct (key_names_distinct Samples.no_substitution Samples.objectId
              "UserModel" Samples.user_body eq_refl) as (H & _).
  destruct (ModelMetaclass_new Samples.no_substitution Samples.objectId "UserModel"
              Samples.user_body) as [ns'|e] eqn:E; [|vm_compute in E; discriminate].
  destruct (H ns' eq_refl) as (fs & H1 & H2).
  exists ns', fs. auto.
Defined.

(** The output of [to_snake_case] has no upper-case letter. *)
Lemma lower_char_not_upper c : Str.is_upper (Str.lower_char c) = false.
Proof. destruct c as [[] [] [] [] [] [] [] []]; reflexivity. Qed.

Lemma to_snake_case_lower s c :
  c ∈ list_ascii_of_string (to_snake_case s) -> Str.is_upper c = false.
Proof.
  unfold to_snake_case. generalize (re_sub_hump (re_sub_word false s)).
  intros t. induction t as [|a t IH]; simpl; intros H.
  - now apply elem_of_nil in H.
  - apply elem_of_cons in H as [->|H]; [apply lower_char_not_upper|auto].
Qed.

(** C7. A container name that the class body sets is left as it is.  A
    class body that sets none gets one from the class name; when the class
    name is made of ASCII letters and digits, it is the class name without
    its trailing ["Model"], converted to snake case as the specification
    words the conversion: an underscore before an upper-case letter that
    follows a lower-case letter or a digit, and before an upper-case letter
    that follows upper-case letters and starts a capitalized word, and all
    of it in lower case. *)
Theorem container_name_derivation
    (subst : pytype -> option pytype) (oid : pytype) (name : string)
    (ns ns' : dict nsvalue) :
  is_root_model ns = false ->
  ModelMetaclass_new subst oid name ns = Ok ns' ->
  (forall explicit,
     dict_get "__collection__" ns = Some explicit ->
     dict_get "__collection__" ns' = Some explicit) /\
  (dict_get "__collection__" ns = None ->
   Str.is_alnum name = true ->
   (forall s, name = (s ++ "Model")%string ->
      dict_get "__collection__" ns' = Some (NValue (VStr (spec_snake_case s)))) /\
   ((forall s, name <> (s ++ "Model")%string) ->
      dict_get "__collection__" ns' = Some (NValue (VStr (spec_snake_case name))))).
Proof.
  intros Hroot H.
  apply ModelMetaclass_new_Ok in H as (st & Hc & _ & ->); [|exact Hroot].
  assert (Hcol : dict_get "__collection__" (attach name st) =
                 match dict_get "__collection__" ns with
                 | Some explicit => Some explicit
                 | None => Some (NValue (VStr (collection_name name)))
                 end).
  { rewrite attach_collection.
    rewrite (collect_fields_dunder subst oid name ns st "__collection__" Hc);
      [reflexivity|reflexivity|discriminate]. }
  split.
  - intros explicit He. now rewrite Hcol, He.
  - intros Hnone Hal. rewrite Hcol, Hnone. unfold collection_name. split.
    + intros s ->. rewrite endswith_append.
      change 5 with (String.length "Model"). rewrite drop_last_append.
      rewrite is_alnum_append in Hal. apply andb_prop in Hal as [Hs _].
      now rewrite (to_snake_case_spec s Hs).
    + intros Hno. destruct (Str.endswith "Model" name) eqn:E.
      * apply endswith_inv in E as [x Hx]. now contradiction (Hno x).
      * now rewrite (to_snake_case_spec name Hal).
Qed.

Lemma container_name_derivation_witness :
  exists ns1 ns2,
    ModelMetaclass_new Samples.no_substitution Samples.objectId "UserModel"
      Samples.user_body = Ok ns1 /\
    dict_get "__collection__" ns1 = Some (NValue (VStr "user")) /\
    ModelMetaclass_new Samples.no_substitution Samples.objectId "UserProfile"
      Samples.profile_body = Ok ns2 /\
    dict_get "__collection__" ns2 = Some (NValue (VStr "user_profile")).
Proof.
  destruct (ModelMetaclass_new Samples.no_substitution Samples.objectId "UserModel"
              Samples.user_body) as [ns1|e] eqn:E1; [|vm_compute in E1; discriminate].
  destruct (ModelMetaclass_new Samples.no_substitution Samples.objectId "UserProfile"
              Samples.profile_body) as [ns2|e] eqn:E2; [|vm_compute in E2; discriminate].
  exists ns1, ns2.
  destruct (container_name_derivation Samples.no_substitution Samples.objectId
              "UserModel" Samples.user_body ns1 eq_refl E1) as (_ & H1).
  destruct (container_name_derivation Samples.no_substitution Samples.objectId
              "UserProfile" Samples.profile_body ns2 eq_refl E2) as (_ & H2).
  destruct (H1 eq_refl eq_refl) as (H1m & _).
  destruct (H2 eq_refl eq_refl) as (_ & H2n).
  split; [reflexivity|]. split; [exact (H1m "User" eq_refl)|].
  split; [reflexivity|]. apply H2n.
  intros s Hs. apply (f_equal (Str.endswith "Model")) in Hs.
  rewrite endswith_append in Hs. vm_compute in Hs. discriminate.
Defined.

(** The conversion that the specification words, on some names. *)
Example spec_snake_case_examples :
  map spec_snake_case
    ["User"; "UserProfile"; "HTTPResponse"; "a1B2c"; "getHTTPResponse"; "My_Class"] =
    ["user"; "user_profile"; "http_response"; "a1_b2c"; "get_http_response";
     "my_class"].
Proof. reflexivity. Qed.

(** An underscore in the class name: the first pattern, [(.)([A-Z][a-z]+)],
    takes any character before a capitalized word, so [My_Class] gets a
    second underscore, where the conversion of the specification puts
    none. *)
Lemma container_name_second_underscore :
  exists ns',
    ModelMetaclass_new Samples.no_substitution Samples.objectId "My_Class"
      Samples.my_class_body = Ok ns' /\
    dict_get "__collection__" Samples.my_class_body = None /\
    dict_get "__collection__" ns' = Some (NValue (VStr "my__class")) /\
    spec_snake_case "My_Class" = "my_class" /\
    dict_get "__collection__" ns' <>
      Some (NValue (VStr (spec_snake_case "My_Class"))).
Proof.
  eexists. split; [vm_compute; reflexivity|].
  split; [reflexivity|]. split; [reflexivity|]. split; [reflexivity|].
  discriminate.
Qed.

(** C10. When the scan of the class body has recorded no primary field and
    has a descriptor for a field named ["id"], that descriptor is an ordinary
    one, and the synthesis (which cannot raise) replaces it in place: the
    table gets the primary descriptor with key ["_id"] under ["id"] and no
    new name, ["id"] is bound to the field specification with the identifier
    default factory, and its annotation is the identifier type.  If the
    document keys are then distinct, the definition completes and the class
    body that results holds all three. *)
Theorem synthesized_primary_overwrites_id
    (subst : pytype -> option pytype) (oid : pytype) (name : string)
    (ns : dict nsvalue) (st : scan) (f : ODMBaseField) :
  is_root_model ns = false ->
  scan_fields subst name ns = Ok st ->
  s_primary_field st = None ->
  dict_get "id" (s_odm_fields st) = Some f ->
  let st' := synthesize_primary oid st in
  let spec := NPDFieldInfo (mkFieldInfo None (Some (CType oid))) in
  is_primary f = false /\
  collect_fields subst oid name ns = Ok st' /\
  dict_get "id" (s_odm_fields st') = Some (ODMField true "_id") /\
  dict_keys (s_odm_fields st') = dict_keys (s_odm_fields st) /\
  dict_get "id" (s_namespace st') = Some spec /\
  dict_get "id" (get_annotations (s_namespace st')) = Some oid /\
  (NoDup (key_names (s_odm_fields st')) ->
   exists ns' fs,
     ModelMetaclass_new subst oid name ns = Ok ns' /\
     dict_get "__odm_fields__" ns' = Some (NOdmFields fs) /\
     dict_get "id" fs = Some (ODMField true "_id") /\
     dict_get "id" ns' = Some spec /\
     dict_get "id" (get_annotations ns') = Some oid).
Proof.
  intros Hroot Hscan Hp Hid st' spec.
  destruct (synthesize_primary_None oid st Hp) as (Hs1 & Hs2 & Hs3 & Hs4).
  assert (Hc : collect_fields subst oid name ns = Ok st').
  { unfold collect_fields. now rewrite Hscan. }
  split; [|split; [exact Hc|split; [exact Hs2|split; [|split; [exact Hs3|split;
    [exact Hs4|]]]]]].
  - apply (primary_recorded_None st f "id"); [|exact Hp|exact Hid].
    now apply (scan_fields_primary subst name ns).
  - unfold st', synthesize_primary. rewrite Hp. simpl.
    rewrite dict_keys_set. unfold dict_mem. now rewrite Hid.
  - intros Hnd. exists (attach name st'), (s_odm_fields st').
    split; [|split; [apply attach_odm_fields|split; [exact Hs2|split]]].
    + unfold ModelMetaclass_new. rewrite Hroot, Hc. simpl.
      apply find_duplicate_key_None in Hnd. unfold key_names in Hnd.
      now rewrite Hnd.
    + now rewrite attach_id.
    + now rewrite attach_annotations.
Qed.

Lemma synthesized_primary_overwrites_id_witness :
  exists st ns',
    is_root_model Samples.account_body = false /\
    scan_fields Samples.no_substitution "Account" Samples.account_body = Ok st /\
    s_primary_field st = None /\
    dict_get "id" (s_odm_fields st) = Some (ODMField false "id") /\
    ModelMetaclass_new Samples.no_substitution Samples.objectId "Account"
      Samples.account_body = Ok ns' /\
    dict_get "id" ns' =
      Some (NPDFieldInfo (mkFieldInfo None (Some (CType Samples.objectId)))).
Proof.
  destruct (scan_fields Samples.no_substitution "Account" Samples.account_body)
    as [st|e] eqn:E; [|vm_compute in E; discriminate].
  pose proof E as E'. vm_compute in E'. injection E' as <-.
  destruct (synthesized_primary_overwrites_id Samples.no_substitution
              Samples.objectId "Account" Samples.account_body _
              (ODMField false "id") eq_refl E eq_refl eq_refl)
    as (_ & _ & _ & _ & _ & _ & H).
  destruct H as (ns' & fs & H1 & _ & _ & H2 & _).
  - vm_compute. repeat constructor; set_solver.
  - eexists _, ns'. do 4 (split; [reflexivity|]). split; [exact H1|exact H2].
Defined.


(** * The instance codec *)

(** ** Loops that fill a dictionary *)

Lemma for_each_ext {S A : Type} (body1 body2 : S -> A -> result S) l :
  (forall st a, a ∈ l -> body1 st a = body2 st a) ->
  forall st, for_each body1 l st = for_each body2 l st.
Proof.
  induction l as [|a l IH]; simpl; intros Hext st; [reflexivity|].
  rewrite (Hext st a) by left. destruct (body2 st a); simpl; [|reflexivity].
  apply IH. intros st' a' Ha'. apply Hext. now right.
Qed.

Section SetLoop.
Context {A V : Type}.
Variable key : A -> string.
Variable h : A -> result V.
Variable body : dict V -> A -> result (dict V).
Hypothesis body_eq :
  forall acc a, body acc a = bind (h a) (fun v => Ok (dict_set (key a) v acc)).

Lemma set_loop_get l acc d k w :
  for_each body l acc = Ok d ->
  (dict_get k acc = Some w \/ exists a, a ∈ l /\ key a = k /\ h a = Ok w) ->
  (forall a v, a ∈ l -> key a = k -> h a = Ok v -> v = w) ->
  dict_get k d = Some w.
Proof.
  revert acc. induction l as [|a l IH]; intros acc Hrun Hsrc Hsame.
  - injection Hrun as <-. destruct Hsrc as [H|(a & Ha & _)]; [exact H|].
    now apply elem_of_nil in Ha.
  - rewrite for_each_cons, body_eq in Hrun.
    apply bind_Ok in Hrun as (acc1 & Hstep & Hrun).
    apply bind_Ok in Hstep as (v & Hv & [= <-]).
    apply (IH _ Hrun).
    + destruct Hsrc as [H|(a' & Ha' & Hk & Hw)].
      * left. destruct (String.eqb_spec k (key a)) as [->|Hne].
        -- rewrite dict_get_set_eq. f_equal.
           apply (Hsame a v); [left|reflexivity|exact Hv].
        -- now rewrite dict_get_set_ne.
      * apply elem_of_cons in Ha' as [->|Ha'].
        -- left. rewrite <- Hk, dict_get_set_eq. congruence.
        -- right. now exists a'.
    + intros a' v' Ha'. apply Hsame. now right.
Qed.

Lemma set_loop_other l acc d k :
  for_each body l acc = Ok d ->
  (forall a, a ∈ l -> key a <> k) ->
  dict_get k d = dict_get k acc.
Proof.
  revert acc. induction l as [|a l IH]; intros acc Hrun Hk.
  - now injection Hrun as <-.
  - rewrite for_each_cons, body_eq in Hrun.
    apply bind_Ok in Hrun as (acc1 & Hstep & Hrun).
    apply bind_Ok in Hstep as (v & Hv & [= <-]).
    rewrite (IH _ Hrun) by (intros a' Ha'; apply Hk; now right).
    apply dict_get_set_ne. intros ->. apply (Hk a); [left|reflexivity].
Qed.

Lemma set_loop_total l acc :
  (forall a, a ∈ l -> exists v, h a = Ok v) ->
  exists d, for_each body l acc = Ok d.
Proof.
  revert acc. induction l as [|a l IH]; intros acc Hall.
  - now exists acc.
  - rewrite for_each_cons, body_eq.
    destruct (Hall a) as [v Hv]; [left|]. rewrite Hv. simpl.
    apply IH. intros a' Ha'. apply Hall. now right.
Qed.

Lemma set_loop_Ok l acc d a :
  for_each body l acc = Ok d -> a ∈ l -> exists v, h a = Ok v.
Proof.
  revert acc. induction l as [|a0 l IH]; intros acc Hrun Ha.
  - now apply elem_of_nil in Ha.
  - rewrite for_each_cons, body_eq in Hrun.
    apply bind_Ok in Hrun as (acc1 & Hstep & Hrun).
    apply bind_Ok in Hstep as (v & Hv & _).
    apply elem_of_cons in Ha as [->|Ha]; [now exists v|now apply (IH acc1)].
Qed.

Lemma set_loop_Raise l acc a e :
  a ∈ l -> h a = Raise e -> exists e', for_each body l acc = Raise e'.
Proof.
  intros Ha He. destruct (for_each body l acc) as [d|e'] eqn:Hrun; [|now exists e'].
  destruct (set_loop_Ok l acc d a Hrun Ha) as [v Hv]. congruence.
Qed.

End SetLoop.

(** ** [parse_doc] *)

Lemma parse_doc_unfold validate cls raw_doc :
  parse_doc validate cls raw_doc =
  bind (for_each (parse_doc_field (parse_doc validate) raw_doc)
          (cls_odm_fields cls) [])
       (parse_obj validate (cls_name cls) (cls_fields cls)).
Proof. destruct cls; reflexivity. Qed.

(** C9. [parse_doc] depends on a raw document only through the keys of the
    class's descriptors: on two documents that agree at each of these keys
    it gives the same outcome, the same instance or the same error, and a
    key that no descriptor names can be set to anything without changing
    the outcome. *)
Theorem parse_doc_reads_declared_keys
    (validate : pytype -> value -> option value) (cls : Class) :
  (forall d1 d2 : dict value,
     (forall n f, (n, f) ∈ cls_odm_fields cls ->
        dict_get (key_name f) d1 = dict_get (key_name f) d2) ->
     parse_doc validate cls (VDict d1) = parse_doc validate cls (VDict d2)) /\
  (forall (d : dict value) k v,
     k ∉ key_names (cls_odm_fields cls) ->
     parse_doc validate cls (VDict (dict_set k v d)) =
     parse_doc validate cls (VDict d)).
Proof.
  assert (Hagree : forall d1 d2 : dict value,
             (forall n f, (n, f) ∈ cls_odm_fields cls ->
                dict_get (key_name f) d1 = dict_get (key_name f) d2) ->
             parse_doc validate cls (VDict d1) = parse_doc validate cls (VDict d2)).
  { intros d1 d2 H. rewrite !parse_doc_unfold. f_equal.
    apply for_each_ext. intros acc [n f] Hin.
    unfold parse_doc_field, parse_doc_value. simpl.
    specialize (H n f Hin). destruct f as [p k|model k]; simpl in *; now rewrite H. }
  split; [exact Hagree|].
  intros d k v Hk. apply Hagree. intros n f Hin.
  apply dict_get_set_ne. intros Heq. apply Hk.
  unfold key_names, dict_values. rewrite map_map.
  apply list_elem_of_fmap. exists (n, f). split; [now rewrite <- Heq|exact Hin].
Qed.

(** On a table without references, the loop of [parse_doc] stops at the
    first key that the document lacks. *)
Lemma parse_doc_first_missing (rec : Class -> value -> result value)
    (d : dict value) l :
  (forall n f, (n, f) ∈ l -> is_reference f = false) ->
  (exists n f, (n, f) ∈ l /\ dict_get (key_name f) d = None) ->
  exists l1 n f l2,
    l = l1 ++ (n, f) :: l2 /\
    (forall n' f', (n', f') ∈ l1 -> dict_get (key_name f') d <> None) /\
    dict_get (key_name f) d = None /\
    forall acc,
      for_each (parse_doc_field rec (VDict d)) l acc =
      Raise (KeyError (key_name f)).
Proof.
  induction l as [|[n0 f0] l IH]; intros Hplain (n & f & Hin & Hnone).
  - now apply elem_of_nil in Hin.
  - destruct (dict_get (key_name f0) d) as [v0|] eqn:Hget.
    + destruct IH as (l1 & n' & f' & l2 & -> & Hl1 & Hf' & Hrun).
      * intros n1 f1 H1. apply (Hplain n1 f1). now right.
      * apply elem_of_cons in Hin as [[= -> ->]|Hin]; [congruence|].
        now exists n, f.
      * exists ((n0, f0) :: l1), n', f', l2. split; [reflexivity|]. split; [|split].
        -- intros n1 f1 H1. apply elem_of_cons in H1 as [[= -> ->]|H1];
             [congruence|now apply (Hl1 n1 f1)].
        -- exact Hf'.
        -- intros acc. rewrite for_each_cons.
           unfold parse_doc_field at 1, parse_doc_value. simpl.
           specialize (Hplain n0 f0 (list_elem_of_here _ _)).
           destruct f0 as [p k|model k]; [|discriminate]. simpl in *.
           rewrite Hget. simpl. apply Hrun.
    + exists [], n0, f0, l. split; [reflexivity|]. split; [|split].
      * intros n1 f1 H1. now apply elem_of_nil in H1.
      * exact Hget.
      * intros acc. rewrite for_each_cons.
        unfold parse_doc_field, parse_doc_value. simpl.
        specialize (Hplain n0 f0 (list_elem_of_here _ _)).
        destruct f0 as [p k|model k]; [|discriminate]. simpl in *.
        now rewrite Hget.
Qed.

(** C5, as the code has it.  A raw document that lacks the key of a declared
    field is never decoded: [parse_doc] raises, whatever defaults the
    validation layer of the class defines.  When the class has no reference
    field, what it raises is the lookup error for the first declared key that
    the document lacks. *)
Theorem parse_doc_missing_key
    (validate : pytype -> value -> option value) (cls : Class)
    (d : dict value) (n : string) (f : ODMBaseField) :
  (n, f) ∈ cls_odm_fields cls ->
  dict_get (key_name f) d = None ->
  (exists e, parse_doc validate cls (VDict d) = Raise e) /\
  ((forall n' f', (n', f') ∈ cls_odm_fields cls -> is_reference f' = false) ->
   exists l1 n' f' l2,
     cls_odm_fields cls = l1 ++ (n', f') :: l2 /\
     (forall n1 f1, (n1, f1) ∈ l1 -> dict_get (key_name f1) d <> None) /\
     dict_get (key_name f') d = None /\
     parse_doc validate cls (VDict d) = Raise (KeyError (key_name f'))).
Proof.
  intros Hin Hnone. split.
  - rewrite parse_doc_unfold.
    destruct (set_loop_Raise (fun item => fst item)
                (fun item => parse_doc_value (parse_doc validate) (VDict d)
                               (snd item))
                (parse_doc_field (parse_doc validate) (VDict d))
                (fun acc a => eq_refl)
                (cls_odm_fields cls) [] (n, f) (KeyError (key_name f)) Hin)
      as [e He].
    + unfold parse_doc_value. simpl.
      destruct f as [p k|model k]; simpl in *; now rewrite Hnone.
    + exists e. now rewrite He.
  - intros Hplain.
    destruct (parse_doc_first_missing (parse_doc validate) d
                (cls_odm_fields cls) Hplain)
      as (l1 & n' & f' & l2 & Hl & Hl1 & Hf' & Hrun); [now exists n, f|].
    exists l1, n', f', l2. repeat split; try assumption.
    rewrite parse_doc_unfold, Hrun. reflexivity.
Qed.

Lemma parse_doc_missing_key_witness :
  ("id", ODMField true "_id") ∈ cls_odm_fields Samples.user_class /\
  dict_get "_id" Samples.user_doc_without_id = None /\
  exists e,
    parse_doc Samples.accept_all Samples.user_class
      (VDict Samples.user_doc_without_id) = Raise e.
Proof.
  assert (Hin : ("id", ODMField true "_id") ∈ cls_odm_fields Samples.user_class).
  { simpl. do 2 right. left. }
  split; [exact Hin|]. split; [reflexivity|].
  exact (proj1 (parse_doc_missing_key Samples.accept_all Samples.user_class
                  Samples.user_doc_without_id "id" (ODMField true "_id")
                  Hin eq_refl)).
Defined.

(** C5, as the claim has it, fails: the identifier of [UserModel] has a
    default in the validation layer, and a document without ["_id"] is still
    refused with the lookup error; no instance is built from the default. *)
Lemma parse_doc_default_not_used :
  (exists ns',
     ModelMetaclass_new Samples.no_substitution Samples.objectId "UserModel"
       Samples.user_body = Ok ns' /\
     class_of "UserModel" ns' Samples.user_fields = Some Samples.user_class) /\
  dict_get "id" (cls_odm_fields Samples.user_class) = Some (ODMField true "_id") /\
  dict_get "id" (cls_fields Samples.user_class) =
    Some (mkModelField Samples.objectId (Default (VObjectId 7))) /\
  dict_get "_id" Samples.user_doc_without_id = None /\
  parse_doc Samples.accept_all Samples.user_class
    (VDict Samples.user_doc_without_id) = Raise (KeyError "_id") /\
  ~ (exists x,
       parse_doc Samples.accept_all Samples.user_class
         (VDict Samples.user_doc_without_id) = Ok x).
Proof.
  split; [|repeat split; try reflexivity].
  - eexists. split; [vm_compute; reflexivity|]. vm_compute. reflexivity.
  - intros [x Hx]. vm_compute in Hx. discriminate.
Qed.

(** ** [doc] *)

Lemma model_dict_get (self : dict value) n :
  getitem (model_dict self) n =
  match dict_get n self with
  | Some v => Ok (dump v)
  | None => Raise (KeyError n)
  end.
Proof.
  unfold model_dict. simpl.
  assert (H : dict_get n (map (fun kv => (fst kv, dump (snd kv))) self) =
              option_map dump (dict_get n self)).
  { induction self as [|[k v] self IH]; simpl; [reflexivity|].
    destruct (String.eqb n k); [reflexivity|exact IH]. }
  rewrite H. now destruct (dict_get n self).
Qed.

(** The class that is read back from a processed class body. *)
Lemma class_of_Ok subst oid name ns ns' fields cls :
  is_root_model ns = false ->
  ModelMetaclass_new subst oid name ns = Ok ns' ->
  class_of name ns' fields = Some cls ->
  exists st p,
    collect_fields subst oid name ns = Ok st /\
    s_primary_field st = Some p /\
    cls = MkClass name (s_odm_fields st) (s_bson_serialized_fields st) p fields /\
    NoDup (key_names (s_odm_fields st)).
Proof.
  intros Hroot H Hcls.
  apply ModelMetaclass_new_Ok in H as (st & Hc & Hdup & ->); [|exact Hroot].
  pose proof (collect_fields_primary _ _ _ _ _ Hc) as (p & kn & Hp & _).
  exists st, p. split; [exact Hc|]. split; [exact Hp|]. split.
  - unfold class_of in Hcls.
    rewrite attach_odm_fields, attach_bson_serialized_fields,
      (attach_primary_key name st p Hp) in Hcls.
    now injection Hcls as <-.
  - now apply find_duplicate_key_None.
Qed.

(** The first loop flags every retained annotation whose type has
    [BSONSerializedField] among its bases. *)
Lemma for_each_scan_bson name l st st' n t :
  for_each (scan_annotation name) l st = Ok st' ->
  (n, t) ∈ l -> is_skipped n t = false -> has_bson_base t = true ->
  n ∈ s_bson_serialized_fields st'.
Proof.
  assert (Hmono : forall l s s' x,
             for_each (scan_annotation name) l s = Ok s' ->
             x ∈ s_bson_serialized_fields s -> x ∈ s_bson_serialized_fields s').
  { intros l0 s s' x Hrun Hx.
    apply (for_each_inv (fun s0 => x ∈ s_bson_serialized_fields s0)
             (scan_annotation name) l0) with (st := s); [|exact Hx|exact Hrun].
    intros s0 [k t0] s1 _ Hs0 Hstep.
    apply scan_annotation_Ok in Hstep as [[_ ->]|(_ & Hb & _)]; [exact Hs0|].
    rewrite Hb. destruct (has_bson_base t0); set_solver. }
  revert st. induction l as [|[k t0] l IH]; intros st Hrun Hin Hskip Hbson.
  - now apply elem_of_nil in Hin.
  - rewrite for_each_cons in Hrun. apply bind_Ok in Hrun as (st1 & Hstep & Hrun).
    apply elem_of_cons in Hin as [[= <- <-]|Hin]; [|now apply (IH st1)].
    apply (Hmono l st1 st' n Hrun).
    apply scan_annotation_Ok in Hstep as [[Hs _]|(_ & Hb & _)]; [congruence|].
    rewrite Hb, Hbson. set_solver.
Qed.

(** ** The round trip *)

Lemma elem_of_dict_keys {V : Type} (d : dict V) n :
  n ∈ dict_keys d <-> exists v, (n, v) ∈ d.
Proof.
  unfold dict_keys. rewrite list_elem_of_fmap. split.
  - intros ([k v] & -> & Hin). now exists v.
  - intros (v & Hin). now exists (n, v).
Qed.

(** C1. Take a class that the metaclass has built and that has no reference
    field, and an instance that has a value for each declared field.  Let the
    validation layer have the declared fields as its fields, and let it take
    what [doc] stores for a field (the dumped value, or its [to_bson]
    conversion for a custom-serialized field) back to the field's value.
    Then [doc] succeeds, [parse_doc] succeeds on the document it returns, and
    the instance that comes back has the same value as the original at every
    declared field. *)
Theorem round_trip
    (subst : pytype -> option pytype) (oid : pytype)
    (validate : pytype -> value -> option value)
    (to_bson : pytype -> option (value -> value))
    (name : string) (ns ns' : dict nsvalue)
    (fields : dict (ModelField pytype)) (cls : Class) (self : dict value) :
  is_root_model ns = false ->
  ModelMetaclass_new subst oid name ns = Ok ns' ->
  class_of name ns' fields = Some cls ->
  (forall n f, (n, f) ∈ cls_odm_fields cls -> is_reference f = false) ->
  (forall n, n ∈ dict_keys fields <-> n ∈ dict_keys (cls_odm_fields cls)) ->
  (forall n, n ∈ dict_keys (cls_odm_fields cls) -> exists v, dict_get n self = Some v) ->
  (forall n fld v,
     (n, fld) ∈ fields -> dict_get n self = Some v ->
     exists w,
       doc_plain_value to_bson cls (model_dict self) n = Ok w /\
       validate (type_ fld) w = Some v) ->
  exists d x',
    doc to_bson cls self = Ok d /\
    parse_doc validate cls (VDict d) = Ok (VModel name x') /\
    forall n, n ∈ dict_keys (cls_odm_fields cls) -> dict_get n x' = dict_get n self.
Proof.
  intros Hroot Hnew Hcls Hplain Hnames Hinst Hvalid.
  destruct (class_of_Ok subst oid name ns ns' fields cls Hroot Hnew Hcls)
    as (st & p0 & _ & _ & Hc & Hnd).
  set (odm := s_odm_fields st) in *.
  assert (Hodm : cls_odm_fields cls = odm) by now rewrite Hc.
  assert (Hflds : cls_fields cls = fields) by now rewrite Hc.
  assert (Hname : cls_name cls = name) by now rewrite Hc.
  rewrite Hodm in *. clear Hc.
  set (raw := model_dict self) in *.
  (* what is stored for a declared field, and what validation makes of it *)
  assert (HW : forall n, n ∈ dict_keys odm ->
            exists v w,
              dict_get n self = Some v /\
              doc_plain_value to_bson cls raw n = Ok w /\
              forall fld, (n, fld) ∈ fields -> validate (type_ fld) w = Some v).
  { intros n Hn. destruct (Hinst n Hn) as [v Hv].
    pose proof (proj2 (Hnames n) Hn) as Hnf.
    apply elem_of_dict_keys in Hnf as [fld0 Hfld0].
    destruct (Hvalid n fld0 v Hfld0 Hv) as (w & Hw & _).
    exists v, w. split; [exact Hv|]. split; [exact Hw|].
    intros fld Hfld. destruct (Hvalid n fld v Hfld Hv) as (w' & Hw' & Hval).
    congruence. }
  (* the encoding *)
  pose (key1 := fun item : string * ODMBaseField => key_name (snd item)).
  pose (h1 := fun item : string * ODMBaseField =>
                doc_value to_bson cls raw (fst item) (snd item)).
  assert (Hh1 : forall n f, (n, f) ∈ odm -> h1 (n, f) = doc_plain_value to_bson cls raw n).
  { intros n f Hin. specialize (Hplain n f Hin).
    destruct f; [reflexivity|discriminate]. }
  destruct (set_loop_total key1 h1 (doc_field to_bson cls raw)
              (fun acc a => eq_refl) odm []) as [d Hd].
  { intros [n f] Hin. rewrite (Hh1 n f Hin).
    destruct (HW n) as (v & w & _ & Hw & _); [|now exists w].
    apply elem_of_dict_keys. now exists f. }
  assert (HD : forall n f w, (n, f) ∈ odm ->
            doc_plain_value to_bson cls raw n = Ok w ->
            dict_get (key_name f) d = Some w).
  { intros n f w Hin Hw.
    apply (set_loop_get key1 h1 (doc_field to_bson cls raw)
             (fun acc a => eq_refl) odm [] d (key_name f) w Hd).
    - right. exists (n, f). rewrite (Hh1 n f Hin). auto.
    - intros a v Ha Hk Hv.
      assert (a = (n, f)).
      { apply (NoDup_map_inj key1 odm); [|exact Ha|exact Hin|exact Hk].
        unfold key_names, dict_values in Hnd. now rewrite map_map in Hnd. }
      subst a. rewrite (Hh1 n f Hin) in Hv. congruence. }
  (* the decoding *)
  pose (h2 := fun item : string * ODMBaseField =>
                parse_doc_value (parse_doc validate) (VDict d) (snd item)).
  assert (Hh2 : forall n f w, (n, f) ∈ odm ->
            doc_plain_value to_bson cls raw n = Ok w -> h2 (n, f) = Ok w).
  { intros n f w Hin Hw. unfold h2, parse_doc_value. simpl.
    pose proof (HD n f w Hin Hw) as Hget. specialize (Hplain n f Hin).
    destruct f; [|discriminate]. simpl in *. now rewrite Hget. }
  destruct (set_loop_total fst h2 (parse_doc_field (parse_doc validate) (VDict d))
              (fun acc a => eq_refl) odm []) as [doc' Hdoc'].
  { intros [n f] Hin.
    destruct (HW n) as (v & w & _ & Hw & _); [apply elem_of_dict_keys; now exists f|].
    exists w. now apply Hh2. }
  assert (HP : forall n w, n ∈ dict_keys odm ->
            doc_plain_value to_bson cls raw n = Ok w -> dict_get n doc' = Some w).
  { intros n w Hn Hw. apply elem_of_dict_keys in Hn as [f Hin].
    apply (set_loop_get fst h2 (parse_doc_field (parse_doc validate) (VDict d))
             (fun acc a => eq_refl) odm [] doc' n w Hdoc').
    - right. exists (n, f). split; [exact Hin|]. split; [reflexivity|now apply Hh2].
    - intros [n' f'] v Ha Hk Hv. simpl in Hk. subst n'.
      rewrite (Hh2 n f' w Ha Hw) in Hv. congruence. }
  (* the validation *)
  pose (h3 := fun item : string * ModelField pytype =>
                validate_value validate doc' (fst item) (snd item)).
  assert (Hh3 : forall n fld v, (n, fld) ∈ fields ->
            dict_get n self = Some v -> h3 (n, fld) = Ok v).
  { intros n fld v Hin Hv.
    destruct (HW n) as (v' & w & Hv' & Hw & Hval).
    { apply Hnames. apply elem_of_dict_keys. now exists fld. }
    assert (v' = v) by congruence. subst v'.
    unfold h3, validate_value. simpl.
    rewrite (HP n w); [|apply Hnames, elem_of_dict_keys; now exists fld|exact Hw].
    now rewrite (Hval fld Hin). }
  destruct (set_loop_total fst h3 (validate_field validate doc')
              (fun acc a => eq_refl) fields []) as [x' Hx'].
  { intros [n fld] Hin.
    destruct (Hinst n) as [v Hv]; [apply Hnames, elem_of_dict_keys; now exists fld|].
    exists v. now apply Hh3. }
  exists d, x'. split; [unfold doc; rewrite Hodm; exact Hd|]. split.
  - rewrite parse_doc_unfold, Hodm, Hflds, Hname.
    fold h2 in Hdoc'. rewrite Hdoc'. simpl. unfold parse_obj. now rewrite Hx'.
  - intros n Hn. destruct (Hinst n Hn) as [v Hv]. rewrite Hv.
    pose proof (proj2 (Hnames n) Hn) as Hnf.
    apply elem_of_dict_keys in Hnf as [fld Hfld].
    apply (set_loop_get fst h3 (validate_field validate doc')
             (fun acc a => eq_refl) fields [] x' n v Hx').
    + right. exists (n, fld). split; [exact Hfld|]. split; [reflexivity|now apply Hh3].
    + intros [n' fld'] v' Ha Hk Hv'. simpl in Hk. subst n'.
      rewrite (Hh3 n fld' v Ha Hv) in Hv'. congruence.
Qed.

Lemma round_trip_witness :
  exists ns' d x',
    is_root_model Samples.log_body = false /\
    ModelMetaclass_new Samples.no_substitution Samples.objectId "Log"
      Samples.log_body = Ok ns' /\
    class_of "Log" ns' Samples.log_fields = Some Samples.log_class /\
    doc Samples.wrap_to_bson Samples.log_class Samples.log_self = Ok d /\
    dict_get "at" d = Some (VList [VInt 5]) /\
    parse_doc Samples.unwrap_validate Samples.log_class (VDict d) =
      Ok (VModel "Log" x') /\
    forall n, n ∈ dict_keys (cls_odm_fields Samples.log_class) ->
              dict_get n x' = dict_get n Samples.log_self.
Proof.
  destruct (ModelMetaclass_new Samples.no_substitution Samples.objectId "Log"
              Samples.log_body) as [ns'|e] eqn:E; [|vm_compute in E; discriminate].
  assert (Hcls : class_of "Log" ns' Samples.log_fields = Some Samples.log_class).
  { vm_compute in E. injection E as <-. vm_compute. reflexivity. }
  destruct (round_trip Samples.no_substitution Samples.objectId
              Samples.unwrap_validate Samples.wrap_to_bson "Log" Samples.log_body
              ns' Samples.log_fields Samples.log_class Samples.log_self
              eq_refl E Hcls) as (d & x' & Hd & Hp & Hx).
  - intros n f Hin. simpl in Hin.
    apply elem_of_cons in Hin as [[= -> ->]|Hin]; [reflexivity|].
    apply elem_of_cons in Hin as [[= -> ->]|Hin]; [reflexivity|].
    now apply elem_of_nil in Hin.
  - intros n. reflexivity.
  - intros n Hin. simpl in Hin.
    apply elem_of_cons in Hin as [->|Hin]; [now exists (VInt 5)|].
    apply elem_of_cons in Hin as [->|Hin]; [now exists (VObjectId 4)|].
    now apply elem_of_nil in Hin.
  - intros n fld v Hin Hv. unfold Samples.log_fields in Hin.
    apply elem_of_cons in Hin as [[= -> ->]|Hin].
    { injection Hv as <-. exists (VList [VInt 5]). split; vm_compute; reflexivity. }
    apply elem_of_cons in Hin as [[= -> ->]|Hin].
    { injection Hv as <-. exists (VObjectId 4). split; vm_compute; reflexivity. }
    now apply elem_of_nil in Hin.
  - exists ns', d, x'. split; [reflexivity|]. split; [reflexivity|].
    split; [exact Hcls|]. split; [exact Hd|]. split; [|split; [exact Hp|exact Hx]].
    vm_compute in Hd. injection Hd as <-. reflexivity.
Defined.

(** A class without reference field that [doc] cannot encode.  The class
    body binds the name [_secret]; the second loop of the metaclass gives it
    a descriptor, while the validation engine takes no name that starts with
    an underscore for a field.  So no instance has a value under that name,
    and [doc] raises [KeyError] on every instance: there is no document to
    decode. *)
Lemma round_trip_private_attribute :
  exists ns' cls,
    ModelMetaclass_new Samples.no_substitution Samples.objectId "K"
      Samples.private_body = Ok ns' /\
    class_of "K" ns' Samples.private_fields = Some cls /\
    (forall n f, (n, f) ∈ cls_odm_fields cls -> is_reference f = false) /\
    forall to_bson,
      doc to_bson cls Samples.private_self = Raise (KeyError "_secret").
Proof.
  eexists _, _. split; [vm_compute; reflexivity|].
  split; [vm_compute; reflexivity|]. split.
  - intros n f Hin. cbn [cls_odm_fields] in Hin.
    repeat (apply elem_of_cons in Hin as [Hin|Hin];
            [injection Hin as -> ->; reflexivity|]).
    now apply elem_of_nil in Hin.
  - intros to_bson. vm_compute. reflexivity.
Qed.

(** * Foreign field objects, references and custom serialization *)

(** C6. The branch that is meant for pydantic's own field configuration
    tests [value is PDFieldInfo], which holds of the class [FieldInfo] and of
    none of its instances; what [pydantic.Field(...)] returns is an instance.
    So a field bound to such an object is refused as an unhandled field
    definition, and the message that points to [odmantic.Field] is only
    raised for a field bound to the class itself. *)
Theorem foreign_field_instance_unhandled :
  (forall name st k t fi,
     is_skipped k t = false ->
     dict_get k (s_namespace st) = Some (NPDFieldInfo fi) ->
     scan_annotation name st (k, t) =
       Raise (UnhandledFieldDefinition name (NPDFieldInfo fi))) /\
  (forall name st k t,
     is_skipped k t = false ->
     dict_get k (s_namespace st) = Some NPDFieldInfoClass ->
     scan_annotation name st (k, t) = Raise UseOdmanticField) /\
  ModelMetaclass_new Samples.no_substitution Samples.objectId "Item"
    Samples.item_body =
    Raise (UnhandledFieldDefinition "Item"
             (NPDFieldInfo (mkFieldInfo (Some (VInt 3)) None))).
Proof.
  split; [|split].
  - intros name st k t fi Hs Hget. unfold scan_annotation. now rewrite Hs, Hget.
  - intros name st k t Hs Hget. unfold scan_annotation. now rewrite Hs, Hget.
  - vm_compute. reflexivity.
Qed.

(** What [doc] does store for a reference: the entry ["id"] of the nested
    instance, which is its primary key exactly when the referenced class has
    made ["id"] its primary key. *)
Lemma doc_reference_id
    (to_bson : pytype -> option (value -> value)) (cls : Class)
    (self d : dict value) n model k mname vals :
  NoDup (key_names (cls_odm_fields cls)) ->
  doc to_bson cls self = Ok d ->
  (n, ODMReference model k) ∈ cls_odm_fields cls ->
  dict_get n self = Some (VModel mname vals) ->
  exists v, dict_get "id" vals = Some v /\ dict_get k d = Some (dump v).
Proof.
  intros Hnd Hdoc Hin Hself. unfold doc in Hdoc.
  pose (keyf := fun item : string * ODMBaseField => key_name (snd item)).
  pose (h := fun item : string * ODMBaseField =>
               doc_value to_bson cls (model_dict self) (fst item) (snd item)).
  destruct (set_loop_Ok keyf h (doc_field to_bson cls (model_dict self))
              (fun acc a => eq_refl) _ _ _ (n, ODMReference model k) Hdoc Hin)
    as [w Hw].
  assert (Hget : dict_get k d = Some w).
  { apply (set_loop_get keyf h (doc_field to_bson cls (model_dict self))
             (fun acc a => eq_refl) _ _ _ k w Hdoc).
    - right. exists (n, ODMReference model k). auto.
    - intros a v Ha Hk Hv.
      assert (a = (n, ODMReference model k)); [|congruence].
      apply (NoDup_map_inj keyf (cls_odm_fields cls)); [|exact Ha|exact Hin|exact Hk].
      unfold key_names, dict_values in Hnd. now rewrite map_map in Hnd. }
  unfold h, doc_value in Hw. cbn [fst snd] in Hw.
  rewrite model_dict_get, Hself in Hw. cbn [bind] in Hw.
  change (dump (VModel mname vals)) with (model_dict vals) in Hw.
  rewrite model_dict_get in Hw.
  destruct (dict_get "id" vals) as [v|]; [|discriminate].
  injection Hw as <-. now exists v.
Qed.

(** C2. [doc] takes the entry ["id"] of the nested mapping, whatever field
    the referenced class has made its primary key.  With [Author], whose
    primary key is [pk], encoding a [Post] fails with a lookup error; with
    [Writer], whose primary key is [pk] and which has an ordinary field [id],
    the document of a [Note] holds the value of [id] under the key of the
    reference, not the primary key ["ada"]. *)
Theorem doc_reference_takes_id :
  (exists ns',
     ModelMetaclass_new Samples.no_substitution Samples.objectId "Author"
       Samples.author_body = Ok ns' /\
     class_of "Author" ns' Samples.author_fields = Some Samples.author_class) /\
  (exists ns',
     ModelMetaclass_new Samples.no_substitution Samples.objectId "Post"
       Samples.post_body = Ok ns' /\
     class_of "Post" ns' Samples.post_fields = Some Samples.post_class) /\
  cls_primary_key Samples.author_class = "pk" /\
  doc Samples.no_to_bson Samples.post_class Samples.post_self = Raise (KeyError "id") /\
  (exists ns',
     ModelMetaclass_new Samples.no_substitution Samples.objectId "Writer"
       Samples.writer_body = Ok ns' /\
     class_of "Writer" ns' Samples.writer_fields = Some Samples.writer_class) /\
  (exists ns',
     ModelMetaclass_new Samples.no_substitution Samples.objectId "Note"
       Samples.note_body = Ok ns' /\
     class_of "Note" ns' Samples.note_fields = Some Samples.note_class) /\
  cls_primary_key Samples.writer_class = "pk" /\
  doc Samples.no_to_bson Samples.note_class Samples.note_self =
    Ok [("by", VInt 42); ("_id", VObjectId 2)].
Proof.
  repeat split; try (vm_compute; reflexivity);
    eexists; (split; [vm_compute; reflexivity|vm_compute; reflexivity]).
Qed.

(** C8, as the claim has it, fails for a reference: the field [at] of [Event]
    has a type with [BSONSerializedField] among its bases and is flagged, but
    it is a reference, and [doc] stores the nested identifier without calling
    the conversion. *)
Lemma doc_reference_not_converted :
  (exists ns',
     ModelMetaclass_new Samples.no_substitution Samples.objectId "Event"
       Samples.event_body = Ok ns' /\
     class_of "Event" ns' Samples.event_fields = Some Samples.event_class) /\
  has_bson_base Samples.stamp = true /\
  "at" ∈ cls_bson_serialized_fields Samples.event_class /\
  (exists conv,
     Samples.wrap_to_bson Samples.stamp = Some conv /\
     conv (dump (VModel "Stamp" [("id", VObjectId 9)])) =
       VList [VDict [("id", VObjectId 9)]]) /\
  doc Samples.wrap_to_bson Samples.event_class Samples.event_self =
    Ok [("at", VObjectId 9); ("_id", VObjectId 3)].
Proof.
  split; [|split; [reflexivity|split; [|split]]].
  - eexists. split; vm_compute; reflexivity.
  - vm_compute. set_solver.
  - eexists. split; reflexivity.
  - vm_compute. reflexivity.
Qed.

(** C8, as the code has it.  Every retained annotation whose type has
    [BSONSerializedField] among its bases is in the custom-serialized set of
    the class; and for a plain (non-reference) descriptor whose field is in
    that set, the document that [doc] returns holds, under the descriptor's
    key, the conversion of the field's dumped value, the conversion being
    the [to_bson] of the type that the validation layer has for the field. *)
Theorem bson_serialized_fields_converted
    (subst : pytype -> option pytype) (oid : pytype)
    (to_bson : pytype -> option (value -> value))
    (name : string) (ns ns' : dict nsvalue)
    (fields : dict (ModelField pytype)) (cls : Class) :
  is_root_model ns = false ->
  ModelMetaclass_new subst oid name ns = Ok ns' ->
  class_of name ns' fields = Some cls ->
  (forall n t,
     (n, t) ∈ substitute subst (get_annotations ns) ->
     is_skipped n t = false -> has_bson_base t = true ->
     n ∈ cls_bson_serialized_fields cls) /\
  (forall self d n p k,
     doc to_bson cls self = Ok d ->
     (n, ODMField p k) ∈ cls_odm_fields cls ->
     n ∈ cls_bson_serialized_fields cls ->
     exists fld conv v,
       dict_get n (cls_fields cls) = Some fld /\
       to_bson (type_ fld) = Some conv /\
       dict_get n self = Some v /\
       dict_get k d = Some (conv (dump v))).
Proof.
  intros Hroot Hnew Hcls.
  destruct (class_of_Ok subst oid name ns ns' fields cls Hroot Hnew Hcls)
    as (st & p0 & Hc & Hp & -> & Hnd).
  split.
  - intros n t Hin Hskip Hbson. simpl.
    unfold collect_fields in Hc. apply bind_Ok in Hc as (st2 & Hscan & [= <-]).
    apply scan_fields_Ok in Hscan as (st1 & Hrun & _ & _ & _ & Hb & _).
    assert (Hsyn : s_bson_serialized_fields (synthesize_primary oid st2) =
                   s_bson_serialized_fields st2).
    { unfold synthesize_primary. now destruct (s_primary_field st2). }
    rewrite Hsyn, Hb.
    now apply (for_each_scan_bson name _ _ _ n t Hrun).
  - intros self d n p k Hdoc Hin Hflag. unfold doc in Hdoc. simpl in *.
    set (cls := MkClass name (s_odm_fields st) (s_bson_serialized_fields st) p0 fields)
      in *.
    pose (keyf := fun item : string * ODMBaseField => key_name (snd item)).
    pose (h := fun item : string * ODMBaseField =>
                 doc_value to_bson cls (model_dict self) (fst item) (snd item)).
    destruct (set_loop_Ok keyf h (doc_field to_bson cls (model_dict self))
                (fun acc a => eq_refl) _ _ _ (n, ODMField p k) Hdoc Hin) as [w Hw].
    assert (Hget : dict_get k d = Some w).
    { apply (set_loop_get keyf h (doc_field to_bson cls (model_dict self))
               (fun acc a => eq_refl) _ _ _ k w Hdoc).
      - right. exists (n, ODMField p k). auto.
      - intros a v Ha Hk Hv.
        assert (a = (n, ODMField p k)); [|congruence].
        apply (NoDup_map_inj keyf (s_odm_fields st)); [|exact Ha|exact Hin|exact Hk].
        unfold key_names, dict_values in Hnd. now rewrite map_map in Hnd. }
    unfold h, cls, doc_value, doc_plain_value in Hw.
    cbn [fst snd cls_bson_serialized_fields cls_fields] in Hw.
    destruct (decide (n ∈ s_bson_serialized_fields st)); [|contradiction].
    destruct (dict_get n fields) as [fld|] eqn:Hfld; [|discriminate].
    destruct (to_bson (type_ fld)) as [conv|] eqn:Hconv; [|discriminate].
    rewrite model_dict_get in Hw.
    destruct (dict_get n self) as [v|] eqn:Hv; [|discriminate].
    injection Hw as <-. exists fld, conv, v. repeat split; assumption.
Qed.

Lemma bson_serialized_fields_converted_witness :
  exists ns',
    is_root_model Samples.log_body = false /\
    ModelMetaclass_new Samples.no_substitution Samples.objectId "Log"
      Samples.log_body = Ok ns' /\
    class_of "Log" ns' Samples.log_fields = Some Samples.log_class /\
    "at" ∈ cls_bson_serialized_fields Samples.log_class /\
    doc Samples.wrap_to_bson Samples.log_class Samples.log_self =
      Ok [("at", VList [VInt 5]); ("_id", VObjectId 4)].
Proof.
  destruct (ModelMetaclass_new Samples.no_substitution Samples.objectId "Log"
              Samples.log_body) as [ns'|e] eqn:E; [|vm_compute in E; discriminate].
  assert (Hcls : class_of "Log" ns' Samples.log_fields = Some Samples.log_class).
  { vm_compute in E. injection E as <-. vm_compute. reflexivity. }
  exists ns'. split; [reflexivity|]. split; [reflexivity|]. split; [exact Hcls|].
  destruct (bson_serialized_fields_converted Samples.no_substitution
              Samples.objectId Samples.wrap_to_bson "Log" Samples.log_body ns'
              Samples.log_fields Samples.log_class eq_refl E Hcls) as [H _].
  split; [|vm_compute; reflexivity].
  apply (H "at" Samples.datetime); [left|reflexivity|reflexivity].
Defined.

(** * More of the class definition *)

(** ** Declarations that are refused *)

(** A loop raises when one of its items raises in every state that the
    loop can be in. *)
Lemma for_each_raises {S A : Type} (P : S -> Prop) (body : S -> A -> result S) l a :
  a ∈ l ->
  (forall st b st', P st -> body st b = Ok st' -> P st') ->
  (forall st, P st -> exists e, body st a = Raise e) ->
  forall st, P st -> exists e, for_each body l st = Raise e.
Proof.
  intros Ha Hkeep Hraise. induction l as [|b l IH]; intros st HP.
  - now apply elem_of_nil in Ha.
  - rewrite for_each_cons. destruct (body st b) as [st1|e] eqn:E; [|now exists e].
    simpl. apply elem_of_cons in Ha as [->|Ha].
    + destruct (Hraise st HP) as [e He]. congruence.
    + apply (IH Ha st1). now apply (Hkeep st b).
Qed.

(** A binding that is no field-configuration object stays as it is all
    along the first loop. *)
Lemma scan_annotation_keeps_binding name st k t st' n v :
  (forall fi p kn, v <> NODMFieldInfo fi p kn) ->
  dict_get n (s_namespace st) = Some v ->
  scan_annotation name st (k, t) = Ok st' ->
  dict_get n (s_namespace st') = Some v.
Proof.
  intros Hv Hget Hstep.
  destruct (scan_annotation_namespace name st k t st' n Hstep)
    as [Heq|(_ & _ & fi & p & kn & Hold & _)]; [congruence|].
  rewrite Hget in Hold. injection Hold as ->. now contradiction (Hv fi p kn).
Qed.

(** A reference declared on a type that is not a schema-class (a class that
    does not derive from [Model], or no class at all) makes the class
    definition raise. *)
Theorem reference_on_non_model_raises
    (subst : pytype -> option pytype) (oid : pytype) (name : string)
    (ns : dict nsvalue) (n : string) (t : pytype) (kn : option string) :
  is_root_model ns = false ->
  (n, t) ∈ substitute subst (get_annotations ns) ->
  is_skipped n t = false ->
  dict_get n ns = Some (NODMReferenceInfo kn) ->
  (forall m, issubclass_Model t <> Ok (Some m)) ->
  exists e, ModelMetaclass_new subst oid name ns = Raise e.
Proof.
  intros Hroot Hin Hskip Hget Ht.
  destruct (for_each_raises
              (fun st => dict_get n (s_namespace st) = Some (NODMReferenceInfo kn))
              (scan_annotation name) (substitute subst (get_annotations ns)) (n, t) Hin)
    with (st := scan_start subst ns) as [e He].
  - intros st [k t'] st' HP Hstep.
    apply (scan_annotation_keeps_binding name st k t' st' n _); [congruence|exact HP|exact Hstep].
  - intros st HP. unfold scan_annotation. rewrite Hskip, HP. simpl.
    destruct (issubclass_Model t) as [[m|]|e] eqn:E; simpl; eauto.
    now contradiction (Ht m).
  - rewrite scan_start_get; [exact Hget|]. intros ->. discriminate.
  - now apply (ModelMetaclass_new_raises subst oid name ns e).
Qed.

Lemma reference_on_non_model_raises_witness :
  is_root_model Samples.bad_reference_body = false /\
  exists e,
    ModelMetaclass_new Samples.no_substitution Samples.objectId "Post"
      Samples.bad_reference_body = Raise e.
Proof.
  split; [reflexivity|].
  apply (reference_on_non_model_raises Samples.no_substitution Samples.objectId
           "Post" Samples.bad_reference_body "author" Samples.str None).
  - reflexivity.
  - simpl. right. left.
  - reflexivity.
  - reflexivity.
  - intros m. discriminate.
Defined.

(** An annotated field that is bound to anything but a field configuration,
    a reference configuration or [Undefined] (a plain default value, the
    validation engine's own field object, a function) makes the class
    definition raise. *)
Theorem unhandled_declaration_raises
    (subst : pytype -> option pytype) (oid : pytype) (name : string)
    (ns : dict nsvalue) (n : string) (t : pytype) (v : nsvalue) :
  is_root_model ns = false ->
  (n, t) ∈ substitute subst (get_annotations ns) ->
  is_skipped n t = false ->
  dict_get n ns = Some v ->
  (forall fi p kn, v <> NODMFieldInfo fi p kn) ->
  (forall kn, v <> NODMReferenceInfo kn) ->
  v <> NUndefined ->
  exists e, ModelMetaclass_new subst oid name ns = Raise e.
Proof.
  intros Hroot Hin Hskip Hget Hv1 Hv2 Hv3.
  destruct (for_each_raises
              (fun st => dict_get n (s_namespace st) = Some v)
              (scan_annotation name) (substitute subst (get_annotations ns)) (n, t) Hin)
    with (st := scan_start subst ns) as [e He].
  - intros st [k t'] st' HP Hstep.
    now apply (scan_annotation_keeps_binding name st k t' st' n v).
  - intros st HP. unfold scan_annotation. rewrite Hskip, HP. simpl.
    destruct v; eauto.
    + now contradiction (Hv1 pydantic_field_info primary_field key_name0).
    + now contradiction (Hv2 key_name0).
    + now contradiction Hv3.
  - rewrite scan_start_get; [exact Hget|]. intros ->. discriminate.
  - now apply (ModelMetaclass_new_raises subst oid name ns e).
Qed.

Lemma unhandled_declaration_raises_witness :
  is_root_model Samples.plain_default_body = false /\
  exists e,
    ModelMetaclass_new Samples.no_substitution Samples.objectId "Item"
      Samples.plain_default_body = Raise e.
Proof.
  split; [reflexivity|].
  apply (unhandled_declaration_raises Samples.no_substitution Samples.objectId
           "Item" Samples.plain_default_body "x" Samples.int (NValue (VInt 3)));
    try reflexivity; try discriminate.
  simpl. left.
Defined.

(** ** The descriptor of an annotated field *)

Lemma substitute_keys subst l : dict_keys (substitute subst l) = dict_keys l.
Proof.
  unfold dict_keys, substitute. rewrite map_map. apply map_ext.
  intros [k v]. now destruct (subst v).
Qed.

Lemma scan_annotation_other name st k t st' n :
  scan_annotation name st (k, t) = Ok st' -> n <> k ->
  dict_get n (s_odm_fields st') = dict_get n (s_odm_fields st) /\
  dict_get n (s_namespace st') = dict_get n (s_namespace st).
Proof.
  intros H Hne. apply scan_annotation_Ok in H as [[_ ->]|(_ & _ & H)]; [now split|].
  destruct H as [(fi & p & kn & _ & _ & _ & Hodm & _ & Hns)
                |[(kn & b & m & model & _ & _ & _ & Hodm & _ & Hns)
                 |(_ & _ & Hodm & _ & Hns)]];
    rewrite Hodm, Hns, ?dict_get_set_ne by exact Hne; now split.
Qed.

Lemma for_each_scan_other name l st st' n :
  for_each (scan_annotation name) l st = Ok st' -> n ∉ dict_keys l ->
  dict_get n (s_odm_fields st') = dict_get n (s_odm_fields st) /\
  dict_get n (s_namespace st') = dict_get n (s_namespace st).
Proof.
  intros Hrun Hn.
  apply (for_each_inv
           (fun s => dict_get n (s_odm_fields s) = dict_get n (s_odm_fields st) /\
                     dict_get n (s_namespace s) = dict_get n (s_namespace st))
           (scan_annotation name) l) with (st := st); [|now split|exact Hrun].
  intros s [k t] s' Hin [H1 H2] Hstep.
  destruct (scan_annotation_other name s k t s' n Hstep) as [H3 H4].
  - intros ->. apply Hn. apply elem_of_dict_keys. now exists t.
  - split; congruence.
Qed.

Lemma scan_annotation_declares name st n t st' :
  scan_annotation name st (n, t) = Ok st' -> is_skipped n t = false ->
  exists f,
    declared_descriptor (dict_get n (s_namespace st)) n t = Some f /\
    dict_get n (s_odm_fields st') = Some f /\
    dict_get n (s_namespace st') = rebound (dict_get n (s_namespace st)).
Proof.
  intros H Hskip. apply scan_annotation_Ok in H as [[H _]|(_ & _ & H)]; [congruence|].
  destruct H as [(fi & p & kn & Hget & _ & _ & Hodm & _ & Hns)
                |[(kn & b & m & model & Hget & -> & _ & Hodm & _ & Hns)
                 |(Hget & _ & Hodm & _ & Hns)]]; rewrite Hodm, Hns.
  - rewrite Hget. simpl. eexists. split; [reflexivity|].
    now rewrite !dict_get_set_eq.
  - rewrite Hget. simpl. eexists. split; [reflexivity|].
    now rewrite dict_get_set_eq.
  - exists (ODMField false n). rewrite dict_get_set_eq.
    destruct Hget as [-> | ->]; auto.
Qed.

Lemma for_each_scan_declares name l st st' n t :
  for_each (scan_annotation name) l st = Ok st' ->
  NoDup (dict_keys l) -> (n, t) ∈ l -> is_skipped n t = false ->
  exists f,
    declared_descriptor (dict_get n (s_namespace st)) n t = Some f /\
    dict_get n (s_odm_fields st') = Some f /\
    dict_get n (s_namespace st') = rebound (dict_get n (s_namespace st)).
Proof.
  revert st. induction l as [|[k t0] l IH]; intros st Hrun Hnd Hin Hskip.
  - now apply elem_of_nil in Hin.
  - rewrite for_each_cons in Hrun. apply bind_Ok in Hrun as (st1 & Hstep & Hrun).
    simpl in Hnd. apply NoDup_cons in Hnd as [Hk Hnd].
    apply elem_of_cons in Hin as [[= <- <-]|Hin].
    + destruct (scan_annotation_declares name st n t st1 Hstep Hskip)
        as (f & Hf & Hodm & Hns).
      destruct (for_each_scan_other name l st1 st' n Hrun Hk) as [H1 H2].
      exists f. split; [exact Hf|]. split; congruence.
    + assert (Hne : n <> k).
      { intros ->. apply Hk. apply elem_of_dict_keys. now exists t. }
      destruct (scan_annotation_other name st k t0 st1 n Hstep Hne) as [_ H2].
      destruct (IH st1 Hrun Hnd Hin Hskip) as (f & Hf & Hodm & Hns).
      exists f. rewrite <- H2. auto.
Qed.

(** The second loop leaves the annotated names alone. *)
Lemma scan_name_annotated annotations l fs n :
  dict_mem n annotations = true ->
  dict_get n (fold_left (scan_name annotations) l fs) = dict_get n fs.
Proof.
  intros Hn. revert fs. induction l as [|[k v] l IH]; intros fs; [reflexivity|].
  simpl. rewrite IH.
  destruct (String.eqb_spec n k) as [->|Hne].
  - now rewrite Hn.
  - destruct (_ || _); [reflexivity|now apply dict_get_set_ne].
Qed.

Lemma synthesize_primary_other oid st n :
  n <> "id" \/ s_primary_field st <> None ->
  dict_get n (s_odm_fields (synthesize_primary oid st)) = dict_get n (s_odm_fields st).
Proof.
  intros H. unfold synthesize_primary.
  destruct (s_primary_field st) eqn:Hp; [reflexivity|]. simpl.
  destruct H as [H|H]; [now apply dict_get_set_ne|congruence].
Qed.

Lemma synthesize_primary_binding oid st n :
  n <> "__annotations__" ->
  n <> "id" \/ s_primary_field st <> None ->
  dict_get n (s_namespace (synthesize_primary oid st)) = dict_get n (s_namespace st).
Proof.
  intros Hann H. unfold synthesize_primary.
  destruct (s_primary_field st) eqn:Hp; [reflexivity|]. simpl.
  destruct H as [H|H]; [now rewrite !dict_get_set_ne|congruence].
Qed.

(** The descriptor of a retained annotation, after the two loops. *)
Lemma scan_fields_declares subst name ns st n t :
  scan_fields subst name ns = Ok st ->
  NoDup (dict_keys (get_annotations ns)) ->
  (n, t) ∈ substitute subst (get_annotations ns) ->
  is_skipped n t = false ->
  exists f,
    declared_descriptor (dict_get n ns) n t = Some f /\
    dict_get n (s_odm_fields st) = Some f /\
    dict_get n (s_namespace st) = rebound (dict_get n ns).
Proof.
  intros Hscan Hnd Hin Hskip.
  apply scan_fields_Ok in Hscan as (st1 & Hrun & Hp & Hodm & _ & _ & Hns).
  assert (Hvalid : n <> "__annotations__") by (intros ->; discriminate).
  destruct (for_each_scan_declares name _ _ _ n t Hrun) as (f & Hf & Hf1 & Hf2);
    [now rewrite substitute_keys|exact Hin|exact Hskip|].
  rewrite (scan_start_get subst ns n Hvalid) in Hf, Hf2.
  assert (Hmem : dict_mem n (substitute subst (get_annotations ns)) = true).
  { unfold dict_mem.
    destruct (dict_get n (substitute subst (get_annotations ns))) eqn:E; [reflexivity|].
    apply dict_get_None in E. exfalso. apply E. apply elem_of_dict_keys. now exists t. }
  exists f. split; [exact Hf|]. split; [|congruence].
  now rewrite Hodm, scan_name_annotated.
Qed.

(** A primary descriptor in the table means that the scan has recorded a
    primary field. *)
Lemma primary_recorded_Some st n f :
  primary_recorded st -> dict_get n (s_odm_fields st) = Some f ->
  is_primary f = true -> s_primary_field st <> None.
Proof.
  intros Hrec Hget Hf Hnone.
  rewrite (primary_recorded_None st f n Hrec Hnone Hget) in Hf. discriminate.
Qed.

(** The descriptor of a retained annotation, once the fields are collected. *)
Lemma collect_fields_declares subst oid name ns st n t :
  collect_fields subst oid name ns = Ok st ->
  NoDup (dict_keys (get_annotations ns)) ->
  (n, t) ∈ substitute subst (get_annotations ns) ->
  is_skipped n t = false ->
  exists f,
    declared_descriptor (dict_get n ns) n t = Some f /\
    ((n = "id" -> is_primary f = true) ->
     dict_get n (s_odm_fields st) = Some f /\
     dict_get n (s_namespace st) = rebound (dict_get n ns)).
Proof.
  intros Hc Hnd Hin Hskip.
  unfold collect_fields in Hc. apply bind_Ok in Hc as (st2 & Hscan & [= <-]).
  pose proof (scan_fields_primary subst name ns st2 Hscan) as Hrec.
  destruct (scan_fields_declares subst name ns st2 n t Hscan Hnd Hin Hskip)
    as (f & Hf & Hf1 & Hf2).
  assert (Hvalid : n <> "__annotations__") by (intros ->; discriminate).
  exists f. split; [exact Hf|]. intros Hid.
  assert (Hkeep : n <> "id" \/ s_primary_field st2 <> None).
  { destruct (String.eqb_spec n "id") as [->|Hne]; [|now left]. right.
    apply (primary_recorded_Some st2 "id" f Hrec Hf1). now apply Hid. }
  split.
  - now rewrite synthesize_primary_other.
  - now rewrite synthesize_primary_binding.
Qed.

Lemma is_skipped_not_attached n t :
  is_skipped n t = false ->
  n ∉ ["__odm_fields__"; "__references__"; "__primary_key__";
       "__bson_serialized_fields__"; "__collection__"].
Proof.
  intros Hskip. unfold is_skipped in Hskip. apply orb_false_elim in Hskip as [Hv _].
  apply negb_false_iff in Hv.
  rewrite !not_elem_of_cons. repeat split; try (intros ->; discriminate).
  apply not_elem_of_nil.
Qed.

(** Every annotated field that the first loop retains has, in the descriptor
    table of the class, the descriptor that its declaration stands for: the
    configured key name or else the field name as the document key, the
    configured primary flag, the referenced class for a reference; and a
    field configuration bound to the name has given way to the
    validation-engine specification that it wraps.  Only a non-primary field
    named ["id"] is left out, which the synthesis may replace. *)
Theorem annotated_field_descriptor
    (subst : pytype -> option pytype) (oid : pytype) (name : string)
    (ns ns' : dict nsvalue) (n : string) (t : pytype) :
  is_root_model ns = false ->
  NoDup (dict_keys (get_annotations ns)) ->
  ModelMetaclass_new subst oid name ns = Ok ns' ->
  (n, t) ∈ substitute subst (get_annotations ns) ->
  is_skipped n t = false ->
  exists fs f,
    dict_get "__odm_fields__" ns' = Some (NOdmFields fs) /\
    declared_descriptor (dict_get n ns) n t = Some f /\
    ((n = "id" -> is_primary f = true) ->
     dict_get n fs = Some f /\ dict_get n ns' = rebound (dict_get n ns)).
Proof.
  intros Hroot Hnd Hnew Hin Hskip.
  apply ModelMetaclass_new_Ok in Hnew as (st & Hc & _ & ->); [|exact Hroot].
  destruct (collect_fields_declares subst oid name ns st n t Hc Hnd Hin Hskip)
    as (f & Hf & H).
  exists (s_odm_fields st), f.
  split; [apply attach_odm_fields|]. split; [exact Hf|].
  intros Hid. destruct (H Hid) as (H1 & H2).
  split; [exact H1|]. rewrite attach_other; [exact H2|].
  now apply (is_skipped_not_attached n t).
Qed.

Lemma annotated_field_descriptor_witness :
  exists ns' fs,
    is_root_model Samples.user_body = false /\
    NoDup (dict_keys (get_annotations Samples.user_body)) /\
    ModelMetaclass_new Samples.no_substitution Samples.objectId "UserModel"
      Samples.user_body = Ok ns' /\
    dict_get "__odm_fields__" ns' = Some (NOdmFields fs) /\
    dict_get "email" fs = Some (ODMField false "email_address") /\
    dict_get "email" ns' = Some (NPDFieldInfo Samples.plain_field).
Proof.
  destruct (ModelMetaclass_new Samples.no_substitution Samples.objectId "UserModel"
              Samples.user_body) as [ns'|e] eqn:E; [|vm_compute in E; discriminate].
  assert (Hnd : NoDup (dict_keys (get_annotations Samples.user_body))).
  { vm_compute. repeat constructor; set_solver. }
  destruct (annotated_field_descriptor Samples.no_substitution Samples.objectId
              "UserModel" Samples.user_body ns' "email" Samples.str eq_refl Hnd E)
    as (fs & f & H1 & H2 & H3).
  - simpl. right. left.
  - reflexivity.
  - simpl in H2. injection H2 as <-.
    destruct H3 as [H3 H4]; [discriminate|].
    exists ns', fs. repeat split; try assumption; reflexivity.
Defined.

(** ** A declared primary key, and the annotations that result *)

Lemma scan_fields_annotations subst name ns st :
  scan_fields subst name ns = Ok st ->
  get_annotations (s_namespace st) = substitute subst (get_annotations ns).
Proof.
  intros Hscan.
  apply scan_fields_Ok in Hscan as (st1 & Hrun & _ & _ & _ & _ & Hns).
  unfold get_annotations at 1.
  rewrite Hns, (for_each_scan_namespace_skipped name _ _ _ "__annotations__" eq_refl Hrun).
  simpl. now rewrite dict_get_set_eq.
Qed.

Lemma synthesize_primary_annotations oid st :
  get_annotations (s_namespace (synthesize_primary oid st)) =
  match s_primary_field st with
  | Some _ => get_annotations (s_namespace st)
  | None => dict_set "id" oid (get_annotations (s_namespace st))
  end.
Proof.
  unfold synthesize_primary. destruct (s_primary_field st); [reflexivity|]. simpl.
  unfold get_annotations at 1. rewrite dict_get_set_eq. f_equal.
  unfold get_annotations. now rewrite dict_get_set_ne.
Qed.

(** The annotations that the class is left with are the declared ones with
    the substitution table applied to each type, in the declared order; the
    entry [id] with the identifier type is put in (or overwritten) exactly
    when the scan has recorded no primary field. *)
Theorem annotations_substituted
    (subst : pytype -> option pytype) (oid : pytype) (name : string)
    (ns ns' : dict nsvalue) :
  is_root_model ns = false ->
  ModelMetaclass_new subst oid name ns = Ok ns' ->
  exists st,
    scan_fields subst name ns = Ok st /\
    get_annotations ns' =
      match s_primary_field st with
      | Some _ => substitute subst (get_annotations ns)
      | None => dict_set "id" oid (substitute subst (get_annotations ns))
      end.
Proof.
  intros Hroot Hnew.
  apply ModelMetaclass_new_Ok in Hnew as (st & Hc & _ & ->); [|exact Hroot].
  unfold collect_fields in Hc. apply bind_Ok in Hc as (st2 & Hscan & [= <-]).
  exists st2. split; [exact Hscan|].
  rewrite attach_annotations, synthesize_primary_annotations.
  now rewrite (scan_fields_annotations subst name ns st2 Hscan).
Qed.

Lemma annotations_substituted_witness :
  exists ns',
    is_root_model Samples.substituted_body = false /\
    ModelMetaclass_new Samples.bson_substitution Samples.objectId "Log"
      Samples.substituted_body = Ok ns' /\
    get_annotations ns' = [("at", Samples.datetime); ("id", Samples.objectId)].
Proof.
  destruct (ModelMetaclass_new Samples.bson_substitution Samples.objectId "Log"
              Samples.substituted_body) as [ns'|e] eqn:E;
    [|vm_compute in E; discriminate].
  exists ns'. split; [reflexivity|]. split; [reflexivity|].
  destruct (annotations_substituted Samples.bson_substitution Samples.objectId
              "Log" Samples.substituted_body ns' eq_refl E) as (st & Hst & H).
  vm_compute in Hst. injection Hst as <-. exact H.
Defined.

(** A field that is declared primary is the primary key of the class: it is
    the one primary entry of the table, under its configured key name or
    else its own name, [__primary_key__] names it, and no [id] is put into
    the annotations. *)
Theorem declared_primary_key
    (subst : pytype -> option pytype) (oid : pytype) (name : string)
    (ns ns' : dict nsvalue) (n : string) (t : pytype)
    (fi : FieldInfo) (kn : option string) :
  is_root_model ns = false ->
  NoDup (dict_keys (get_annotations ns)) ->
  ModelMetaclass_new subst oid name ns = Ok ns' ->
  (n, t) ∈ substitute subst (get_annotations ns) ->
  is_skipped n t = false ->
  dict_get n ns = Some (NODMFieldInfo fi true kn) ->
  dict_get "__primary_key__" ns' = Some (NValue (VStr n)) /\
  get_annotations ns' = substitute subst (get_annotations ns) /\
  exists fs,
    dict_get "__odm_fields__" ns' = Some (NOdmFields fs) /\
    primary_entries fs = [(n, ODMField true (key_name_or kn n))].
Proof.
  intros Hroot Hnd Hnew Hin Hskip Hget.
  apply ModelMetaclass_new_Ok in Hnew as (st & Hc & _ & ->); [|exact Hroot].
  pose proof (collect_fields_primary subst oid name ns st Hc) as (p & kn' & Hp & Hprim).
  unfold collect_fields in Hc. apply bind_Ok in Hc as (st2 & Hscan & [= <-]).
  pose proof (scan_fields_primary subst name ns st2 Hscan) as Hrec.
  destruct (scan_fields_declares subst name ns st2 n t Hscan Hnd Hin Hskip)
    as (f & Hf & Hf1 & _).
  rewrite Hget in Hf. simpl in Hf. injection Hf as <-.
  pose proof (primary_recorded_Some st2 n _ Hrec Hf1 eq_refl) as Hsome.
  assert (Hsyn : synthesize_primary oid st2 = st2).
  { unfold synthesize_primary. destruct (s_primary_field st2); [reflexivity|congruence]. }
  rewrite Hsyn in *.
  assert (Hin' : (n, ODMField true (key_name_or kn n)) ∈ primary_entries (s_odm_fields st2)).
  { unfold primary_entries. apply list_elem_of_In, filter_In. split; [|reflexivity].
    now apply list_elem_of_In, dict_get_elem_of. }
  rewrite Hprim in Hin'. apply list_elem_of_singleton in Hin'.
  injection Hin' as <- <-.
  split; [now apply attach_primary_key|]. split.
  - rewrite attach_annotations. now apply (scan_fields_annotations subst name).
  - exists (s_odm_fields st2). split; [apply attach_odm_fields|exact Hprim].
Qed.

Lemma declared_primary_key_witness :
  exists ns',
    is_root_model Samples.author_body = false /\
    NoDup (dict_keys (get_annotations Samples.author_body)) /\
    ModelMetaclass_new Samples.no_substitution Samples.objectId "Author"
      Samples.author_body = Ok ns' /\
    dict_get "__primary_key__" ns' = Some (NValue (VStr "pk")) /\
    get_annotations ns' = [("pk", Samples.str)].
Proof.
  destruct (ModelMetaclass_new Samples.no_substitution Samples.objectId "Author"
              Samples.author_body) as [ns'|e] eqn:E; [|vm_compute in E; discriminate].
  assert (Hnd : NoDup (dict_keys (get_annotations Samples.author_body))).
  { vm_compute. repeat constructor; set_solver. }
  destruct (declared_primary_key Samples.no_substitution Samples.objectId "Author"
              Samples.author_body ns' "pk" Samples.str Samples.plain_field None
              eq_refl Hnd E) as (H1 & H2 & _).
  - simpl. left.
  - reflexivity.
  - reflexivity.
  - exists ns'. repeat split; try assumption; reflexivity.
Defined.

(** ** Where the descriptors come from *)

Lemma elem_of_dict_keys_set {V : Type} (d : dict V) k v n :
  n ∈ dict_keys (dict_set k v d) <-> n = k \/ n ∈ dict_keys d.
Proof.
  rewrite dict_keys_set. unfold dict_mem.
  destruct (dict_get k d) as [v0|] eqn:E.
  - split; [now right|]. intros [->|H]; [|exact H].
    apply elem_of_dict_keys. exists v0. now apply dict_get_elem_of.
  - rewrite elem_of_app, list_elem_of_singleton. tauto.
Qed.

Lemma dict_get_Some_keys {V : Type} (d : dict V) k v :
  dict_get k d = Some v -> k ∈ dict_keys d.
Proof.
  intros H. apply elem_of_dict_keys. exists v. now apply dict_get_elem_of.
Qed.

(** The names that the second loop adds are valid names of the class body. *)
Lemma scan_name_keys annotations l fs n :
  n ∈ dict_keys (fold_left (scan_name annotations) l fs) ->
  n ∈ dict_keys fs \/ (is_valid_odm_field n = true /\ n ∈ dict_keys l).
Proof.
  revert fs. induction l as [|[k v] l IH]; intros fs Hn; [now left|].
  simpl in Hn. apply IH in Hn as [Hn|[Hv Hn]].
  - destruct (dict_mem k annotations); simpl in Hn; [now left|].
    destruct (is_valid_odm_field k) eqn:Hk; simpl in Hn; [|now left].
    destruct (is_untouched_value v); [now left|].
    apply elem_of_dict_keys_set in Hn as [->|Hn]; [|now left].
    right. split; [exact Hk|]. simpl. left.
  - right. split; [exact Hv|]. simpl. now right.
Qed.

(** Every name of the descriptor table is a valid field name, and it is an
    annotated name, a name that the class body binds, or the synthesized
    ["id"]; a name that starts or ends with a double underscore has no
    descriptor. *)
Theorem descriptor_names_valid
    (subst : pytype -> option pytype) (oid : pytype) (name : string)
    (ns ns' : dict nsvalue) :
  is_root_model ns = false ->
  ModelMetaclass_new subst oid name ns = Ok ns' ->
  exists fs,
    dict_get "__odm_fields__" ns' = Some (NOdmFields fs) /\
    (forall n, n ∈ dict_keys fs ->
       is_valid_odm_field n = true /\
       (n ∈ dict_keys (get_annotations ns) \/ n ∈ dict_keys ns \/ n = "id")) /\
    (forall s, dict_get ("__" ++ s)%string fs = None /\
               dict_get (s ++ "__")%string fs = None).
Proof.
  intros Hroot Hnew.
  apply ModelMetaclass_new_Ok in Hnew as (st & Hc & _ & ->); [|exact Hroot].
  exists (s_odm_fields st). split; [apply attach_odm_fields|].
  enough (Hall : forall n, n ∈ dict_keys (s_odm_fields st) ->
            is_valid_odm_field n = true /\
            (n ∈ dict_keys (get_annotations ns) \/ n ∈ dict_keys ns \/ n = "id")).
  { split; [exact Hall|]. intros s0.
    assert (Hno : forall n, is_valid_odm_field n = false ->
              dict_get n (s_odm_fields st) = None).
    { intros n Hn. apply dict_get_None. intros Hin.
      destruct (Hall n Hin) as [Hv _]. congruence. }
    split; apply Hno; unfold is_valid_odm_field.
    - now rewrite startswith_append.
    - now rewrite endswith_append, andb_false_r. }
  unfold collect_fields in Hc. apply bind_Ok in Hc as (st2 & Hscan & [= <-]).
  apply scan_fields_Ok in Hscan as (st1 & Hrun & _ & Hodm & _ & _ & _).
  set (l := substitute subst (get_annotations ns)) in *.
  assert (Hinv : (forall n, n ∈ dict_keys (s_odm_fields st1) ->
                    is_valid_odm_field n = true /\ n ∈ dict_keys l) /\
                 (forall n, n ∈ dict_keys (s_namespace st1) ->
                    n ∈ dict_keys (s_namespace (scan_start subst ns)))).
  { apply (for_each_inv
             (fun s => (forall n, n ∈ dict_keys (s_odm_fields s) ->
                          is_valid_odm_field n = true /\ n ∈ dict_keys l) /\
                       (forall n, n ∈ dict_keys (s_namespace s) ->
                          n ∈ dict_keys (s_namespace (scan_start subst ns))))
             (scan_annotation name) l) with (st := scan_start subst ns);
      [| |exact Hrun].
    - intros s [k t] s' Hin [H1 H2] Hstep.
      assert (Hk : k ∈ dict_keys l) by (apply elem_of_dict_keys; now exists t).
      apply scan_annotation_Ok in Hstep as [[_ ->]|(Hskip & _ & H)]; [now split|].
      assert (Hvalid : is_valid_odm_field k = true).
      { unfold is_skipped in Hskip. apply orb_false_elim in Hskip as [Hv _].
        now apply negb_false_iff in Hv. }
      destruct H as [(fi & p & kn & Hget & _ & _ & Ho & _ & Hns)
                    |[(kn & b & m & model & _ & _ & _ & Ho & _ & Hns)
                     |(_ & _ & Ho & _ & Hns)]]; rewrite Ho, Hns; split;
        try exact H2;
        try (intros n Hn; apply elem_of_dict_keys_set in Hn as [->|Hn]; [now split|auto]).
      intros n Hn. apply elem_of_dict_keys_set in Hn as [->|Hn]; [|auto].
      apply H2. now apply (dict_get_Some_keys _ _ _ Hget).
    - split; [|auto]. intros n Hn. simpl in Hn. now apply elem_of_nil in Hn. }
  destruct Hinv as [H1 H2].
  assert (H3 : forall n, n ∈ dict_keys (s_odm_fields st2) ->
            is_valid_odm_field n = true /\
            (n ∈ dict_keys (get_annotations ns) \/ n ∈ dict_keys ns)).
  { intros n Hn. rewrite Hodm in Hn. apply scan_name_keys in Hn as [Hn|[Hv Hn]].
    - destruct (H1 n Hn) as [Hv Hl]. split; [exact Hv|]. left.
      unfold l in Hl. now rewrite substitute_keys in Hl.
    - split; [exact Hv|]. right. apply H2 in Hn. simpl in Hn.
      apply elem_of_dict_keys_set in Hn as [->|Hn]; [discriminate|exact Hn]. }
  intros n Hn. unfold synthesize_primary in Hn.
  destruct (s_primary_field st2).
  - destruct (H3 n Hn) as [Hv Ho]. split; [exact Hv|tauto].
  - simpl in Hn. apply elem_of_dict_keys_set in Hn as [->|Hn].
    + split; [reflexivity|tauto].
    + destruct (H3 n Hn) as [Hv Ho]. split; [exact Hv|tauto].
Qed.

Lemma descriptor_names_valid_witness :
  exists ns' fs,
    is_root_model Samples.user_body = false /\
    ModelMetaclass_new Samples.no_substitution Samples.objectId "UserModel"
      Samples.user_body = Ok ns' /\
    dict_get "__odm_fields__" ns' = Some (NOdmFields fs) /\
    forall n, n ∈ dict_keys fs -> is_valid_odm_field n = true.
Proof.
  destruct (ModelMetaclass_new Samples.no_substitution Samples.objectId "UserModel"
              Samples.user_body) as [ns'|e] eqn:E; [|vm_compute in E; discriminate].
  destruct (descriptor_names_valid Samples.no_substitution Samples.objectId
              "UserModel" Samples.user_body ns' eq_refl E) as (fs & H1 & H2 & _).
  exists ns', fs. split; [reflexivity|]. split; [reflexivity|]. split; [exact H1|].
  intros n Hn. now destruct (H2 n Hn).
Defined.

(** ** Names without annotation *)

Lemma elem_of_dict_set_ne {V : Type} (d : dict V) k v' n v :
  (n, v) ∈ d -> n <> k -> (n, v) ∈ dict_set k v' d.
Proof.
  intros Hin Hne. induction d as [|[k0 v0] d IH]; simpl.
  - now apply elem_of_nil in Hin.
  - apply elem_of_cons in Hin as [[= <- <-]|Hin].
    + destruct (String.eqb_spec k n); [congruence|left].
    + destruct (String.eqb k k0); right; auto.
Qed.

(** What the second loop has set once stays. *)
Lemma scan_name_kept annotations l fs n :
  dict_get n fs = Some (ODMField false n) ->
  dict_get n (fold_left (scan_name annotations) l fs) = Some (ODMField false n).
Proof.
  revert fs. induction l as [|[k v] l IH]; intros fs Hn; [exact Hn|].
  simpl. apply IH. destruct (_ || _); [exact Hn|].
  destruct (String.eqb_spec n k) as [->|Hne].
  - apply dict_get_set_eq.
  - now rewrite dict_get_set_ne.
Qed.

Lemma scan_name_sets annotations l fs n v :
  (n, v) ∈ l -> dict_mem n annotations = false ->
  is_valid_odm_field n = true -> is_untouched_value v = false ->
  dict_get n (fold_left (scan_name annotations) l fs) = Some (ODMField false n).
Proof.
  intros Hin Hmem Hvalid Hv. revert fs.
  induction l as [|[k v0] l IH]; intros fs; [now apply elem_of_nil in Hin|].
  apply elem_of_cons in Hin as [[= <- <-]|Hin]; [|now apply IH].
  simpl. rewrite Hmem, Hvalid, Hv. simpl.
  apply scan_name_kept, dict_get_set_eq.
Qed.

(** A name that the class body binds without annotating it, if it is a valid
    field name and what is bound is no function, property, class method or
    static method, gets a plain descriptor that is not primary and has the
    name as its document key, whatever is bound: a field configuration on
    such a name is not read, and the binding is left as it is. *)
Theorem unannotated_name_descriptor
    (subst : pytype -> option pytype) (oid : pytype) (name : string)
    (ns ns' : dict nsvalue) (n : string) (v : nsvalue) :
  is_root_model ns = false ->
  ModelMetaclass_new subst oid name ns = Ok ns' ->
  (n, v) ∈ ns ->
  n ∉ dict_keys (get_annotations ns) ->
  is_valid_odm_field n = true ->
  is_untouched_value v = false ->
  n <> "id" ->
  exists fs,
    dict_get "__odm_fields__" ns' = Some (NOdmFields fs) /\
    dict_get n fs = Some (ODMField false n) /\
    dict_get n ns' = dict_get n ns.
Proof.
  intros Hroot Hnew Hin Hann Hvalid Hv Hid.
  apply ModelMetaclass_new_Ok in Hnew as (st & Hc & _ & ->); [|exact Hroot].
  exists (s_odm_fields st). split; [apply attach_odm_fields|].
  unfold collect_fields in Hc. apply bind_Ok in Hc as (st2 & Hscan & [= <-]).
  apply scan_fields_Ok in Hscan as (st1 & Hrun & _ & Hodm & _ & _ & Hns).
  set (l := substitute subst (get_annotations ns)) in *.
  assert (Hl : n ∉ dict_keys l) by (unfold l; now rewrite substitute_keys).
  assert (Hne : n <> "__annotations__") by (intros ->; discriminate).
  assert (Hin1 : (n, v) ∈ s_namespace st1).
  { apply (for_each_inv (fun s => (n, v) ∈ s_namespace s) (scan_annotation name) l)
      with (st := scan_start subst ns); [| |exact Hrun].
    - intros s [k t] s' Hk Hs Hstep.
      assert (Hnk : n <> k).
      { intros ->. apply Hl. apply elem_of_dict_keys. now exists t. }
      apply scan_annotation_Ok in Hstep as [[_ ->]|(_ & _ & H)]; [exact Hs|].
      destruct H as [(fi & p & kn & _ & _ & _ & _ & _ & Hns')
                    |[(kn & b & m & model & _ & _ & _ & _ & _ & Hns')
                     |(_ & _ & _ & _ & Hns')]]; rewrite Hns'; try exact Hs.
      now apply elem_of_dict_set_ne.
    - simpl. now apply elem_of_dict_set_ne. }
  split.
  - rewrite synthesize_primary_other by now left. rewrite Hodm.
    apply (scan_name_sets l _ _ n v Hin1); [|exact Hvalid|exact Hv].
    unfold dict_mem. destruct (dict_get n l) eqn:E; [|reflexivity].
    exfalso. apply Hl. now apply (dict_get_Some_keys _ _ _ E).
  - rewrite attach_other.
    + rewrite synthesize_primary_binding; [|exact Hne|now left].
      rewrite Hns. destruct (for_each_scan_other name l _ _ n Hrun Hl) as [_ H].
      rewrite H. now apply scan_start_get.
    + rewrite !not_elem_of_cons. repeat split; try (intros ->; discriminate).
      apply not_elem_of_nil.
Qed.

Lemma unannotated_name_descriptor_witness :
  exists ns' fs,
    is_root_model Samples.unannotated_body = false /\
    ModelMetaclass_new Samples.no_substitution Samples.objectId "Tag"
      Samples.unannotated_body = Ok ns' /\
    dict_get "__odm_fields__" ns' = Some (NOdmFields fs) /\
    dict_get "label" fs = Some (ODMField false "label") /\
    dict_get "label" ns' =
      Some (NODMFieldInfo Samples.plain_field true (Some "l")).
Proof.
  destruct (ModelMetaclass_new Samples.no_substitution Samples.objectId "Tag"
              Samples.unannotated_body) as [ns'|e] eqn:E;
    [|vm_compute in E; discriminate].
  destruct (unannotated_name_descriptor Samples.no_substitution Samples.objectId
              "Tag" Samples.unannotated_body ns' "label"
              (NODMFieldInfo Samples.plain_field true (Some "l")) eq_refl E)
    as (fs & H1 & H2 & H3); try reflexivity; try discriminate.
  - simpl. do 2 right. left.
  - simpl. apply not_elem_of_nil.
  - exists ns', fs. repeat split; try assumption; reflexivity.
Defined.

(** ** The list of references and the custom-serialized set *)

Lemma scan_annotation_references name annotations st k t st' :
  (k, t) ∈ annotations -> references_inv annotations st ->
  scan_annotation name st (k, t) = Ok st' -> references_inv annotations st'.
Proof.
  intros Hin [HA HB] H.
  assert (Hmem : dict_mem k annotations = true).
  { unfold dict_mem. destruct (dict_get k annotations) eqn:E; [reflexivity|].
    apply dict_get_None in E. exfalso. apply E. apply elem_of_dict_keys. now exists t. }
  apply scan_annotation_Ok in H as [[_ ->]|(_ & _ & H)]; [now split|].
  destruct H as [(fi & p & kn & Hget & _ & _ & Hodm & Hrefs & Hns)
                |[(kn & b & m0 & model & Hget & _ & _ & Hodm & Hrefs & Hns)
                 |(Hget & _ & Hodm & Hrefs & Hns)]];
    unfold references_inv; rewrite Hodm, Hrefs, Hns.
  - split.
    + intros n m k0. destruct (String.eqb_spec n k) as [->|Hne].
      * rewrite dict_get_set_eq. discriminate.
      * rewrite dict_get_set_ne by exact Hne. apply HA.
    + intros n Hn. destruct (HB n Hn) as (H1 & [kn' H2] & H3).
      destruct (String.eqb_spec n k) as [->|Hne]; [congruence|].
      rewrite !dict_get_set_ne by exact Hne. eauto.
  - split.
    + intros n m k0. destruct (String.eqb_spec n k) as [->|Hne].
      * intros _. apply elem_of_app. right. left.
      * rewrite dict_get_set_ne by exact Hne. intros Hn.
        apply elem_of_app. left. now apply (HA n m k0).
    + intros n Hn. destruct (String.eqb_spec n k) as [->|Hne].
      * rewrite dict_get_set_eq. eauto 6.
      * rewrite dict_get_set_ne by exact Hne.
        apply elem_of_app in Hn as [Hn|Hn]; [now apply HB|].
        apply list_elem_of_singleton in Hn. contradiction.
  - split.
    + intros n m k0. destruct (String.eqb_spec n k) as [->|Hne].
      * rewrite dict_get_set_eq. discriminate.
      * rewrite dict_get_set_ne by exact Hne. apply HA.
    + intros n Hn. destruct (HB n Hn) as (H1 & [kn' H2] & H3).
      destruct (String.eqb_spec n k) as [->|Hne].
      * destruct Hget; congruence.
      * rewrite dict_get_set_ne by exact Hne. eauto.
Qed.

(** An entry that the second loop has not found was put by it, and is plain. *)
Lemma scan_name_get annotations l fs n f :
  dict_get n (fold_left (scan_name annotations) l fs) = Some f ->
  dict_get n fs = Some f \/ f = ODMField false n.
Proof.
  revert fs. induction l as [|[k v] l IH]; intros fs Hn; [now left|].
  simpl in Hn. apply IH in Hn as [Hn|Hn]; [|now right].
  destruct (_ || _); [now left|].
  destruct (String.eqb_spec n k) as [->|Hne].
  - rewrite dict_get_set_eq in Hn. right. congruence.
  - rewrite dict_get_set_ne in Hn by exact Hne. now left.
Qed.

(** [__references__] lists the names of the reference descriptors: every
    reference descriptor of the table is listed, and every listed name other
    than ["id"] has a reference descriptor.  (A reference named ["id"] stays
    in the list when the synthesis replaces its descriptor.) *)
Theorem references_listed
    (subst : pytype -> option pytype) (oid : pytype) (name : string)
    (ns ns' : dict nsvalue) :
  is_root_model ns = false ->
  ModelMetaclass_new subst oid name ns = Ok ns' ->
  exists fs refs,
    dict_get "__odm_fields__" ns' = Some (NOdmFields fs) /\
    dict_get "__references__" ns' = Some (NReferences refs) /\
    (forall n m k, dict_get n fs = Some (ODMReference m k) -> n ∈ refs) /\
    (forall n, n ∈ refs -> n <> "id" ->
       exists m k, dict_get n fs = Some (ODMReference m k)).
Proof.
  intros Hroot Hnew.
  apply ModelMetaclass_new_Ok in Hnew as (st & Hc & _ & ->); [|exact Hroot].
  exists (s_odm_fields st), (s_references st).
  split; [apply attach_odm_fields|]. split; [apply attach_references|].
  unfold collect_fields in Hc. apply bind_Ok in Hc as (st2 & Hscan & [= <-]).
  apply scan_fields_Ok in Hscan as (st1 & Hrun & _ & Hodm & Hrefs & _ & _).
  set (l := substitute subst (get_annotations ns)) in *.
  assert (Hinv : references_inv l st1).
  { apply (for_each_inv (references_inv l) (scan_annotation name) l)
      with (st := scan_start subst ns); [| |exact Hrun].
    - intros s [k t] s' Hin. now apply scan_annotation_references.
    - split; [discriminate|]. intros n Hn. simpl in Hn. now apply elem_of_nil in Hn. }
  destruct Hinv as [HA HB].
  assert (Hsyn : s_references (synthesize_primary oid st2) = s_references st2).
  { unfold synthesize_primary. now destruct (s_primary_field st2). }
  rewrite Hsyn, Hrefs. split.
  - intros n m k Hn.
    assert (Hn2 : dict_get n (s_odm_fields st2) = Some (ODMReference m k)).
    { unfold synthesize_primary in Hn. destruct (s_primary_field st2); [exact Hn|].
      simpl in Hn. destruct (String.eqb_spec n "id") as [->|Hne].
      - rewrite dict_get_set_eq in Hn. discriminate.
      - now rewrite dict_get_set_ne in Hn. }
    rewrite Hodm in Hn2. apply scan_name_get in Hn2 as [Hn2|Hn2]; [|discriminate].
    now apply (HA n m k).
  - intros n Hn Hid. destruct (HB n Hn) as ((m & k & H1) & _ & H3).
    exists m, k. rewrite synthesize_primary_other by now left.
    now rewrite Hodm, scan_name_annotated.
Qed.

Lemma references_listed_witness :
  exists ns' fs,
    is_root_model Samples.post_body = false /\
    ModelMetaclass_new Samples.no_substitution Samples.objectId "Post"
      Samples.post_body = Ok ns' /\
    dict_get "__odm_fields__" ns' = Some (NOdmFields fs) /\
    dict_get "__references__" ns' = Some (NReferences ["author"]) /\
    exists m k, dict_get "author" fs = Some (ODMReference m k).
Proof.
  destruct (ModelMetaclass_new Samples.no_substitution Samples.objectId "Post"
              Samples.post_body) as [ns'|e] eqn:E; [|vm_compute in E; discriminate].
  destruct (references_listed Samples.no_substitution Samples.objectId "Post"
              Samples.post_body ns' eq_refl E) as (fs & refs & H1 & H2 & _ & H4).
  assert (Hrefs : refs = ["author"]).
  { vm_compute in E. injection E as <-. vm_compute in H2. now injection H2 as <-. }
  subst refs. exists ns', fs. split; [reflexivity|]. split; [reflexivity|].
  split; [exact H1|]. split; [exact H2|].
  apply H4; [left|discriminate].
Defined.

(** The custom-serialized set of the class holds exactly the names of the
    retained annotations whose type, after substitution, has
    [BSONSerializedField] among its bases. *)
Theorem bson_serialized_fields_exact
    (subst : pytype -> option pytype) (oid : pytype) (name : string)
    (ns ns' : dict nsvalue) :
  is_root_model ns = false ->
  ModelMetaclass_new subst oid name ns = Ok ns' ->
  exists b : gset string,
    dict_get "__bson_serialized_fields__" ns' = Some (NBsonFields b) /\
    forall n, n ∈ b <->
      exists t, (n, t) ∈ substitute subst (get_annotations ns) /\
                is_skipped n t = false /\ has_bson_base t = true.
Proof.
  intros Hroot Hnew.
  apply ModelMetaclass_new_Ok in Hnew as (st & Hc & _ & ->); [|exact Hroot].
  exists (s_bson_serialized_fields st).
  split; [apply attach_bson_serialized_fields|].
  unfold collect_fields in Hc. apply bind_Ok in Hc as (st2 & Hscan & [= <-]).
  apply scan_fields_Ok in Hscan as (st1 & Hrun & _ & _ & _ & Hb & _).
  set (l := substitute subst (get_annotations ns)) in *.
  assert (Hsyn : s_bson_serialized_fields (synthesize_primary oid st2) =
                 s_bson_serialized_fields st2).
  { unfold synthesize_primary. now destruct (s_primary_field st2). }
  rewrite Hsyn, Hb. intros n. split.
  - revert n.
    apply (for_each_inv
             (fun s => forall n, n ∈ s_bson_serialized_fields s ->
                exists t, (n, t) ∈ l /\ is_skipped n t = false /\
                          has_bson_base t = true)
             (scan_annotation name) l) with (st := scan_start subst ns);
      [| |exact Hrun].
    + intros s [k t] s' Hin Hs Hstep n.
      apply scan_annotation_Ok in Hstep as [[_ ->]|(Hskip & Hbs & _)]; [apply Hs|].
      rewrite Hbs. destruct (has_bson_base t) eqn:Ht; [|apply Hs].
      intros Hn. apply elem_of_union in Hn as [Hn|Hn]; [|now apply Hs].
      apply elem_of_singleton in Hn as ->. now exists t.
    + intros n Hn. simpl in Hn. now apply elem_of_empty in Hn.
  - intros (t & Hin & Hskip & Ht).
    now apply (for_each_scan_bson name l _ _ n t Hrun).
Qed.

Lemma bson_serialized_fields_exact_witness :
  exists ns' (b : gset string),
    is_root_model Samples.log_body = false /\
    ModelMetaclass_new Samples.no_substitution Samples.objectId "Log"
      Samples.log_body = Ok ns' /\
    dict_get "__bson_serialized_fields__" ns' = Some (NBsonFields b) /\
    "at" ∈ b /\ "id" ∉ b.
Proof.
  destruct (ModelMetaclass_new Samples.no_substitution Samples.objectId "Log"
              Samples.log_body) as [ns'|e] eqn:E; [|vm_compute in E; discriminate].
  destruct (bson_serialized_fields_exact Samples.no_substitution Samples.objectId
              "Log" Samples.log_body ns' eq_refl E) as (b & H1 & H2).
  exists ns', b. split; [reflexivity|]. split; [reflexivity|]. split; [exact H1|].
  split.
  - apply H2. exists Samples.datetime. split; [left|split; reflexivity].
  - intros Hid. apply H2 in Hid as (t & Hin & _). simpl in Hin.
    apply elem_of_cons in Hin as [Hin|Hin]; [discriminate|].
    now apply elem_of_nil in Hin.
Defined.

(** * More of the instance codec *)

(** ** The document that [doc] returns *)

Section SetLoopKeys.
Context {A V : Type}.
Variable key : A -> string.
Variable h : A -> result V.
Variable body : dict V -> A -> result (dict V).
Hypothesis body_eq :
  forall acc a, body acc a = bind (h a) (fun v => Ok (dict_set (key a) v acc)).

(** With distinct keys that are all new, the loop appends its keys in order. *)
Lemma set_loop_keys l acc d :
  for_each body l acc = Ok d ->
  NoDup (map key l) ->
  (forall a, a ∈ l -> key a ∉ dict_keys acc) ->
  dict_keys d = dict_keys acc ++ map key l.
Proof.
  revert acc. induction l as [|a l IH]; intros acc Hrun Hnd Hnew.
  - injection Hrun as <-. simpl. now rewrite app_nil_r.
  - rewrite for_each_cons, body_eq in Hrun.
    apply bind_Ok in Hrun as (acc1 & Hstep & Hrun).
    apply bind_Ok in Hstep as (v & Hv & [= <-]).
    simpl in Hnd. apply NoDup_cons in Hnd as [Ha Hnd].
    assert (Hkeys : dict_keys (dict_set (key a) v acc) = dict_keys acc ++ [key a]).
    { rewrite dict_keys_set. unfold dict_mem.
      destruct (dict_get (key a) acc) eqn:E; [|reflexivity].
      exfalso. apply (Hnew a); [left|]. now apply (dict_get_Some_keys _ _ _ E). }
    rewrite (IH _ Hrun Hnd).
    + rewrite Hkeys, <- app_assoc. reflexivity.
    + intros a' Ha'. rewrite Hkeys, elem_of_app, list_elem_of_singleton.
      intros [H|H].
      * apply (Hnew a'); [now right|exact H].
      * apply Ha. rewrite <- H. apply list_elem_of_fmap. now exists a'.
Qed.

End SetLoopKeys.

(** For a class whose document keys are distinct, the document that [doc]
    returns has one entry for each descriptor and no other: its keys are the
    document keys of the table, in the order of the table. *)
Theorem doc_keys
    (to_bson : pytype -> option (value -> value)) (cls : Class)
    (self d : dict value) :
  NoDup (key_names (cls_odm_fields cls)) ->
  doc to_bson cls self = Ok d ->
  dict_keys d = key_names (cls_odm_fields cls).
Proof.
  intros Hnd Hdoc. unfold doc in Hdoc.
  unfold key_names, dict_values in *. rewrite map_map in *.
  apply (set_loop_keys (fun item : string * ODMBaseField => key_name (snd item))
           (fun item => doc_value to_bson cls (model_dict self) (fst item) (snd item))
           (doc_field to_bson cls (model_dict self)) (fun acc a => eq_refl)
           (cls_odm_fields cls) [] d Hdoc Hnd).
  intros a _. apply not_elem_of_nil.
Qed.

Lemma doc_keys_witness :
  NoDup (key_names (cls_odm_fields Samples.user_class)) /\
  exists d,
    doc Samples.no_to_bson Samples.user_class Samples.user_self = Ok d /\
    dict_keys d = ["name"; "email_address"; "_id"].
Proof.
  assert (Hnd : NoDup (key_names (cls_odm_fields Samples.user_class))).
  { vm_compute. repeat constructor; set_solver. }
  split; [exact Hnd|].
  destruct (doc Samples.no_to_bson Samples.user_class Samples.user_self)
    as [d|e] eqn:E; [|vm_compute in E; discriminate].
  exists d. split; [reflexivity|].
  exact (doc_keys Samples.no_to_bson Samples.user_class Samples.user_self d Hnd E).
Defined.

(** For a class whose document keys are distinct, a plain field that is not
    custom-serialized is stored as the validation engine dumps it, under the
    document key of its descriptor. *)
Theorem doc_plain_field
    (to_bson : pytype -> option (value -> value)) (cls : Class)
    (self d : dict value) (n : string) (p : bool) (k : string) :
  NoDup (key_names (cls_odm_fields cls)) ->
  doc to_bson cls self = Ok d ->
  (n, ODMField p k) ∈ cls_odm_fields cls ->
  n ∉ cls_bson_serialized_fields cls ->
  exists v, dict_get n self = Some v /\ dict_get k d = Some (dump v).
Proof.
  intros Hnd Hdoc Hin Hflag. unfold doc in Hdoc.
  pose (keyf := fun item : string * ODMBaseField => key_name (snd item)).
  pose (h := fun item : string * ODMBaseField =>
               doc_value to_bson cls (model_dict self) (fst item) (snd item)).
  destruct (set_loop_Ok keyf h (doc_field to_bson cls (model_dict self))
              (fun acc a => eq_refl) _ _ _ (n, ODMField p k) Hdoc Hin) as [w Hw].
  assert (Hget : dict_get k d = Some w).
  { apply (set_loop_get keyf h (doc_field to_bson cls (model_dict self))
             (fun acc a => eq_refl) _ _ _ k w Hdoc).
    - right. exists (n, ODMField p k). auto.
    - intros a v Ha Hk Hv.
      assert (a = (n, ODMField p k)); [|congruence].
      apply (NoDup_map_inj keyf (cls_odm_fields cls)); [|exact Ha|exact Hin|exact Hk].
      unfold key_names, dict_values in Hnd. now rewrite map_map in Hnd. }
  unfold h, doc_value, doc_plain_value in Hw. cbn [fst snd] in Hw.
  destruct (decide (n ∈ cls_bson_serialized_fields cls)); [contradiction|].
  rewrite model_dict_get in Hw.
  destruct (dict_get n self) as [v|]; [|discriminate].
  injection Hw as <-. now exists v.
Qed.

Lemma doc_plain_field_witness :
  NoDup (key_names (cls_odm_fields Samples.user_class)) /\
  exists d,
    doc Samples.no_to_bson Samples.user_class Samples.user_self = Ok d /\
    dict_get "email_address" d = Some (VStr "ada@example.org").
Proof.
  assert (Hnd : NoDup (key_names (cls_odm_fields Samples.user_class))).
  { vm_compute. repeat constructor; set_solver. }
  split; [exact Hnd|].
  destruct (doc Samples.no_to_bson Samples.user_class Samples.user_self)
    as [d|e] eqn:E; [|vm_compute in E; discriminate].
  exists d. split; [reflexivity|].
  destruct (doc_plain_field Samples.no_to_bson Samples.user_class Samples.user_self
              d "email" false "email_address" Hnd E) as (v & Hv & Hd).
  - simpl. right. left.
  - simpl. apply not_elem_of_empty.
  - vm_compute in Hv. injection Hv as <-. exact Hd.
Defined.

(** ** What [parse_doc] needs, and the way back from [doc] *)

(** When [parse_doc] returns, it returns an instance of the class, the raw
    document has every document key of the table, and the sub-document under
    the key of each reference has itself been decoded by the referenced
    class. *)
Theorem parse_doc_needs_every_key
    (validate : pytype -> value -> option value) (cls : Class) (raw_doc x : value) :
  parse_doc validate cls raw_doc = Ok x ->
  (exists values, x = VModel (cls_name cls) values) /\
  forall n f, (n, f) ∈ cls_odm_fields cls ->
    exists v,
      getitem raw_doc (key_name f) = Ok v /\
      match f with
      | ODMReference model _ => exists y, parse_doc validate model v = Ok y
      | ODMField _ _ => True
      end.
Proof.
  rewrite parse_doc_unfold. intros H. apply bind_Ok in H as (doc' & Hloop & Hobj).
  split.
  - unfold parse_obj in Hobj. apply bind_Ok in Hobj as (values & _ & [= <-]).
    now exists values.
  - intros n f Hin.
    destruct (set_loop_Ok fst
                (fun item => parse_doc_value (parse_doc validate) raw_doc (snd item))
                (parse_doc_field (parse_doc validate) raw_doc)
                (fun acc a => eq_refl) _ _ _ (n, f) Hloop Hin) as [w Hw].
    unfold parse_doc_value in Hw. simpl in Hw.
    destruct f as [p k|model k]; simpl.
    + now exists w.
    + apply bind_Ok in Hw as (v & Hv & Hy). exists v. split; [exact Hv|now exists w].
Qed.

Lemma parse_doc_needs_every_key_witness :
  exists x,
    parse_doc Samples.accept_all Samples.post_class (VDict Samples.post_doc) = Ok x /\
    exists v y,
      getitem (VDict Samples.post_doc) "author" = Ok v /\
      parse_doc Samples.accept_all Samples.author_class v = Ok y.
Proof.
  destruct (parse_doc Samples.accept_all Samples.post_class (VDict Samples.post_doc))
    as [x|e] eqn:E; [|vm_compute in E; discriminate].
  exists x. split; [reflexivity|].
  destruct (parse_doc_needs_every_key Samples.accept_all Samples.post_class
              (VDict Samples.post_doc) x E) as [_ H].
  destruct (H "author" (ODMReference Samples.author_class "author"))
    as (v & Hv & y & Hy).
  - simpl. right. left.
  - now exists v, y.
Defined.

(** A value that is no mapping is refused by every class that has a field. *)
Lemma parse_doc_not_mapping validate cls raw_doc :
  cls_odm_fields cls <> [] ->
  (forall d, raw_doc <> VDict d) ->
  parse_doc validate cls raw_doc = Raise NotSubscriptable.
Proof.
  intros Hne Hraw. rewrite parse_doc_unfold.
  destruct (cls_odm_fields cls) as [|[n f] l]; [contradiction|].
  rewrite for_each_cons. unfold parse_doc_field, parse_doc_value. simpl.
  assert (Hget : forall k, getitem raw_doc k = Raise NotSubscriptable).
  { intros k. destruct raw_doc; try reflexivity. now contradiction (Hraw d). }
  destruct f; now rewrite Hget.
Qed.

(** The way back from [doc] is closed for a reference: [doc] stores the
    identifier of the nested instance under the key of the reference, and
    when that identifier is no mapping, [parse_doc] refuses the document
    that [doc] has returned. *)
Theorem reference_round_trip_fails
    (validate : pytype -> value -> option value)
    (to_bson : pytype -> option (value -> value)) (cls : Class)
    (self d : dict value) n model k mname vals :
  NoDup (key_names (cls_odm_fields cls)) ->
  doc to_bson cls self = Ok d ->
  (n, ODMReference model k) ∈ cls_odm_fields cls ->
  cls_odm_fields model <> [] ->
  dict_get n self = Some (VModel mname vals) ->
  (forall v d', dict_get "id" vals = Some v -> dump v <> VDict d') ->
  exists e, parse_doc validate cls (VDict d) = Raise e.
Proof.
  intros Hnd Hdoc Hin Hmodel Hself Hid.
  destruct (doc_reference_id to_bson cls self d n model k mname vals
              Hnd Hdoc Hin Hself) as (v & Hv & Hd).
  rewrite parse_doc_unfold.
  destruct (set_loop_Raise fst
              (fun item => parse_doc_value (parse_doc validate) (VDict d) (snd item))
              (parse_doc_field (parse_doc validate) (VDict d))
              (fun acc a => eq_refl)
              (cls_odm_fields cls) [] (n, ODMReference model k) NotSubscriptable Hin)
    as [e He].
  - unfold parse_doc_value. simpl. rewrite Hd. simpl.
    apply parse_doc_not_mapping; [exact Hmodel|].
    intros d'. now apply (Hid v d').
  - exists e. now rewrite He.
Qed.

Lemma reference_round_trip_fails_witness :
  NoDup (key_names (cls_odm_fields Samples.event_class)) /\
  exists d e,
    doc Samples.wrap_to_bson Samples.event_class Samples.event_self = Ok d /\
    parse_doc Samples.accept_all Samples.event_class (VDict d) = Raise e.
Proof.
  assert (Hnd : NoDup (key_names (cls_odm_fields Samples.event_class))).
  { vm_compute. repeat constructor; set_solver. }
  split; [exact Hnd|].
  destruct (doc Samples.wrap_to_bson Samples.event_class Samples.event_self)
    as [d|e0] eqn:E; [|vm_compute in E; discriminate].
  destruct (reference_round_trip_fails Samples.accept_all Samples.wrap_to_bson
              Samples.event_class Samples.event_self d "at" Samples.stamp_class "at"
              "Stamp" [("id", VObjectId 9)] Hnd E) as [e He].
  - simpl. left.
  - discriminate.
  - reflexivity.
  - intros v d' Hv. vm_compute in Hv. injection Hv as <-. discriminate.
  - now exists d, e.
Defined.

(** * More of the helpers *)

(** ** [find_duplicate_key] *)

Lemma find_duplicate_key_from_first seen l k :
  find_duplicate_key_from seen l = Some k <->
  exists l1 f l2,
    l = l1 ++ f :: l2 /\ key_name f = k /\
    (k ∈ seen \/ k ∈ map key_name l1) /\
    NoDup (map key_name l1) /\
    (forall x, x ∈ map key_name l1 -> x ∉ seen).
Proof.
  split.
  - revert seen. induction l as [|f0 l IH]; simpl; intros seen; [discriminate|].
    destruct (decide (key_name f0 ∈ seen)) as [Hin|Hnotin].
    + intros [= <-]. exists [], f0, l. simpl. repeat split.
      * now left.
      * constructor.
      * intros x Hx. now apply elem_of_nil in Hx.
    + intros H. apply IH in H as (l1 & f & l2 & -> & Hf & Hk & Hnd & Hseen).
      exists (f0 :: l1), f, l2. simpl. split; [reflexivity|]. split; [exact Hf|].
      split; [|split].
      * destruct Hk as [Hk|Hk]; [|right; now right].
        apply elem_of_union in Hk as [Hk|Hk]; [|now left].
        apply elem_of_singleton in Hk as ->. right. left.
      * apply NoDup_cons. split; [|exact Hnd].
        intros Hx. apply (Hseen _ Hx). set_solver.
      * intros x Hx. apply elem_of_cons in Hx as [->|Hx]; [exact Hnotin|].
        specialize (Hseen x Hx). set_solver.
  - intros (l1 & f & l2 & -> & Hf & Hk & Hnd & Hseen).
    revert seen Hk Hseen. induction l1 as [|f0 l1 IH]; simpl; intros seen Hk Hseen.
    + destruct Hk as [Hk|Hk]; [|now apply elem_of_nil in Hk].
      rewrite Hf. destruct (decide (k ∈ seen)); [reflexivity|contradiction].
    + simpl in Hnd. apply NoDup_cons in Hnd as [Hf0 Hnd].
      destruct (decide (key_name f0 ∈ seen)) as [Hin|Hnotin].
      * exfalso. apply (Hseen (key_name f0)); [left|exact Hin].
      * apply (IH Hnd).
        -- destruct Hk as [Hk|Hk]; [left; set_solver|].
           apply elem_of_cons in Hk as [->|Hk]; [left; set_solver|now right].
        -- intros x Hx Hx'. apply elem_of_union in Hx' as [Hx'|Hx'].
           ++ apply elem_of_singleton in Hx' as ->. contradiction.
           ++ apply (Hseen x); [now right|exact Hx'].
Qed.

(** [find_duplicate_key] returns nothing exactly when the document keys are
    pairwise distinct; otherwise it returns the key of the first descriptor,
    in the order of the table, whose key has occurred before it. *)
Theorem find_duplicate_key_first (l : list ODMBaseField) :
  (find_duplicate_key l = None <-> NoDup (map key_name l)) /\
  (forall k,
     find_duplicate_key l = Some k <->
     exists l1 f l2,
       l = l1 ++ f :: l2 /\ key_name f = k /\
       k ∈ map key_name l1 /\ NoDup (map key_name l1)).
Proof.
  split; [apply find_duplicate_key_None|].
  intros k. unfold find_duplicate_key. rewrite find_duplicate_key_from_first.
  split.
  - intros (l1 & f & l2 & Hl & Hf & Hk & Hnd & _).
    exists l1, f, l2. repeat split; try assumption.
    destruct Hk as [Hk|Hk]; [now apply elem_of_empty in Hk|exact Hk].
  - intros (l1 & f & l2 & Hl & Hf & Hk & Hnd).
    exists l1, f, l2. repeat split; try assumption; [now right|].
    intros x _. apply not_elem_of_empty.
Qed.

(** ** [to_snake_case] *)

Lemma no_upper_cons c s :
  (forall x, x ∈ list_ascii_of_string (String c s) -> Str.is_upper x = false) ->
  Str.is_upper c = false /\
  (forall x, x ∈ list_ascii_of_string s -> Str.is_upper x = false).
Proof.
  intros H. split; [apply H; left|]. intros x Hx. apply H. now right.
Qed.

Lemma re_sub_word_no_upper b s :
  (forall c, c ∈ list_ascii_of_string s -> Str.is_upper c = false) ->
  re_sub_word b s = s.
Proof.
  revert b. induction s as [|c0 s1 IH]; intros b Hs; [reflexivity|].
  apply no_upper_cons in Hs as [_ Hs1].
  rewrite re_sub_word_cons. destruct (b && Str.is_lower c0); [now rewrite IH|].
  destruct s1 as [|c1 [|c2 s3]]; try (now rewrite IH).
  apply no_upper_cons in Hs1 as [Hc1 Hs2].
  rewrite Hc1, andb_false_r. simpl andb. cbv iota.
  rewrite IH; [reflexivity|].
  intros x Hx. apply elem_of_cons in Hx as [->|Hx]; [exact Hc1|now apply Hs2].
Qed.

Lemma re_sub_hump_no_upper s :
  (forall c, c ∈ list_ascii_of_string s -> Str.is_upper c = false) ->
  re_sub_hump s = s.
Proof.
  induction s as [|c0 s1 IH]; intros Hs; [reflexivity|].
  apply no_upper_cons in Hs as [_ Hs1].
  destruct s1 as [|c1 s2]; [reflexivity|].
  rewrite re_sub_hump_cons.
  pose proof (no_upper_cons _ _ Hs1) as [Hc1 _].
  rewrite Hc1, andb_false_r. now rewrite IH.
Qed.

Lemma lower_no_upper s :
  (forall c, c ∈ list_ascii_of_string s -> Str.is_upper c = false) ->
  Str.lower s = s.
Proof.
  induction s as [|c0 s1 IH]; intros Hs; [reflexivity|].
  apply no_upper_cons in Hs as [Hc0 Hs1].
  simpl. unfold Str.lower_char. rewrite Hc0. now rewrite IH.
Qed.

(** An ASCII name without upper-case letter is its own snake case; so, on
    an ASCII name, converting twice is converting once.  (The lower-casing
    is Python's on ASCII names.) *)
Theorem to_snake_case_idempotent (s : string) :
  Str.is_ascii s = true ->
  ((forall c, c ∈ list_ascii_of_string s -> Str.is_upper c = false) ->
   to_snake_case s = s) /\
  to_snake_case (to_snake_case s) = to_snake_case s.
Proof.
  intros _.
  assert (H : forall t,
             (forall c, c ∈ list_ascii_of_string t -> Str.is_upper c = false) ->
             to_snake_case t = t).
  { intros t Ht. unfold to_snake_case.
    now rewrite re_sub_word_no_upper, re_sub_hump_no_upper, lower_no_upper. }
  split; [apply H|]. apply H. apply to_snake_case_lower.
Qed.

Lemma to_snake_case_idempotent_witness :
  to_snake_case "user_profile2" = "user_profile2" /\
  to_snake_case (to_snake_case "UserProfile2") = to_snake_case "UserProfile2".
Proof.
  destruct (to_snake_case_idempotent "user_profile2" eq_refl) as [H1 _].
  destruct (to_snake_case_idempotent "UserProfile2" eq_refl) as [_ H2].
  split; [|exact H2]. apply H1.
  intros c Hc. cbn [list_ascii_of_string] in Hc.
  repeat (apply elem_of_cons in Hc as [->|Hc]; [reflexivity|]).
  now apply elem_of_nil in Hc.
Defined.

Lemma lower_char_underscore c :
  Ascii.eqb (Str.lower_char c) "_" = Ascii.eqb c "_".
Proof. destruct c as [[] [] [] [] [] [] [] []]; reflexivity. Qed.

Lemma without_underscores_lower s :
  without_underscores (Str.lower s) = Str.lower (without_underscores s).
Proof.
  induction s as [|c s IH]; [reflexivity|].
  simpl. rewrite lower_char_underscore.
  destruct (Ascii.eqb c "_"); [exact IH|]. simpl. now rewrite IH.
Qed.

Lemma without_underscores_hump n s :
  String.length s <= n ->
  without_underscores (re_sub_hump s) = without_underscores s.
Proof.
  revert s. induction n as [|n IH]; intros s Hlen.
  - destruct s; [reflexivity|simpl in Hlen; lia].
  - destruct s as [|c0 [|c1 s2]]; try reflexivity.
    simpl in Hlen. rewrite re_sub_hump_cons.
    destruct (_ && _).
    + cbn [without_underscores]. change (Ascii.eqb "_" "_") with true. cbv iota.
      rewrite (IH s2) by lia. reflexivity.
    + cbn [without_underscores]. rewrite (IH (String c1 s2)) by (simpl; lia).
      reflexivity.
Qed.

Lemma without_underscores_word n s b :
  String.length s <= n ->
  without_underscores (re_sub_word b s) = without_underscores s.
Proof.
  revert s b. induction n as [|n IH]; intros s b Hlen.
  - destruct s; [reflexivity|simpl in Hlen; lia].
  - destruct s as [|c0 s1]; [reflexivity|].
    simpl in Hlen. rewrite re_sub_word_cons.
    destruct (b && Str.is_lower c0).
    { cbn [without_underscores]. now rewrite (IH s1) by lia. }
    destruct s1 as [|c1 [|c2 s3]];
      try (cbn [without_underscores]; rewrite IH by (simpl in *; lia); reflexivity).
    destruct (_ && _ && _).
    + cbn [without_underscores]. change (Ascii.eqb "_" "_") with true. cbv iota.
      rewrite (IH s3) by (simpl in *; lia). reflexivity.
    + cbn [without_underscores]. rewrite (IH (String c1 (String c2 s3))) by (simpl in *; lia).
      reflexivity.
Qed.

Lemma is_ascii_lower s : Str.is_ascii (Str.lower s) = Str.is_ascii s.
Proof.
  induction s as [|c s IH]; [reflexivity|].
  simpl. rewrite IH. f_equal.
  destruct c as [[] [] [] [] [] [] [] []]; reflexivity.
Qed.

Lemma is_ascii_hump n s :
  String.length s <= n -> Str.is_ascii (re_sub_hump s) = Str.is_ascii s.
Proof.
  revert s. induction n as [|n IH]; intros s Hlen.
  - destruct s; [reflexivity|simpl in Hlen; lia].
  - destruct s as [|c0 [|c1 s2]]; try reflexivity.
    simpl in Hlen. rewrite re_sub_hump_cons.
    destruct (_ && _).
    + cbn [Str.is_ascii]. change (Str.is_ascii_char "_") with true. cbn [andb].
      rewrite (IH s2) by lia. reflexivity.
    + cbn [Str.is_ascii]. rewrite (IH (String c1 s2)) by (simpl; lia).
      reflexivity.
Qed.

Lemma is_ascii_word n s b :
  String.length s <= n -> Str.is_ascii (re_sub_word b s) = Str.is_ascii s.
Proof.
  revert s b. induction n as [|n IH]; intros s b Hlen.
  - destruct s; [reflexivity|simpl in Hlen; lia].
  - destruct s as [|c0 s1]; [reflexivity|].
    simpl in Hlen. rewrite re_sub_word_cons.
    destruct (b && Str.is_lower c0).
    { cbn [Str.is_ascii]. now rewrite (IH s1) by lia. }
    destruct s1 as [|c1 [|c2 s3]];
      try (cbn [Str.is_ascii]; rewrite IH by (simpl in *; lia); reflexivity).
    destruct (_ && _ && _).
    + cbn [Str.is_ascii]. change (Str.is_ascii_char "_") with true. cbn [andb].
      rewrite (IH s3) by (simpl in *; lia). reflexivity.
    + cbn [Str.is_ascii]. rewrite (IH (String c1 (String c2 s3))) by (simpl in *; lia).
      reflexivity.
Qed.

(** [to_snake_case] changes an ASCII name only by putting underscores in
    and by lower-casing: its result is ASCII again, and with the underscores
    taken out it is the lower-cased name with the underscores taken out. *)
Theorem to_snake_case_letters (s : string) :
  Str.is_ascii s = true ->
  Str.is_ascii (to_snake_case s) = true /\
  without_underscores (to_snake_case s) = without_underscores (Str.lower s).
Proof.
  intros Hs. unfold to_snake_case. split.
  - rewrite is_ascii_lower.
    rewrite (is_ascii_hump (String.length (re_sub_word false s))) by lia.
    now rewrite (is_ascii_word (String.length s)) by lia.
  - rewrite !without_underscores_lower.
    rewrite (without_underscores_hump (String.length (re_sub_word false s))) by lia.
    now rewrite (without_underscores_word (String.length s)) by lia.
Qed.

Lemma to_snake_case_letters_witness :
  without_underscores (to_snake_case "HTTPResponseCode") = "httpresponsecode".
Proof.
  destruct (to_snake_case_letters "HTTPResponseCode" eq_refl) as [_ H].
  rewrite H. reflexivity.
Defined.

(** ** The container name *)

(** One trailing ["Model"] is taken off the class name, and one only: the
    class named [s] followed by ["Model"] gets the snake case of [s] as its
    container name, whatever [s] ends with. *)
Theorem collection_name_strips_suffix (s : string) :
  collection_name (s ++ "Model")%string = to_snake_case s.
Proof.
  unfold collection_name. rewrite endswith_append.
  f_equal. exact (drop_last_append s "Model").
Qed.

(** * The order of the table, and what the metaclass leaves alone *)

Lemma for_each_scan_keys name l st st' :
  for_each (scan_annotation name) l st = Ok st' ->
  NoDup (dict_keys l) ->
  (forall n, n ∈ dict_keys l -> n ∉ dict_keys (s_odm_fields st)) ->
  dict_keys (s_odm_fields st') = dict_keys (s_odm_fields st) ++ retained_names l.
Proof.
  revert st. induction l as [|[k t] l IH]; intros st Hrun Hnd Hnew.
  - injection Hrun as <-. unfold retained_names. simpl. now rewrite app_nil_r.
  - rewrite for_each_cons in Hrun. apply bind_Ok in Hrun as (st1 & Hstep & Hrun).
    simpl in Hnd. apply NoDup_cons in Hnd as [Hk Hnd].
    assert (Hknew : k ∉ dict_keys (s_odm_fields st)) by (apply Hnew; left).
    assert (Hset : forall f,
               dict_keys (dict_set k f (s_odm_fields st)) =
               dict_keys (s_odm_fields st) ++ [k]).
    { intros f. rewrite dict_keys_set. unfold dict_mem.
      destruct (dict_get k (s_odm_fields st)) eqn:E; [|reflexivity].
      exfalso. apply Hknew. now apply (dict_get_Some_keys _ _ _ E). }
    assert (Htail : forall f n, n ∈ dict_keys l ->
               n ∉ dict_keys (dict_set k f (s_odm_fields st))).
    { intros f n Hn. rewrite Hset, elem_of_app, list_elem_of_singleton.
      intros [H | ->]; [|contradiction]. apply (Hnew n); [now right|exact H]. }
    apply scan_annotation_Ok in Hstep as [[Hskip ->]|(Hskip & _ & H)].
    + rewrite (IH st Hrun Hnd) by (intros n Hn; apply Hnew; now right).
      unfold retained_names. simpl. now rewrite Hskip.
    + assert (Hret : retained_names ((k, t) :: l) = k :: retained_names l).
      { unfold retained_names. simpl. now rewrite Hskip. }
      rewrite Hret.
      destruct H as [(fi & p & kn & _ & _ & _ & Hodm & _ & _)
                    |[(kn & b & m & model & _ & _ & _ & Hodm & _ & _)
                     |(_ & _ & Hodm & _ & _)]];
        rewrite (IH st1 Hrun Hnd) by (rewrite Hodm; apply Htail);
        rewrite Hodm, Hset, <- app_assoc; reflexivity.
Qed.

Lemma scan_name_NoDup annotations l fs :
  NoDup (dict_keys fs) -> NoDup (dict_keys (fold_left (scan_name annotations) l fs)).
Proof.
  revert fs. induction l as [|[k v] l IH]; intros fs Hnd; [exact Hnd|].
  simpl. apply IH. destruct (_ || _); [exact Hnd|now apply dict_set_NoDup].
Qed.

Lemma dict_mem_keys {V : Type} (d : dict V) k :
  dict_mem k d = true <-> k ∈ dict_keys d.
Proof.
  unfold dict_mem. pose proof (dict_get_None k d) as H.
  destruct (dict_get k d) as [v|].
  - split; [|reflexivity]. intros _.
    destruct (decide (k ∈ dict_keys d)) as [Hin|Hout]; [exact Hin|].
    apply H in Hout. discriminate.
  - split; [discriminate|]. intros Hin. exfalso. now apply H.
Qed.

(** Setting a key that a filter passes over changes nothing of what the
    filter keeps. *)
Lemma filter_dict_set_hidden {V : Type} (P : string * V -> bool) k v d :
  (forall v', P (k, v') = false) ->
  List.filter P (dict_set k v d) = List.filter P d.
Proof.
  intros Hk. induction d as [|[k' v'] d IH]; simpl.
  - now rewrite Hk.
  - destruct (String.eqb_spec k k') as [<-|Hne]; simpl.
    + now rewrite !Hk.
    + now rewrite IH.
Qed.

Lemma unannotated_names_set annotations k v ns :
  dict_mem k annotations = true \/ is_valid_odm_field k = false ->
  unannotated_names annotations (dict_set k v ns) = unannotated_names annotations ns.
Proof.
  intros Hk. unfold unannotated_names. f_equal.
  apply filter_dict_set_hidden. intros v'. cbn [fst snd].
  destruct Hk as [-> | ->]; [reflexivity|].
  now rewrite orb_true_r.
Qed.

(** The first loop changes no binding of a name without annotation. *)
Lemma for_each_scan_unannotated name annotations l st st' :
  for_each (scan_annotation name) l st = Ok st' ->
  (forall k t, (k, t) ∈ l -> dict_mem k annotations = true) ->
  unannotated_names annotations (s_namespace st') =
  unannotated_names annotations (s_namespace st) /\
  (NoDup (dict_keys (s_namespace st)) -> NoDup (dict_keys (s_namespace st'))).
Proof.
  intros Hrun Hl.
  apply (for_each_inv
           (fun s => unannotated_names annotations (s_namespace s) =
                     unannotated_names annotations (s_namespace st) /\
                     (NoDup (dict_keys (s_namespace st)) ->
                      NoDup (dict_keys (s_namespace s))))
           (scan_annotation name) l) with (st := st); [|now split|exact Hrun].
  intros s [k t] s' Hin [Hs Hnd] Hstep.
  apply scan_annotation_Ok in Hstep as [[_ ->]|(_ & _ & H)]; [now split|].
  destruct H as [(fi & p & kn & _ & _ & _ & _ & _ & Hns)
                |[(kn & b & m & model & _ & _ & _ & _ & _ & Hns)
                 |(_ & _ & _ & _ & Hns)]]; rewrite Hns; try (now split).
  split.
  - rewrite unannotated_names_set; [exact Hs|]. left. now apply (Hl k t).
  - intros H. now apply dict_set_NoDup, Hnd.
Qed.

(** The second loop puts the names without annotation behind the table, in
    the order of the class body. *)
Lemma scan_name_fold_keys annotations l fs :
  NoDup (dict_keys l) ->
  (forall n, n ∈ unannotated_names annotations l -> n ∉ dict_keys fs) ->
  dict_keys (fold_left (scan_name annotations) l fs) =
  dict_keys fs ++ unannotated_names annotations l.
Proof.
  revert fs. induction l as [|[k v] l IH]; intros fs Hnd Hnew.
  - simpl. now rewrite app_nil_r.
  - simpl in Hnd. apply NoDup_cons in Hnd as [Hk Hnd].
    unfold unannotated_names in *. simpl in *.
    destruct (dict_mem k annotations || negb (is_valid_odm_field k)
              || is_untouched_value v); cbn [negb] in *.
    + now apply IH.
    + cbn [map fst] in *.
      assert (Hkfs : k ∉ dict_keys fs) by (apply Hnew; left).
      assert (Hset : dict_keys (dict_set k (ODMField false k) fs) = dict_keys fs ++ [k]).
      { rewrite dict_keys_set.
        destruct (dict_mem k fs) eqn:E; [|reflexivity].
        apply dict_mem_keys in E. contradiction. }
      rewrite IH; [now rewrite Hset, <- app_assoc|exact Hnd|].
      intros n Hn. rewrite Hset, elem_of_app, list_elem_of_singleton.
      intros [H | ->].
      * apply (Hnew n); [now right|exact H].
      * apply Hk. apply list_elem_of_fmap in Hn as ([n' v'] & -> & Hin).
        apply list_elem_of_In, filter_In in Hin as [Hin _].
        apply list_elem_of_In in Hin. apply elem_of_dict_keys. now exists v'.
Qed.

(** The descriptor table has one entry for each name, in the order of
    declaration: first the annotated fields that the first loop retains, in
    the order of the annotations; then the names without annotation that
    the second loop registers, in the order of the class body; and last the
    synthesized ["id"], when the primary key is synthesized and no declared
    field has that name (if one has, its entry is replaced in place). *)
Theorem descriptor_order
    (subst : pytype -> option pytype) (oid : pytype) (name : string)
    (ns ns' : dict nsvalue) :
  is_root_model ns = false ->
  NoDup (dict_keys (get_annotations ns)) ->
  NoDup (dict_keys ns) ->
  ModelMetaclass_new subst oid name ns = Ok ns' ->
  exists fs p,
    dict_get "__odm_fields__" ns' = Some (NOdmFields fs) /\
    dict_get "__primary_key__" ns' = Some (NValue (VStr p)) /\
    NoDup (dict_keys fs) /\
    dict_keys fs =
      declared_names (substitute subst (get_annotations ns)) ns ++
      (if decide (p = "id" /\
                  "id" ∉ declared_names (substitute subst (get_annotations ns)) ns)
       then ["id"] else []).
Proof.
  intros Hroot Hnd Hndns Hnew.
  apply ModelMetaclass_new_Ok in Hnew as (st & Hc & _ & ->); [|exact Hroot].
  pose proof (collect_fields_primary _ _ _ _ _ Hc) as (p & kn & Hp & Hprim).
  unfold collect_fields in Hc. apply bind_Ok in Hc as (st2 & Hscan & [= <-]).
  apply scan_fields_Ok in Hscan as (st1 & Hrun & Hp1 & Hodm & _ & _ & _).
  set (l := substitute subst (get_annotations ns)) in *.
  assert (Hk1 : dict_keys (s_odm_fields st1) = retained_names l).
  { rewrite (for_each_scan_keys name l _ _ Hrun); [reflexivity| |].
    - unfold l. now rewrite substitute_keys.
    - intros n _. apply not_elem_of_nil. }
  assert (Hnd1 : NoDup (dict_keys (s_odm_fields st1))).
  { apply (for_each_inv (fun s => NoDup (dict_keys (s_odm_fields s)))
             (scan_annotation name) l) with (st := scan_start subst ns);
      [|constructor|exact Hrun].
    intros s [k t] s' _ Hs Hstep.
    apply scan_annotation_Ok in Hstep as [[_ ->]|(_ & _ & H)]; [exact Hs|].
    destruct H as [(fi & p0 & kn0 & _ & _ & _ & Ho & _ & _)
                  |[(kn0 & b & m & model & _ & _ & _ & Ho & _ & _)
                   |(_ & _ & Ho & _ & _)]]; rewrite Ho; now apply dict_set_NoDup. }
  destruct (for_each_scan_unannotated name l l _ _ Hrun) as [Hun Hndns1].
  { intros k t Hin. apply dict_mem_keys, elem_of_dict_keys. now exists t. }
  assert (Hun0 : unannotated_names l (s_namespace st1) = unannotated_names l ns).
  { rewrite Hun. cbn [s_namespace scan_start].
    apply unannotated_names_set. now right. }
  assert (Hk2 : dict_keys (s_odm_fields st2) = declared_names l ns).
  { rewrite Hodm, scan_name_fold_keys.
    - unfold declared_names. now rewrite Hk1, Hun0.
    - apply Hndns1. cbn [s_namespace scan_start]. now apply dict_set_NoDup.
    - intros n Hn. rewrite Hk1. intros Hret.
      apply list_elem_of_fmap in Hn as ([n' v'] & -> & Hin).
      apply list_elem_of_In, filter_In in Hin as [_ HP]. cbn [fst snd] in HP.
      apply list_elem_of_fmap in Hret as ([k t] & Hk & Hin).
      apply list_elem_of_In, filter_In in Hin as [Hin _].
      apply list_elem_of_In in Hin. cbn [fst] in Hk. subst k.
      assert (Hm : dict_mem n' l = true).
      { apply dict_mem_keys, elem_of_dict_keys. now exists t. }
      rewrite Hm in HP. discriminate. }
  assert (Hnd2 : NoDup (dict_keys (s_odm_fields st2))).
  { rewrite Hodm. now apply scan_name_NoDup. }
  assert (Hpin : p ∈ dict_keys (s_odm_fields (synthesize_primary oid st2))).
  { apply elem_of_dict_keys. exists (ODMField true kn).
    assert (Hin : In (p, ODMField true kn)
                    (primary_entries (s_odm_fields (synthesize_primary oid st2)))).
    { rewrite Hprim. now left. }
    apply filter_In in Hin as [Hin _]. now apply list_elem_of_In. }
  exists (s_odm_fields (synthesize_primary oid st2)), p.
  split; [apply attach_odm_fields|]. split; [now apply attach_primary_key|].
  unfold synthesize_primary in *. destruct (s_primary_field st2) as [q|] eqn:Hq.
  - split; [exact Hnd2|]. rewrite Hk2 in *.
    destruct (decide _) as [[-> Hout]|_]; [contradiction|now rewrite app_nil_r].
  - cbn [s_primary_field s_odm_fields] in *. injection Hp as <-.
    split; [now apply dict_set_NoDup|].
    rewrite dict_keys_set, Hk2.
    destruct (dict_mem "id" (s_odm_fields st2)) eqn:Hm.
    + apply dict_mem_keys in Hm. rewrite Hk2 in Hm.
      destruct (decide _) as [[_ Hout]|_]; [contradiction|now rewrite app_nil_r].
    + destruct (decide _) as [_|Hno]; [reflexivity|].
      exfalso. apply Hno. split; [reflexivity|].
      rewrite <- Hk2. intros Hin. apply dict_mem_keys in Hin. congruence.
Qed.

Lemma descriptor_order_witness :
  exists ns' fs,
    ModelMetaclass_new Samples.no_substitution Samples.objectId "K"
      Samples.private_body = Ok ns' /\
    dict_get "__odm_fields__" ns' = Some (NOdmFields fs) /\
    dict_keys fs = ["x"; "_secret"; "id"].
Proof.
  destruct (ModelMetaclass_new Samples.no_substitution Samples.objectId "K"
              Samples.private_body) as [ns'|e] eqn:E; [|vm_compute in E; discriminate].
  assert (Hnd : NoDup (dict_keys (get_annotations Samples.private_body))).
  { vm_compute. repeat constructor; set_solver. }
  assert (Hndns : NoDup (dict_keys Samples.private_body)).
  { unfold Samples.private_body, dict_keys. cbn [map fst].
    repeat (apply NoDup_cons; split;
            [rewrite ?not_elem_of_cons; repeat split; try discriminate;
             apply not_elem_of_nil|]).
    constructor. }
  destruct (descriptor_order Samples.no_substitution Samples.objectId "K"
              Samples.private_body ns' eq_refl Hnd Hndns E)
    as (fs & p & H1 & H2 & _ & H4).
  exists ns', fs. split; [reflexivity|]. split; [exact H1|].
  assert (Hp : p = "id").
  { vm_compute in E. injection E as <-. vm_compute in H2. now injection H2 as <-. }
  subst p. rewrite H4. reflexivity.
Defined.

(** The metaclass rewrites the class body only at the names of configured
    fields, at ["id"], at the annotations and at the attributes that hold
    the schema: every other binding, a method for one, is handed on as it
    was. *)
Theorem other_bindings_kept
    (subst : pytype -> option pytype) (oid : pytype) (name : string)
    (ns ns' : dict nsvalue) (n : string) :
  is_root_model ns = false ->
  ModelMetaclass_new subst oid name ns = Ok ns' ->
  n ∉ ["__odm_fields__"; "__references__"; "__primary_key__";
       "__bson_serialized_fields__"; "__collection__"] ->
  n <> "__annotations__" -> n <> "id" ->
  (forall fi p kn, dict_get n ns <> Some (NODMFieldInfo fi p kn)) ->
  dict_get n ns' = dict_get n ns.
Proof.
  intros Hroot Hnew Hattach Hann Hid Hplain.
  apply ModelMetaclass_new_Ok in Hnew as (st & Hc & _ & ->); [|exact Hroot].
  unfold collect_fields in Hc. apply bind_Ok in Hc as (st2 & Hscan & [= <-]).
  apply scan_fields_Ok in Hscan as (st1 & Hrun & _ & _ & _ & _ & Hns).
  rewrite attach_other by exact Hattach.
  rewrite synthesize_primary_binding; [|exact Hann|now left].
  rewrite Hns.
  apply (for_each_inv (fun s => dict_get n (s_namespace s) = dict_get n ns)
           (scan_annotation name) (substitute subst (get_annotations ns)))
    with (st := scan_start subst ns); [| |exact Hrun].
  - intros s [k t] s' _ Hs Hstep.
    destruct (scan_annotation_namespace name s k t s' n Hstep)
      as [Heq|(_ & _ & fi & p & kn & Hold & _)]; [congruence|].
    rewrite Hs in Hold. now contradiction (Hplain fi p kn).
  - now apply scan_start_get.
Qed.

Lemma other_bindings_kept_witness :
  exists ns',
    is_root_model Samples.method_body = false /\
    ModelMetaclass_new Samples.no_substitution Samples.objectId "Greeter"
      Samples.method_body = Ok ns' /\
    dict_get "greet" ns' = Some NUntouched.
Proof.
  destruct (ModelMetaclass_new Samples.no_substitution Samples.objectId "Greeter"
              Samples.method_body) as [ns'|e] eqn:E; [|vm_compute in E; discriminate].
  exists ns'. split; [reflexivity|]. split; [reflexivity|].
  rewrite (other_bindings_kept Samples.no_substitution Samples.objectId "Greeter"
             Samples.method_body ns' "greet" eq_refl E); try reflexivity;
    try discriminate.
  rewrite !not_elem_of_cons. repeat split; try discriminate. apply not_elem_of_nil.
Defined.

(** * From the document key to the field *)

(** When [parse_doc] returns an instance, each declared field of the
    instance holds what the validation layer has made of the value that the
    document has under the field's document key, or, for a reference, of the
    instance that the referenced class has decoded from the sub-document
    under that key. *)
Theorem parse_doc_field_values
    (validate : pytype -> value -> option value) (cls : Class)
    (d x : dict value) (nm n : string) (f : ODMBaseField)
    (fld : ModelField pytype) :
  NoDup (dict_keys (cls_odm_fields cls)) ->
  NoDup (dict_keys (cls_fields cls)) ->
  parse_doc validate cls (VDict d) = Ok (VModel nm x) ->
  (n, f) ∈ cls_odm_fields cls ->
  (n, fld) ∈ cls_fields cls ->
  exists raw w v,
    dict_get (key_name f) d = Some raw /\
    match f with
    | ODMField _ _ => w = raw
    | ODMReference model _ => parse_doc validate model raw = Ok w
    end /\
    validate (type_ fld) w = Some v /\
    dict_get n x = Some v.
Proof.
  intros Hnd1 Hnd2 H Hin Hfld. rewrite parse_doc_unfold in H.
  apply bind_Ok in H as (doc' & Hloop & Hobj).
  unfold parse_obj in Hobj. apply bind_Ok in Hobj as (values & Hvals & [= _ <-]).
  pose (h2 := fun item : string * ODMBaseField =>
                parse_doc_value (parse_doc validate) (VDict d) (snd item)).
  pose (h3 := fun item : string * ModelField pytype =>
                validate_value validate doc' (fst item) (snd item)).
  destruct (set_loop_Ok fst h2 (parse_doc_field (parse_doc validate) (VDict d))
              (fun acc a => eq_refl) _ _ _ (n, f) Hloop Hin) as [w Hw].
  assert (Hdoc' : dict_get n doc' = Some w).
  { apply (set_loop_get fst h2 (parse_doc_field (parse_doc validate) (VDict d))
             (fun acc a => eq_refl) _ _ _ n w Hloop).
    - right. exists (n, f). auto.
    - intros a v Ha Hk Hv.
      assert (a = (n, f)); [|congruence].
      now apply (NoDup_map_inj fst (cls_odm_fields cls)). }
  destruct (set_loop_Ok fst h3 (validate_field validate doc')
              (fun acc a => eq_refl) _ _ _ (n, fld) Hvals Hfld) as [v Hv].
  assert (Hx : dict_get n values = Some v).
  { apply (set_loop_get fst h3 (validate_field validate doc')
             (fun acc a => eq_refl) _ _ _ n v Hvals).
    - right. exists (n, fld). auto.
    - intros a v' Ha Hk Hv'.
      assert (a = (n, fld)); [|congruence].
      now apply (NoDup_map_inj fst (cls_fields cls)). }
  unfold h3, validate_value in Hv. cbn [fst snd] in Hv. rewrite Hdoc' in Hv.
  destruct (validate (type_ fld) w) as [v'|] eqn:Hval; [|discriminate].
  injection Hv as ->.
  unfold h2, parse_doc_value in Hw. cbn [snd] in Hw.
  destruct f as [p k|model k]; cbn [key_name].
  - unfold getitem in Hw. destruct (dict_get k d) as [raw|] eqn:Hraw; [|discriminate].
    injection Hw as ->. exists w, w, v. auto.
  - apply bind_Ok in Hw as (raw & Hraw & Hy).
    unfold getitem in Hraw. destruct (dict_get k d) as [raw'|] eqn:Hk; [|discriminate].
    injection Hraw as ->. exists raw, w, v. auto.
Qed.

Lemma parse_doc_field_values_witness :
  NoDup (dict_keys (cls_odm_fields Samples.user_class)) /\
  NoDup (dict_keys (cls_fields Samples.user_class)) /\
  exists x,
    parse_doc Samples.accept_all Samples.user_class (VDict Samples.user_doc) =
      Ok (VModel "UserModel" x) /\
    dict_get "email" x = Some (VStr "ada@example.org").
Proof.
  assert (Hnd1 : NoDup (dict_keys (cls_odm_fields Samples.user_class))).
  { vm_compute. repeat constructor; set_solver. }
  assert (Hnd2 : NoDup (dict_keys (cls_fields Samples.user_class))).
  { vm_compute. repeat constructor; set_solver. }
  split; [exact Hnd1|]. split; [exact Hnd2|].
  destruct (parse_doc Samples.accept_all Samples.user_class (VDict Samples.user_doc))
    as [[| | | | | |nm x|]|e] eqn:E; try (vm_compute in E; discriminate).
  assert (Hnm : nm = "UserModel") by (vm_compute in E; now injection E as <- _).
  subst nm. exists x. split; [reflexivity|].
  destruct (parse_doc_field_values Samples.accept_all Samples.user_class
              Samples.user_doc x "UserModel" "email" (ODMField false "email_address")
              (mkModelField Samples.str Required) Hnd1 Hnd2 E)
    as (raw & w & v & Hraw & Hw & Hv & Hx).
  - simpl. right. left.
  - simpl. right. left.
  - vm_compute in Hraw. injection Hraw as <-. subst w.
    vm_compute in Hv. injection Hv as <-. exact Hx.
Defined.

(** * When the metaclass raises nothing *)

Lemma for_each_total {S A : Type} (P : S -> Prop) (body : S -> A -> result S) l :
  (forall st a, a ∈ l -> P st -> exists st', body st a = Ok st' /\ P st') ->
  forall st, P st -> exists st', for_each body l st = Ok st' /\ P st'.
Proof.
  induction l as [|a l IH]; intros Hbody st HP.
  - exists st. auto.
  - destruct (Hbody st a) as (st1 & Hst1 & HP1); [left|exact HP|].
    destruct IH with (st := st1) as (st' & Hst' & HP'); [|exact HP1|].
    + intros st2 b Hb. apply Hbody. now right.
    + exists st'. rewrite for_each_cons, Hst1. auto.
Qed.

Lemma plain_table_set n fs :
  plain_table fs -> n <> "_id" -> plain_table (dict_set n (ODMField false n) fs).
Proof.
  intros (Hnd & Hid & Hall) Hn. split; [now apply dict_set_NoDup|]. split.
  - rewrite elem_of_dict_keys_set. intros [H|H]; [now apply Hn|now apply Hid].
  - intros m f. destruct (decide (m = n)) as [->|Hm].
    + rewrite dict_get_set_eq. now intros [= <-].
    + rewrite dict_get_set_ne by exact Hm. apply Hall.
Qed.

Lemma plain_table_scan_name annotations l fs :
  plain_table fs -> "_id" ∉ dict_keys l ->
  plain_table (fold_left (scan_name annotations) l fs).
Proof.
  revert fs. induction l as [|[n v] l IH]; intros fs Hfs Hl; [exact Hfs|].
  simpl in Hl. apply not_elem_of_cons in Hl as [Hn Hl].
  simpl. apply IH; [|exact Hl].
  destruct (dict_mem n annotations || negb (is_valid_odm_field n)
            || is_untouched_value v); [exact Hfs|].
  apply plain_table_set; [exact Hfs|congruence].
Qed.

Lemma plain_table_key_names fs :
  plain_table fs -> NoDup (key_names (dict_set "id" (ODMField true "_id") fs)).
Proof.
  intros (Hnd & Hid & Hall).
  pose (g := fun n : string => if String.eqb n "id" then "_id" else n).
  assert (Hkeys : key_names (dict_set "id" (ODMField true "_id") fs) =
                  map g (dict_keys (dict_set "id" (ODMField true "_id") fs))).
  { unfold key_names, dict_values, dict_keys. rewrite !map_map.
    apply map_ext_in. intros [n f] Hin. apply list_elem_of_In in Hin.
    apply dict_get_NoDup in Hin; [|now apply dict_set_NoDup].
    unfold g. cbn [fst snd]. destruct (String.eqb_spec n "id") as [->|Hn].
    - rewrite dict_get_set_eq in Hin. now injection Hin as <-.
    - rewrite dict_get_set_ne in Hin by exact Hn. now rewrite (Hall _ _ Hin). }
  rewrite Hkeys. apply NoDup_fmap_2_strong; [|now apply dict_set_NoDup].
  intros x y Hx Hy. unfold g.
  apply elem_of_dict_keys_set in Hx, Hy.
  destruct (String.eqb_spec x "id") as [->|Hx'], (String.eqb_spec y "id") as [->|Hy'];
    try congruence.
  - intros <-. destruct Hy as [Hy|Hy]; [discriminate|contradiction].
  - intros ->. destruct Hx as [Hx|Hx]; [discriminate|contradiction].
Qed.

(** Take a class body whose annotations are type objects that can be
    hashed, that binds nothing to the name of a retained annotation, and
    that has no name ["_id"].  Then the metaclass raises none of its errors:
    it goes all the way to the call of [super().__new__], and the class body
    that it hands over has the synthesized ["id"] as primary key, under the
    document key ["_id"], and a plain descriptor under its own name for
    every other field. *)
Theorem annotated_body_passes
    (subst : pytype -> option pytype) (oid : pytype) (name : string)
    (ns : dict nsvalue) :
  is_root_model ns = false ->
  (forall n t, (n, t) ∈ get_annotations ns -> is_hashable t = true) ->
  (forall n t, (n, t) ∈ substitute subst (get_annotations ns) ->
     is_skipped n t = false -> dict_get n ns = None) ->
  "_id" ∉ dict_keys (get_annotations ns) ->
  "_id" ∉ dict_keys ns ->
  exists ns' fs,
    ModelMetaclass_new subst oid name ns = Ok ns' /\
    dict_get "__primary_key__" ns' = Some (NValue (VStr "id")) /\
    dict_get "__odm_fields__" ns' = Some (NOdmFields fs) /\
    dict_get "id" fs = Some (ODMField true "_id") /\
    forall n f, dict_get n fs = Some f -> n <> "id" -> f = ODMField false n.
Proof.
  intros Hroot Hhash Hunbound Hann Hns.
  assert (Hh : forallb is_hashable (dict_values (get_annotations ns)) = true).
  { apply forallb_forall. intros t Ht. apply in_map_iff in Ht as ([n t'] & <- & Hin).
    apply (Hhash n t'). now apply list_elem_of_In. }
  pose (P := fun st : scan =>
               s_primary_field st = None /\
               s_namespace st = s_namespace (scan_start subst ns) /\
               plain_table (s_odm_fields st)).
  destruct (for_each_total P (scan_annotation name)
              (substitute subst (get_annotations ns))) with (st := scan_start subst ns)
    as (st1 & Hloop & Hp1 & Hns1 & Htab1).
  { intros st [n t] Hin (Hp & Hnsp & Htab). unfold scan_annotation.
    destruct (is_skipped n t) eqn:Hskip; [exists st; unfold P; auto|].
    assert (Hvalid : n <> "__annotations__").
    { intros ->. unfold is_skipped in Hskip. vm_compute in Hskip. discriminate. }
    rewrite Hnsp, (scan_start_get subst ns n Hvalid), (Hunbound n t Hin Hskip).
    cbn [default from_option id]. eexists. split; [reflexivity|].
    unfold P. cbn [s_primary_field s_namespace s_odm_fields].
    split; [exact Hp|]. split; [reflexivity|].
    apply plain_table_set; [exact Htab|].
    intros ->. apply Hann. rewrite <- (substitute_keys subst).
    apply elem_of_dict_keys. now exists t. }
  { unfold P. cbn. split; [reflexivity|]. split; [reflexivity|].
    split; [constructor|]. split; [apply not_elem_of_nil|]. discriminate. }
  pose (fs2 := fold_left (scan_name (substitute subst (get_annotations ns)))
                 (s_namespace st1) (s_odm_fields st1)).
  assert (Htab2 : plain_table fs2).
  { apply plain_table_scan_name; [exact Htab1|].
    rewrite Hns1. cbn [s_namespace scan_start].
    rewrite elem_of_dict_keys_set. intros [H|H]; [discriminate|contradiction]. }
  pose (fs3 := dict_set "id" (ODMField true "_id") fs2).
  assert (Hrun : exists st3,
             collect_fields subst oid name ns = Ok st3 /\
             s_primary_field st3 = Some "id" /\ s_odm_fields st3 = fs3).
  { unfold collect_fields, scan_fields, substitute_types. rewrite Hh. cbn [bind].
    fold (scan_start subst ns). rewrite Hloop. cbn [bind]. unfold synthesize_primary.
    cbn [s_primary_field]. rewrite Hp1. eexists. split; [reflexivity|].
    split; reflexivity. }
  destruct Hrun as (st3 & Hst3 & Hp3 & Hfs3).
  exists (attach name st3), fs3.
  split.
  { unfold ModelMetaclass_new. rewrite Hroot, Hst3. cbn [bind].
    replace (find_duplicate_key (dict_values (s_odm_fields st3))) with (@None string);
      [reflexivity|].
    symmetry. apply find_duplicate_key_None. rewrite Hfs3.
    exact (plain_table_key_names fs2 Htab2). }
  split; [now apply attach_primary_key|].
  split; [now rewrite attach_odm_fields, Hfs3|].
  split; [apply dict_get_set_eq|].
  intros n f Hf Hn. unfold fs3 in Hf. rewrite dict_get_set_ne in Hf by exact Hn.
  destruct Htab2 as (_ & _ & Hall). now apply Hall.
Qed.

Lemma annotated_body_passes_witness :
  exists ns',
    ModelMetaclass_new Samples.no_substitution Samples.objectId "Greeter"
      Samples.method_body = Ok ns' /\
    dict_get "__primary_key__" ns' = Some (NValue (VStr "id")).
Proof.
  destruct (annotated_body_passes Samples.no_substitution Samples.objectId
              "Greeter" Samples.method_body) as (ns' & fs & H & Hp & _).
  - reflexivity.
  - intros n t Hin. vm_compute in Hin.
    apply list_elem_of_singleton in Hin. now injection Hin as _ ->.
  - intros n t Hin _. vm_compute in Hin.
    apply list_elem_of_singleton in Hin. now injection Hin as -> _.
  - intros H. vm_compute in H. apply list_elem_of_singleton in H. discriminate.
  - unfold Samples.method_body, dict_keys. cbn [map fst].
    rewrite !not_elem_of_cons. repeat split; try discriminate.
    apply not_elem_of_nil.
  - exists ns'. auto.
Defined.
